(** * Capacity ledger and join admission of the battle-royale scripts

    A shallow embedding of the two application scripts
    [application/join_game_with_opengamesindex.py] and
    [application/query_user_games.py]: the [ResourceTracker] class of each,
    the transactional join, the index query, the batched game lookup and
    the [main] of each, together with the properties their specification
    states.

    Unit figures are modelled as integers.  The store reports capacity in
    multiples of one half, which binary floating point adds exactly, so an
    integer count of half units behaves as the Python numbers do. *)

From Stdlib Require Import ZArith String List Lia Bool.
From stdpp Require Import base option list gmap strings pretty.

Local Open Scope Z_scope.
Local Open Scope string_scope.

(** ** Python values and exceptions *)

Module Py.

(** The JSON-like values a store response is made of.  A dictionary keeps
    its entries in insertion order; a lookup takes the first entry with the
    key (the keys of a Python dictionary are distinct). *)
#[warnings="-register-all"]
Inductive pyval : Type :=
| PNone
| PNum (z : Z)
| PStr (s : string)
| PDict (d : list (string * pyval))
| PList (l : list pyval).

(** [ValueError text] is what [int(text)] raises on a text it does not
    read as an integer. *)
Inductive exn : Type :=
| AttributeError (v : pyval) (attr : string)
| TypeError (v : pyval)
| ValueError (text : string)
| StoreError (code msg : string).

Inductive res (A : Type) : Type :=
| Ok (a : A)
| Raise (e : exn).
Arguments Ok {A} a.
Arguments Raise {A} e.

(** Code that mutates a state [S] and may raise: the state reached when the
    exception is raised is kept, as Python keeps the mutations made before
    a [raise]. *)
Definition M (S A : Type) : Type := S -> res A * S.

Definition ret {S A} (a : A) : M S A := fun s => (Ok a, s).

Definition bind {S A B} (m : M S A) (k : A -> M S B) : M S B :=
  fun s => match m s with
           | (Ok a, s') => k a s'
           | (Raise e, s') => (Raise e, s')
           end.

Definition raise {S A} (e : exn) : M S A := fun s => (Raise e, s).

Definition modify {S} (f : S -> S) : M S unit := fun s => (Ok tt, f s).

Definition gets {S A} (f : S -> A) : M S A := fun s => (Ok (f s), s).

(** [try: m except Exception as e: h e] *)
Definition try_except {S A} (m : M S A) (h : exn -> M S A) : M S A :=
  fun s => match m s with
           | (Ok a, s') => (Ok a, s')
           | (Raise e, s') => h e s'
           end.

Definition lift_res {S A} (r : res A) : M S A := fun s => (r, s).

Declare Scope py_scope.
Delimit Scope py_scope with py.
Notation "x <- c ;; k" := (bind c (fun x => k))
  (at level 100, c at next level, right associativity) : py_scope.
Notation "c ;;; k" := (bind c (fun _ => k))
  (at level 100, right associativity) : py_scope.
Notation "'let*' p := c 'in' k" := (bind c (fun x => match x with p => k end))
  (at level 10, p pattern, c at level 100, k at level 200) : py_scope.

(** [for x in l: body], with the loop-carried locals in [acc]. *)
Fixpoint for_each {S X A} (l : list X) (body : A -> X -> M S A) (acc : A) : M S A :=
  match l with
  | [] => ret acc
  | x :: l' => bind (body acc x) (fun acc' => for_each l' body acc')
  end.

Fixpoint dict_get (d : list (string * pyval)) (k : string) : option pyval :=
  match d with
  | [] => None
  | (k', v) :: d' => if String.eqb k' k then Some v else dict_get d' k
  end.

(** [k in d] *)
Definition dict_mem (k : string) (d : list (string * pyval)) : bool :=
  match dict_get d k with Some _ => true | None => false end.

(** [d.get(k, default)] on a dictionary *)
Definition dict_get_default (d : list (string * pyval)) (k : string) (default : pyval) : pyval :=
  match dict_get d k with Some v => v | None => default end.

(** [v.get(k, default)] on any value: only a dictionary has [get]. *)
Definition py_get (v : pyval) (k : string) (default : pyval) : res pyval :=
  match v with
  | PDict d => Ok (dict_get_default d k default)
  | _ => Raise (AttributeError v "get")
  end.

(** [v.items()] *)
Definition py_items (v : pyval) : res (list (string * pyval)) :=
  match v with
  | PDict d => Ok d
  | _ => Raise (AttributeError v "items")
  end.

(** [v == 0] *)
Definition py_eq0 (v : pyval) : bool :=
  match v with PNum 0 => true | _ => false end.

(** Truth value of [v], as [or] and [if] test it. *)
Definition truthy (v : pyval) : bool :=
  match v with
  | PNone => false
  | PNum z => negb (z =? 0)%Z
  | PStr s => negb (String.eqb s "")
  | PDict d => match d with [] => false | _ => true end
  | PList l => match l with [] => false | _ => true end
  end.

(** The right operand of [n += v] for a number [n]: anything but a number
    raises. *)
Definition num (v : pyval) : res Z :=
  match v with
  | PNum z => Ok z
  | _ => Raise (TypeError v)
  end.

End Py.

Import Py.
Local Open Scope py_scope.

(** ** The consumption record *)

Record usage : Type := Usage { rcu : Z; wcu : Z }.

Definition usage_zero : usage := Usage 0 0.
Definition add_rcu (z : Z) (u : usage) : usage := Usage (rcu u + z) (wcu u).
Definition add_wcu (z : Z) (u : usage) : usage := Usage (rcu u) (wcu u + z).

(** The attributes [reset] initialises, but for [start_time], which is the
    wall clock. *)
Record tracker : Type := Tracker {
  total_rcu : Z;
  total_wcu : Z;
  table_consumption : usage;
  gsi_consumption : gmap string usage;
  operations : list string;
  status : string;
  error : option string
}.

Definition reset : tracker :=
  Tracker 0 0 usage_zero ∅ [] "success" None.

Definition set_error (error_msg : string) (t : tracker) : tracker :=
  Tracker (total_rcu t) (total_wcu t) (table_consumption t) (gsi_consumption t)
          (operations t) "failed" (Some error_msg).

Definition add_total_rcu (z : Z) (t : tracker) : tracker :=
  Tracker (total_rcu t + z) (total_wcu t) (table_consumption t) (gsi_consumption t)
          (operations t) (status t) (error t).

Definition add_total_wcu (z : Z) (t : tracker) : tracker :=
  Tracker (total_rcu t) (total_wcu t + z) (table_consumption t) (gsi_consumption t)
          (operations t) (status t) (error t).

Definition upd_table (f : usage -> usage) (t : tracker) : tracker :=
  Tracker (total_rcu t) (total_wcu t) (f (table_consumption t)) (gsi_consumption t)
          (operations t) (status t) (error t).

Definition upd_gsi (f : gmap string usage -> gmap string usage) (t : tracker) : tracker :=
  Tracker (total_rcu t) (total_wcu t) (table_consumption t) (f (gsi_consumption t))
          (operations t) (status t) (error t).

(** [self.operations.append(operation)] *)
Definition append_operation (operation : string) (t : tracker) : tracker :=
  Tracker (total_rcu t) (total_wcu t) (table_consumption t) (gsi_consumption t)
          (operations t ++ [operation]) (status t) (error t).

(** [if gsi_name not in self.gsi_consumption:
       self.gsi_consumption[gsi_name] = {'rcu': 0, 'wcu': 0}] *)
Definition gsi_touch (gsi_name : string) (g : gmap string usage) : gmap string usage :=
  match g !! gsi_name with
  | Some _ => g
  | None => <[gsi_name := usage_zero]> g
  end.

(** [self.gsi_consumption[gsi_name][...] += ...], the entry being there *)
Definition gsi_add (f : usage -> usage) (gsi_name : string) (g : gmap string usage)
  : gmap string usage :=
  match g !! gsi_name with
  | Some u => <[gsi_name := f u]> g
  | None => g
  end.

(** [n += v] on an accumulator of the tracker: the operand is checked, then
    the accumulator is updated. *)
Definition iadd (upd : Z -> tracker -> tracker) (v : pyval) : M tracker Z :=
  z <- lift_res (num v) ;; modify (upd z) ;;; ret z.

(** ** The store, as the join transaction uses it *)

Module Store.

(** An attribute value of the low-level client: [{"S": s}] or [{"N": n}]. *)
Inductive attr : Type :=
| AttrS (s : string)
| AttrN (n : Z).

(** An item maps attribute names to values; the table maps a primary key
    [(PK, SK)] to the item stored under it. *)
Abbreviation item := (gmap string attr).
Abbreviation table := (gmap (string * string) (gmap string attr)).

Inductive condition : Type :=
| AttributeNotExists (a : string)
| AttrLe (a : string) (limit : Z).

(** A condition is evaluated on the item stored under the key, if any.
    The key attributes [PK] and [SK] belong to every stored item. *)
Definition check (c : condition) (existing : option item) : bool :=
  match c, existing with
  | AttributeNotExists a, Some it =>
      if String.eqb a "PK" || String.eqb a "SK" then false
      else match it !! a with Some _ => false | None => true end
  | AttributeNotExists _, None => true
  | AttrLe a limit, Some it =>
      match it !! a with Some (AttrN n) => (n <=? limit)%Z | _ => false end
  | AttrLe _ _, None => false
  end.

(** The two statements the transaction is made of: [Put] of an item, and
    [Update] with [SET a = a + delta]. *)
Inductive write : Type :=
| Put (key : string * string) (it : item) (cond : condition)
| Update (key : string * string) (a : string) (delta : Z) (cond : condition).

Definition write_key (w : write) : string * string :=
  match w with Put k _ _ | Update k _ _ _ => k end.

Definition write_cond (w : write) : condition :=
  match w with Put _ _ c | Update _ _ _ c => c end.

Definition apply_write (w : write) (tb : table) : option table :=
  match w with
  | Put k it _ => Some (<[k := it]> tb)
  | Update k a delta _ =>
      match tb !! k with
      | Some it =>
          match it !! a with
          | Some (AttrN n) => Some (<[k := <[a := AttrN (n + delta)]> it]> tb)
          | _ => None
          end
      | None => None
      end
  end.

Fixpoint apply_all (ws : list write) (tb : table) : option table :=
  match ws with
  | [] => Some tb
  | w :: ws' =>
      match apply_write w tb with
      | Some tb' => apply_all ws' tb'
      | None => None
      end
  end.

(** [transact_write_items]: the statements address distinct items, every
    condition is evaluated on the table as it stands, and either all the
    statements are applied or none is. *)
Definition transact_write_items (ws : list write) (tb : table) : res table :=
  if negb (bool_decide (NoDup (map write_key ws)))
  then Raise (StoreError "ValidationException" "duplicate item")
  else if forallb (fun w => check (write_cond w) (tb !! write_key w)) ws
  then match apply_all ws tb with
       | Some tb' => Ok tb'
       | None => Raise (StoreError "ValidationException" "invalid update")
       end
  else Raise (StoreError "TransactionCanceledException" "ConditionalCheckFailed").

End Store.

Import Store.

(** [random.choice(l)] on a list that is not empty, the draw being [n]. *)
Definition choice {A} (n : nat) (l : list A) (default : A) : A :=
  nth (n mod length l) l default.

(** ** [join_game_with_opengamesindex.py] *)

Module JoinGame.

Definition MAX_PLAYERS : Z := 500.

(** [operation.startswith('get_') or operation.startswith('query_') or
    operation.startswith('scan_')] *)
Definition is_read (operation : string) : bool :=
  String.prefix "get_" operation || String.prefix "query_" operation
  || String.prefix "scan_" operation.

(** Lines 91-104 and 154-167: the base-table figures of one report [d],
    added to [table_consumption]; returns [table_rcu] and [table_wcu]. *)
Definition table_part (operation : string) (d : list (string * pyval)) : M tracker (Z * Z) :=
  table_rcu <- lift_res (py_get (dict_get_default d "Table" (PDict [])) "ReadCapacityUnits" (PNum 0)) ;;
  table_wcu <- lift_res (py_get (dict_get_default d "Table" (PDict [])) "WriteCapacityUnits" (PNum 0)) ;;
  let* (table_rcu, table_wcu) := (if py_eq0 table_rcu && py_eq0 table_wcu && dict_mem "Table" d then
       table_capacity <- lift_res (py_get (dict_get_default d "Table" PNone) "CapacityUnits" (PNum 0)) ;;
       if is_read operation then ret (table_capacity, table_wcu)
       else ret (table_rcu, table_capacity)
     else ret (table_rcu, table_wcu)) in
  r <- iadd (fun z => upd_table (add_rcu z)) table_rcu ;;
  w <- iadd (fun z => upd_table (add_wcu z)) table_wcu ;;
  ret (r, w).

(** Lines 111-129 and 175-193: one pass of the loop over the secondary
    indexes; [acc] holds the running sums of the figures seen so far. *)
Definition gsi_body (operation : string) (acc : Z * Z) (entry : string * pyval) : M tracker (Z * Z) :=
  let '(gsi_name, gsi_data) := entry in
  gsi_rcu <- lift_res (py_get gsi_data "ReadCapacityUnits" (PNum 0)) ;;
  gsi_wcu <- lift_res (py_get gsi_data "WriteCapacityUnits" (PNum 0)) ;;
  let* (gsi_rcu, gsi_wcu) := (if py_eq0 gsi_rcu && py_eq0 gsi_wcu then
       gsi_capacity <- lift_res (py_get gsi_data "CapacityUnits" (PNum 0)) ;;
       if is_read operation then ret (gsi_capacity, gsi_wcu)
       else ret (gsi_rcu, gsi_capacity)
     else ret (gsi_rcu, gsi_wcu)) in
  modify (upd_gsi (gsi_touch gsi_name)) ;;;
  r <- iadd (fun z => upd_gsi (gsi_add (add_rcu z) gsi_name)) gsi_rcu ;;
  w <- iadd (fun z => upd_gsi (gsi_add (add_wcu z) gsi_name)) gsi_wcu ;;
  ret (fst acc + r, snd acc + w).

(** Lines 107-129 and 173-193: [if 'GlobalSecondaryIndexes' in d: for ...] *)
Definition gsi_part (operation : string) (d : list (string * pyval)) : M tracker (Z * Z) :=
  match dict_get d "GlobalSecondaryIndexes" with
  | Some g =>
      entries <- lift_res (py_items g) ;;
      for_each entries (gsi_body operation) (0, 0)
  | None => ret (0, 0)
  end.

(** Lines 132-138 and 196-202: the top-level undifferentiated total. *)
Definition total_direct (operation : string) (d : list (string * pyval)) : M tracker unit :=
  if is_read operation
  then iadd add_total_rcu (dict_get_default d "CapacityUnits" (PNum 0)) ;;; ret tt
  else iadd add_total_wcu (dict_get_default d "CapacityUnits" (PNum 0)) ;;; ret tt.

(** Lines 88-142: the branch of a single mapping. *)
Definition fold_single (operation : string) (d : list (string * pyval)) : M tracker unit :=
  let* (table_rcu, table_wcu) := table_part operation d in
  let* (gsi_rcu_total, gsi_wcu_total) := gsi_part operation d in
  if dict_mem "CapacityUnits" d then total_direct operation d
  else
    modify (add_total_rcu (table_rcu + gsi_rcu_total)) ;;;
    modify (add_total_wcu (table_wcu + gsi_wcu_total)).

(** Lines 210-212: one pass of the second loop over the secondary indexes,
    in the list branch.  [A or B if C else D] is [(A or B) if C else D]. *)
Definition item_body (operation : string) (acc : Z * Z) (entry : string * pyval) : M tracker (Z * Z) :=
  let '(_, gsi_data) := entry in
  dr <- (if is_read operation then
           a <- lift_res (py_get gsi_data "ReadCapacityUnits" (PNum 0)) ;;
           (if truthy a then ret a
            else lift_res (py_get gsi_data "CapacityUnits" (PNum 0)))
         else ret (PNum 0)) ;;
  item_rcu <- lift_res (num dr) ;;
  dw <- (if negb (is_read operation) then
           a <- lift_res (py_get gsi_data "WriteCapacityUnits" (PNum 0)) ;;
           (if truthy a then ret a
            else lift_res (py_get gsi_data "CapacityUnits" (PNum 0)))
         else ret (PNum 0)) ;;
  item_wcu <- lift_res (num dw) ;;
  ret (fst acc + item_rcu, snd acc + item_wcu).

(** Lines 152-215: one item of a list-shaped report.  The four sums
    [total_table_rcu], [total_table_wcu], [total_gsi_rcu], [total_gsi_wcu]
    of the source are written and never read; they are left out. *)
Definition fold_item (operation : string) (item : pyval) : M tracker unit :=
  match item with
  | PDict d =>
      let* (table_rcu, table_wcu) := table_part operation d in
      gsi_part operation d ;;;
      if dict_mem "CapacityUnits" d then total_direct operation d
      else
        let* (item_rcu, item_wcu) := match dict_get d "GlobalSecondaryIndexes" with
          | Some g =>
              entries <- lift_res (py_items g) ;;
              for_each entries (item_body operation) (table_rcu, table_wcu)
          | None => ret (table_rcu, table_wcu)
          end in
        modify (add_total_rcu item_rcu) ;;;
        modify (add_total_wcu item_wcu)
  | _ => ret tt
  end.

(** Lines 75-217 *)
Definition add_consumption (operation : string) (consumed_capacity : pyval) : M tracker unit :=
  match consumed_capacity with
  | PNone => modify (append_operation operation)
  | PDict d => fold_single operation d ;;; modify (append_operation operation)
  | PList l =>
      for_each l (fun _ item => fold_item operation item) tt ;;;
      modify (append_operation operation)
  | _ => modify (append_operation operation)
  end.

(** *** The client, the join and [main] *)

Definition TABLE_NAME : string := "battle-royale".
Definition MODULE_NAME : string := "join-game".

Definition MAPS : list string := [
  "Green Grasslands"; "Dirty Desert"; "Urban Underground"; "Juicy Jungle"; "Open Ocean";
  "Mystic Mountains"; "Frozen Frontier"; "Volcanic Valley"; "Haunted Hills"; "Sunny Shores";
  "Cosmic Crater"; "Ancient Ruins"; "Neon City"; "Foggy Forest"; "Crystal Caves";
  "Burning Badlands"; "Stormy Skies"; "Toxic Tundra"; "Peaceful Peaks"; "Deadly Dunes";
  "Lava Lakes"; "Windy Wasteland"; "Tropical Treetops"; "Icy Islands"; "Murky Marshes";
  "Savage Savannah"; "Radiant Reef"; "Dusty Docks"; "Phantom Fortress"; "Bamboo Basin";
  "Crimson Canyon"; "Emerald Estuary"; "Golden Gorge"; "Hidden Harbor"; "Ivory Isle";
  "Jade Jungle"; "Karst Kingdom"; "Lunar Landscape"; "Midnight Meadow"; "Nebula Nexus";
  "Obsidian Outpost"; "Prismatic Plains"; "Quantum Quarry"; "Ruby Ridge"; "Sapphire Springs";
  "Twilight Temple"; "Umbra Uplands"; "Verdant Valley"; "Whispering Woods"; "Xenon Xanadu"
].

(** The module-level tracker and the table behind the client. *)
Record world : Type := World {
  resource_tracker : tracker;
  db : table
}.

Definition on_tracker {A} (m : M tracker A) : M world A :=
  fun w => let (r, t') := m (resource_tracker w) in (r, World t' (db w)).

(** What the outside decides about one call of the client: whether it
    fails for a reason of its own ([fault]), and the ['ConsumedCapacity'] of
    the response, if the response has one. *)
Record reply : Type := Reply {
  fault : option exn;
  ConsumedCapacity : option pyval
}.

(** A query answers with items as well. *)
Record query_reply : Type := QueryReply {
  q_reply : reply;
  Items : list item
}.

(** The emitted usage record, but for [timestamp], [latency_ms], [region]
    and [request_id], which come from the clock, the session and [uuid4]. *)
Record log_entry : Type := LogEntry {
  log_module : string;
  log_operations : list string;
  log_user_id : string;
  log_rcu : Z;
  log_wcu : Z;
  log_table : string;
  log_status : string;
  log_table_usage : usage;
  log_gsi_usage : option (gmap string usage);
  log_error : option string
}.

(** What one run of [main] draws from outside: the two random choices, the
    user id of [get_random_user_from_table], and the answers of the store. *)
Record env : Type := Env {
  map_draw : nat;
  query : string -> query_reply;
  game_draw : nat;
  user_id : string;
  join_reply : reply
}.

Section Client.

(** [str(e)] of an exception: the text is the interpreter's and the
    client library's. *)
Variable py_str : exn -> string.

(** [dynamodb.transact_write_items(TransactItems=ws, ...)] *)
Definition transact (ws : list write) (r : reply) : M world (option pyval) :=
  fun w =>
    match fault r with
    | Some e => (Raise e, w)
    | None =>
        match transact_write_items ws (db w) with
        | Ok tb' => (Ok (ConsumedCapacity r), World (resource_tracker w) tb')
        | Raise e => (Raise e, w)
        end
    end.

(** Lines 327-333 *)
Definition extract_game_id (game_data : item) : option string :=
  match game_data !! "game_id" with
  | Some (AttrS s) => Some s
  | _ =>
      match game_data !! "PK" with
      | Some (AttrS pk) =>
          if String.prefix "GAME#" pk
          then Some (String.substring 5 (String.length pk - 5) pk)
          else None
      | _ => None
      end
  end.

(** Lines 344-375: the two statements of the transaction. *)
Definition join_statements (game_id username : string) : list write := [
  Put ("GAME#" +:+ game_id, "USER#" +:+ username)
      (<["PK" := AttrS ("GAME#" +:+ game_id)]>
         (<["SK" := AttrS ("USER#" +:+ username)]>
            (<["game_id" := AttrS game_id]>
               (<["username" := AttrS username]> ∅))))
      (AttributeNotExists "SK");
  Update ("GAME#" +:+ game_id, "#METADATA#" +:+ game_id) "people" 1
      (AttrLe "people" (MAX_PLAYERS - 1))
].

(** Lines 316-398 *)
Definition join_game_for_user (game_data : item) (username : string) (r : reply)
  : M world bool :=
  try_except
    (match extract_game_id game_data with
     | Some game_id =>
         if String.eqb game_id "" then
           on_tracker (modify (set_error "Could not determine game ID")) ;;;
           ret false
         else
           try_except
             (response <- transact (join_statements game_id username) r ;;
              match response with
              | Some consumed_capacity =>
                  on_tracker (add_consumption "join_game_transaction" consumed_capacity)
              | None =>
                  on_tracker (modify (append_operation "join_game_transaction"))
              end ;;;
              ret true)
             (fun transaction_error =>
                on_tracker (modify (set_error ("Transaction error: " +:+ py_str transaction_error))) ;;;
                ret false)
     | None =>
         on_tracker (modify (set_error "Could not determine game ID")) ;;;
         ret false
     end)
    (fun e => on_tracker (modify (set_error (py_str e))) ;;; ret false).

(** Lines 231-278 *)
Definition get_open_games_by_map (e : env) (map_name : string) : M world (list item) :=
  try_except
    (match fault (q_reply (query e map_name)) with
     | Some err => raise err
     | None =>
         match ConsumedCapacity (q_reply (query e map_name)) with
         | Some consumed_capacity =>
             on_tracker (add_consumption ("query_open_games_map_" +:+ map_name) consumed_capacity)
         | None =>
             on_tracker (modify (append_operation ("query_open_games_map_" +:+ map_name)))
         end ;;;
         ret (Items (query e map_name))
     end)
    (fun err => on_tracker (modify (set_error (py_str err))) ;;; ret []).

(** Lines 400-440 *)
Definition log_resource_usage (user : string) : M world log_entry :=
  gets (fun w =>
    let t := resource_tracker w in
    LogEntry MODULE_NAME (operations t) user (total_rcu t) (total_wcu t) TABLE_NAME
      (status t) (table_consumption t)
      (if bool_decide (gsi_consumption t = ∅) then None else Some (gsi_consumption t))
      (match error t with
       | Some msg => if String.eqb msg "" then None else Some msg
       | None => None
       end)).

(** Lines 464-469: the loop over the other maps, [open_games] being the
    variable the loop reassigns. *)
Fixpoint try_other_maps (e : env) (selected_map : string) (maps : list string)
    (open_games : list item) : M world (list item) :=
  match maps with
  | [] => ret open_games
  | map_name :: maps' =>
      if String.eqb map_name selected_map
      then try_other_maps e selected_map maps' open_games
      else
        open_games <- get_open_games_by_map e map_name ;;
        match open_games with
        | [] => try_other_maps e selected_map maps' open_games
        | _ :: _ => ret open_games
        end
  end.

(** Lines 456-469: the games [main] chooses from. *)
Definition find_open_games (e : env) : M world (list item) :=
  open_games <- get_open_games_by_map e (choice (map_draw e) MAPS "") ;;
  match open_games with
  | [] => try_other_maps e (choice (map_draw e) MAPS "") MAPS open_games
  | _ :: _ => ret open_games
  end.

(** Lines 442-502; the result is the usage record [main] emits. *)
Definition main (e : env) : M world log_entry :=
  modify (fun w => World reset (db w)) ;;;
  try_except
    (open_games <- find_open_games e ;;
     match open_games with
     | [] =>
         on_tracker (modify (set_error "No open games available")) ;;;
         log_resource_usage "N/A"
     | _ :: _ =>
         success <- join_game_for_user (choice (game_draw e) open_games ∅) (user_id e)
                      (join_reply e) ;;
         (if success : bool
          then on_tracker (modify (fun t =>
                 Tracker (total_rcu t) (total_wcu t) (table_consumption t)
                         (gsi_consumption t) (operations t) "success" None))
          else ret tt) ;;;
         log_resource_usage (user_id e)
     end)
    (fun err =>
       on_tracker (modify (set_error ("Unexpected error: " +:+ py_str err))) ;;;
       log_resource_usage "error").

End Client.

End JoinGame.

(** ** [query_user_games.py] *)

Module QueryUserGames.

(** [operation.startswith('get_') or operation.startswith('query_')] *)
Definition is_read (operation : string) : bool :=
  String.prefix "get_" operation || String.prefix "query_" operation.

(** Lines 78-91 and 136-149 *)
Definition table_part (operation : string) (d : list (string * pyval)) : M tracker (Z * Z) :=
  table_rcu <- lift_res (py_get (dict_get_default d "Table" (PDict [])) "ReadCapacityUnits" (PNum 0)) ;;
  table_wcu <- lift_res (py_get (dict_get_default d "Table" (PDict [])) "WriteCapacityUnits" (PNum 0)) ;;
  let* (table_rcu, table_wcu) := (if py_eq0 table_rcu && py_eq0 table_wcu && dict_mem "Table" d then
       table_capacity <- lift_res (py_get (dict_get_default d "Table" PNone) "CapacityUnits" (PNum 0)) ;;
       if is_read operation then ret (table_capacity, table_wcu)
       else ret (table_rcu, table_capacity)
     else ret (table_rcu, table_wcu)) in
  r <- iadd (fun z => upd_table (add_rcu z)) table_rcu ;;
  w <- iadd (fun z => upd_table (add_wcu z)) table_wcu ;;
  ret (r, w).

(** Lines 98-116 and 156-174 *)
Definition gsi_body (operation : string) (acc : Z * Z) (entry : string * pyval) : M tracker (Z * Z) :=
  let '(gsi_name, gsi_data) := entry in
  gsi_rcu <- lift_res (py_get gsi_data "ReadCapacityUnits" (PNum 0)) ;;
  gsi_wcu <- lift_res (py_get gsi_data "WriteCapacityUnits" (PNum 0)) ;;
  let* (gsi_rcu, gsi_wcu) := (if py_eq0 gsi_rcu && py_eq0 gsi_wcu then
       gsi_capacity <- lift_res (py_get gsi_data "CapacityUnits" (PNum 0)) ;;
       if is_read operation then ret (gsi_capacity, gsi_wcu)
       else ret (gsi_rcu, gsi_capacity)
     else ret (gsi_rcu, gsi_wcu)) in
  modify (upd_gsi (gsi_touch gsi_name)) ;;;
  r <- iadd (fun z => upd_gsi (gsi_add (add_rcu z) gsi_name)) gsi_rcu ;;
  w <- iadd (fun z => upd_gsi (gsi_add (add_wcu z) gsi_name)) gsi_wcu ;;
  ret (fst acc + r, snd acc + w).

(** Lines 94-116 and 152-174 *)
Definition gsi_part (operation : string) (d : list (string * pyval)) : M tracker (Z * Z) :=
  match dict_get d "GlobalSecondaryIndexes" with
  | Some g =>
      entries <- lift_res (py_items g) ;;
      for_each entries (gsi_body operation) (0, 0)
  | None => ret (0, 0)
  end.

(** Lines 119-125 and 177-183 *)
Definition total_direct (operation : string) (d : list (string * pyval)) : M tracker unit :=
  if is_read operation
  then iadd add_total_rcu (dict_get_default d "CapacityUnits" (PNum 0)) ;;; ret tt
  else iadd add_total_wcu (dict_get_default d "CapacityUnits" (PNum 0)) ;;; ret tt.

(** Lines 75-129: the branch of a single mapping. *)
Definition fold_single (operation : string) (d : list (string * pyval)) : M tracker unit :=
  let* (table_rcu, table_wcu) := table_part operation d in
  let* (gsi_rcu_total, gsi_wcu_total) := gsi_part operation d in
  if dict_mem "CapacityUnits" d then total_direct operation d
  else
    modify (add_total_rcu (table_rcu + gsi_rcu_total)) ;;;
    modify (add_total_wcu (table_wcu + gsi_wcu_total)).

(** Lines 134-190: one item of a list-shaped report. *)
Definition fold_item (operation : string) (item : pyval) : M tracker unit :=
  match item with
  | PDict d =>
      let* (table_rcu, table_wcu) := table_part operation d in
      let* (gsi_item_rcu_total, gsi_item_wcu_total) := gsi_part operation d in
      if dict_mem "CapacityUnits" d then total_direct operation d
      else
        modify (add_total_rcu (table_rcu + gsi_item_rcu_total)) ;;;
        modify (add_total_wcu (table_wcu + gsi_item_wcu_total))
  | _ => ret tt
  end.

(** Lines 62-192 *)
Definition add_consumption (operation : string) (consumed_capacity : pyval) : M tracker unit :=
  match consumed_capacity with
  | PNone => modify (append_operation operation)
  | PDict d => fold_single operation d ;;; modify (append_operation operation)
  | PList l =>
      for_each l (fun _ item => fold_item operation item) tt ;;;
      modify (append_operation operation)
  | _ => modify (append_operation operation)
  end.

(** *** The bulk lookup *)

Definition TABLE_NAME : string := "battle-royale".

(** The module-level tracker, and the bulk reads sent to the store so far,
    oldest first. *)
Record world : Type := World {
  resource_tracker : tracker;
  bulk_reads : list (list (string * string))
}.

Definition on_tracker {A} (m : M tracker A) : M world A :=
  fun w => let (r, t') := m (resource_tracker w) in (r, World t' (bulk_reads w)).

(** An attribute value as a response of the low-level client carries it:
    [{"S": s}], [{"N": text}] with the number as the text the store sends,
    or a value of another type. *)
Inductive response_attr : Type :=
| RespS (s : string)
| RespN (text : string)
| RespOther.

Abbreviation response_item := (gmap string response_attr).

(** What the store answers to one bulk read: a fault of its own, the
    ['ConsumedCapacity'] of the response if it has one, and
    [response['Responses'][TABLE_NAME]] if it is there. *)
Record batch_reply : Type := BatchReply {
  fault : option exn;
  ConsumedCapacity : option pyval;
  Responses : option (list response_item)
}.

(** A [game_detail] dictionary: every key is optional. *)
Record game_detail : Type := GameDetail {
  game_id : option string;
  map : option string;
  people : option Z;
  max_people : option Z;
  open_timestamp : option Z
}.

(** [item[a]['S']] when ['a' in item and 'S' in item[a]] *)
Definition attr_S (it : response_item) (a : string) : option string :=
  match it !! a with Some (RespS s) => Some s | _ => None end.

(** [range(0, n, step)] *)
Definition py_range (n step : nat) : list nat :=
  List.map (fun k => (k * step)%nat) (seq 0 ((n + step - 1) / step)).

(** [keys[i:i+100]] *)
Definition slice (keys : list (string * string)) (i : nat) : list (string * string) :=
  firstn 100 (skipn i keys).

(** What the store answers to the query on the inverted index. *)
Record query_reply : Type := QueryReply {
  q_fault : option exn;
  q_ConsumedCapacity : option pyval;
  Items : list response_item
}.

(** What the store answers to the scan of [get_random_user_from_table]. *)
Record scan_reply : Type := ScanReply {
  s_fault : option exn;
  s_Items : list response_item
}.

(** A [{'game_id': ..., 'username': ...}] dictionary of [query_user_games]. *)
Record game_reference : Type := GameReference {
  ref_game_id : string;
  ref_username : string
}.

(** [s.replace('USER#', '')]: the occurrences are found from the left and
    do not overlap; [skip] counts the characters of an occurrence still to
    drop. *)
Fixpoint remove_user_tag (skip : nat) (s : string) : string :=
  match s with
  | EmptyString => EmptyString
  | String c s' =>
      match skip with
      | S k => remove_user_tag k s'
      | O => if String.prefix "USER#" s then remove_user_tag 4 s'
             else String c (remove_user_tag 0 s')
      end
  end.

(** Lines 206-240 (and 280-314 of [join_game_with_opengamesindex.py]): the
    scan is not reported to the tracker.  [uuid_hex] is [uuid.uuid4().hex]. *)
Definition get_random_user_from_table (scan : scan_reply) (draw : nat) (uuid_hex : string)
  : string :=
  match s_fault scan with
  | Some _ => "user_" +:+ String.substring 0 8 uuid_hex
  | None =>
      match s_Items scan with
      | [] => "user_" +:+ String.substring 0 8 uuid_hex
      | users =>
          match choice draw users ∅ !! "PK" with
          | Some (RespS pk) => remove_user_tag 0 pk
          | _ => "user_" +:+ String.substring 0 8 uuid_hex
          end
      end
  end.

Section Client.

Variable py_str : exn -> string.

(** [int(text)]: the integer read from [text], or nothing when [int]
    raises [ValueError]; which texts are read is the interpreter's. *)
Variable py_int : string -> option Z.

(** [if a in item and 'N' in item[a]: game_detail[a] = int(item[a]['N'])] *)
Definition int_attr (it : response_item) (a : string) : res (option Z) :=
  match it !! a with
  | Some (RespN text) =>
      match py_int text with
      | Some n => Ok (Some n)
      | None => Raise (ValueError text)
      end
  | _ => Ok None
  end.

(** Lines 364-385: the [game_detail] of one item.  The game id and the map
    are read first and cannot raise; the three numbers are read in the
    order [people], [max_people], [open_timestamp]. *)
Definition extract_detail {S} (it : response_item) : M S game_detail :=
  people <- lift_res (int_attr it "people") ;;
  max_people <- lift_res (int_attr it "max_people") ;;
  open_timestamp <- lift_res (int_attr it "open_timestamp") ;;
  ret (GameDetail
         (match attr_S it "game_id" with
          | Some s => Some s
          | None =>
              match attr_S it "PK" with
              | Some pk =>
                  if String.prefix "GAME#" pk
                  then Some (String.substring 5 (String.length pk - 5) pk)
                  else None
              | None => None
              end
          end)
         (attr_S it "map") people max_people open_timestamp).

(** The store: the answer to the bulk read of [batch_keys]. *)
Variable batch_get_item : list (string * string) -> batch_reply.

(** Lines 339-387: one pass of the loop over the batches. *)
Definition batch_body (keys : list (string * string)) (all_game_details : list game_detail)
    (i : nat) : M world (list game_detail) :=
  modify (fun w => World (resource_tracker w) (bulk_reads w ++ [slice keys i])) ;;;
  match fault (batch_get_item (slice keys i)) with
  | Some err => raise err
  | None =>
      match ConsumedCapacity (batch_get_item (slice keys i)) with
      | Some consumed_capacity =>
          on_tracker (add_consumption ("get_game_details_batch_" +:+ pretty (i / 100)%nat)
                        consumed_capacity)
      | None =>
          on_tracker (modify (append_operation
                        ("get_game_details_batch_" +:+ pretty (i / 100)%nat)))
      end ;;;
      match Responses (batch_get_item (slice keys i)) with
      | Some items =>
          for_each items
            (fun all_game_details item =>
               game_detail <- extract_detail item ;;
               ret (all_game_details ++ [game_detail])%list)
            all_game_details
      | None => ret all_game_details
      end
  end.

(** Lines 312-395 *)
Definition get_game_details (game_ids : list string) : M world (list game_detail) :=
  match game_ids with
  | [] => ret []
  | _ :: _ =>
      try_except
        (for_each (py_range (length (List.map (fun g => ("GAME#" +:+ g, "#METADATA#" +:+ g)) game_ids)) 100)
           (batch_body (List.map (fun g => ("GAME#" +:+ g, "#METADATA#" +:+ g)) game_ids)) [])
        (fun e => on_tracker (modify (set_error (py_str e))) ;;; ret [])
  end.

(** The store: the answer to the query for the games of [user_id]. *)
Variable query : string -> query_reply.

(** Lines 279-285: the game id of one row. *)
Definition row_game_id (game : response_item) : option string :=
  match game !! "game_id" with
  | Some (RespS s) => Some s
  | _ =>
      match game !! "PK" with
      | Some (RespS pk) =>
          if String.prefix "GAME#" pk
          then Some (String.substring 5 (String.length pk - 5) pk)
          else None
      | _ => None
      end
  end.

(** Lines 277-291: the loop over the rows. *)
Fixpoint references (user_id : string) (games : list response_item) : list game_reference :=
  match games with
  | [] => []
  | game :: games' =>
      match row_game_id game with
      | Some game_id =>
          if String.eqb game_id "" then references user_id games'
          else GameReference game_id user_id :: references user_id games'
      | None => references user_id games'
      end
  end.

(** Lines 242-310: a [ClientError] is a [StoreError], whose response
    carries the code and the message. *)
Definition query_user_games (user_id : string) : M world (list game_reference) :=
  try_except
    (match q_fault (query user_id) with
     | Some err => raise err
     | None =>
         match q_ConsumedCapacity (query user_id) with
         | Some consumed_capacity =>
             on_tracker (add_consumption ("query_user_games_" +:+ user_id) consumed_capacity)
         | None =>
             on_tracker (modify (append_operation ("query_user_games_" +:+ user_id)))
         end ;;;
         ret (references user_id (Items (query user_id)))
     end)
    (fun e =>
       match e with
       | StoreError error_code error_message =>
           (if String.eqb error_code "ResourceNotFoundException"
            then on_tracker (modify (set_error ("GSI not found: " +:+ error_message)))
            else on_tracker (modify (set_error ("DynamoDB error: " +:+ error_message)))) ;;;
           ret []
       | _ => on_tracker (modify (set_error (py_str e))) ;;; ret []
       end).

(** Lines 397-433 *)
Definition log_resource_usage (user : string) : M world JoinGame.log_entry :=
  gets (fun w =>
    let t := resource_tracker w in
    JoinGame.LogEntry "query-user-games" (operations t) user (total_rcu t) (total_wcu t)
      TABLE_NAME (status t) (table_consumption t)
      (if bool_decide (gsi_consumption t = ∅) then None else Some (gsi_consumption t))
      (match error t with
       | Some msg => if String.eqb msg "" then None else Some msg
       | None => None
       end)).

(** Lines 435-483; [argv1] is [sys.argv[1]] when it is there, [random_user]
    what [get_random_user_from_table] returns.  The result is the usage
    record [main] emits. *)
Definition main (argv1 : option string) (random_user : string) : M world JoinGame.log_entry :=
  modify (fun w => World reset (bulk_reads w)) ;;;
  try_except
    (user_games <- query_user_games (default random_user argv1) ;;
     match user_games with
     | [] => log_resource_usage (default random_user argv1)
     | _ :: _ =>
         get_game_details (List.map ref_game_id user_games) ;;;
         log_resource_usage (default random_user argv1)
     end)
    (fun e =>
       on_tracker (modify (set_error ("Unexpected error: " +:+ py_str e))) ;;;
       log_resource_usage "error").

End Client.

End QueryUserGames.

(** ** Well-typed reports and what they denote *)

(** A report as the store sends it: every field is optional, a field that
    is present has the type the store gives it. *)
Definition is_num_opt (o : option pyval) : bool :=
  match o with
  | None | Some (PNum _) => true
  | Some _ => false
  end.

Definition wf_entry (v : pyval) : bool :=
  match v with
  | PDict e =>
      is_num_opt (dict_get e "ReadCapacityUnits")
      && is_num_opt (dict_get e "WriteCapacityUnits")
      && is_num_opt (dict_get e "CapacityUnits")
  | _ => false
  end.

Definition wf_table (d : list (string * pyval)) : bool :=
  match dict_get d "Table" with
  | Some v => wf_entry v
  | None => true
  end.

Definition wf_gsi (d : list (string * pyval)) : bool :=
  match dict_get d "GlobalSecondaryIndexes" with
  | Some (PDict g) => forallb (fun entry => wf_entry (snd entry)) g
  | Some _ => false
  | None => true
  end.

Definition wf_fields (d : list (string * pyval)) : bool :=
  wf_table d && wf_gsi d && is_num_opt (dict_get d "CapacityUnits").

Definition wf_item (item : pyval) : bool :=
  match item with
  | PDict d => wf_fields d
  | _ => true
  end.

Definition wf_report (consumed_capacity : pyval) : bool :=
  match consumed_capacity with
  | PDict d => wf_fields d
  | PList l => forallb wf_item l
  | _ => true
  end.

(** The figure under key [k], zero when the field is missing. *)
Definition field (e : list (string * pyval)) (k : string) : Z :=
  match dict_get e k with
  | Some (PNum z) => z
  | _ => 0
  end.

(** Read and write units of one entry, [rd] telling whether the operation
    name is read-shaped. *)
Definition entry_units (rd : bool) (e : list (string * pyval)) : Z * Z :=
  if (field e "ReadCapacityUnits" =? 0)%Z && (field e "WriteCapacityUnits" =? 0)%Z
  then if rd then (field e "CapacityUnits", 0) else (0, field e "CapacityUnits")
  else (field e "ReadCapacityUnits", field e "WriteCapacityUnits").

Definition entry_of (v : pyval) : list (string * pyval) :=
  match v with PDict e => e | _ => [] end.

Definition table_units (rd : bool) (d : list (string * pyval)) : Z * Z :=
  entry_units rd (entry_of (dict_get_default d "Table" (PDict []))).

Definition gsi_entries (d : list (string * pyval)) : list (string * pyval) :=
  entry_of (dict_get_default d "GlobalSecondaryIndexes" (PDict [])).

Definition gsi_step (rd : bool) (g : gmap string usage) (entry : string * pyval)
  : gmap string usage :=
  gsi_add (add_wcu (snd (entry_units rd (entry_of (snd entry))))) (fst entry)
    (gsi_add (add_rcu (fst (entry_units rd (entry_of (snd entry))))) (fst entry)
       (gsi_touch (fst entry) g)).

Definition sum_step (rd : bool) (acc : Z * Z) (entry : string * pyval) : Z * Z :=
  (fst acc + fst (entry_units rd (entry_of (snd entry))),
   snd acc + snd (entry_units rd (entry_of (snd entry)))).

(** What the overall totals receive from one report when it is folded the
    way the single-mapping branch folds it. *)
Definition total_units (rd : bool) (d : list (string * pyval)) : Z * Z :=
  if dict_mem "CapacityUnits" d
  then if rd then (field d "CapacityUnits", 0) else (0, field d "CapacityUnits")
  else (fst (table_units rd d) + fst (fold_left (sum_step rd) (gsi_entries d) (0, 0)),
        snd (table_units rd d) + snd (fold_left (sum_step rd) (gsi_entries d) (0, 0))).

(** The tracker after one well-typed report whose totals receive [tot]. *)
Definition folded (rd : bool) (d : list (string * pyval)) (tot : Z * Z) (t : tracker) : tracker :=
  Tracker (total_rcu t + fst tot) (total_wcu t + snd tot)
          (Usage (rcu (table_consumption t) + fst (table_units rd d))
                 (wcu (table_consumption t) + snd (table_units rd d)))
          (fold_left (gsi_step rd) (gsi_entries d) (gsi_consumption t))
          (operations t) (status t) (error t).

(** What the second index loop of the list branch of
    [join_game_with_opengamesindex.py] (lines 209-212) adds for one entry. *)
Definition join_item_step (rd : bool) (acc : Z * Z) (entry : string * pyval) : Z * Z :=
  if rd
  then (fst acc + (if (field (entry_of (snd entry)) "ReadCapacityUnits" =? 0)%Z
                   then field (entry_of (snd entry)) "CapacityUnits"
                   else field (entry_of (snd entry)) "ReadCapacityUnits"),
        snd acc + 0)
  else (fst acc + 0,
        snd acc + (if (field (entry_of (snd entry)) "WriteCapacityUnits" =? 0)%Z
                   then field (entry_of (snd entry)) "CapacityUnits"
                   else field (entry_of (snd entry)) "WriteCapacityUnits")).

(** What the overall totals receive from one item of a list in
    [join_game_with_opengamesindex.py]. *)
Definition join_item_total (rd : bool) (d : list (string * pyval)) : Z * Z :=
  if dict_mem "CapacityUnits" d
  then if rd then (field d "CapacityUnits", 0) else (0, field d "CapacityUnits")
  else fold_left (join_item_step rd) (gsi_entries d) (table_units rd d).

(** The tracker after a well-typed report, [tot] giving what an item of a
    list adds to the overall totals. *)
Definition denote (rd : bool) (tot : list (string * pyval) -> Z * Z)
    (consumed_capacity : pyval) (t : tracker) : tracker :=
  match consumed_capacity with
  | PDict d => folded rd d (total_units rd d) t
  | PList l =>
      fold_left (fun s item => match item with
                               | PDict d => folded rd d (tot d) s
                               | _ => s
                               end) l t
  | _ => t
  end.

(** A report none of whose entries carries a unit figure. *)
Definition bare_entry (v : pyval) : bool :=
  match v with
  | PDict e =>
      negb (dict_mem "ReadCapacityUnits" e) && negb (dict_mem "WriteCapacityUnits" e)
      && negb (dict_mem "CapacityUnits" e)
  | _ => false
  end.

Definition bare_fields (d : list (string * pyval)) : bool :=
  match dict_get d "Table" with Some v => bare_entry v | None => true end
  && match dict_get d "GlobalSecondaryIndexes" with
     | Some (PDict g) => forallb (fun entry => bare_entry (snd entry)) g
     | Some _ => false
     | None => true
     end
  && negb (dict_mem "CapacityUnits" d).

Definition bare_report (consumed_capacity : pyval) : bool :=
  match consumed_capacity with
  | PDict d => bare_fields d
  | PList l => forallb (fun item => match item with PDict d => bare_fields d | _ => true end) l
  | _ => true
  end.

(** The accumulator of index [n], an index never seen reading as zero. *)
Definition gsi_units (t : tracker) (n : string) : usage :=
  default usage_zero (gsi_consumption t !! n).

(** Two trackers with the same unit accumulators. *)
Definition same_units (t1 t2 : tracker) : Prop :=
  total_rcu t1 = total_rcu t2 /\ total_wcu t1 = total_wcu t2 /\
  table_consumption t1 = table_consumption t2 /\
  forall n, gsi_units t1 n = gsi_units t2 n.

(** Where an undifferentiated figure [c] goes. *)
Definition classify (rd : bool) (c : Z) : Z * Z :=
  if rd then (c, 0) else (0, c).

(** An entry exposing the single figure [c] and no read or write field. *)
Definition undifferentiated (e : list (string * pyval)) (c : Z) : Prop :=
  dict_get e "ReadCapacityUnits" = None /\
  dict_get e "WriteCapacityUnits" = None /\
  dict_get e "CapacityUnits" = Some (PNum c).

(** An index entry with no figure on the side opposite to the kind of the
    operation: no write units under a read-shaped name, no read units under
    a write-shaped one. *)
Definition one_sided (rd : bool) (e : list (string * pyval)) : bool :=
  if rd then (field e "WriteCapacityUnits" =? 0)%Z
  else (field e "ReadCapacityUnits" =? 0)%Z.

(** An item of a list on which the two scripts are bound to do the same,
    [rd] telling whether the operation name is read-shaped: it carries a
    top-level total, which the overall totals then take; or it has no
    secondary index; or its secondary indexes are no mapping, at which both
    raise; or each of its index entries is well-typed and one-sided, so
    that the second index loop of [join_game_with_opengamesindex.py] finds
    the figures the normalisation found.  What is no mapping is skipped. *)
Definition agreeing_item (rd : bool) (item : pyval) : bool :=
  match item with
  | PDict d =>
      dict_mem "CapacityUnits" d
      || match dict_get d "GlobalSecondaryIndexes" with
         | Some (PDict g) =>
             forallb (fun entry => wf_entry (snd entry) && one_sided rd (entry_of (snd entry))) g
         | _ => true
         end
  | _ => true
  end.

(** A report that is no list, or a list of such items. *)
Definition agreeing (rd : bool) (consumed_capacity : pyval) : bool :=
  match consumed_capacity with
  | PList l => forallb (agreeing_item rd) l
  | _ => true
  end.

(** A run that leaves the operation history as it found it. *)
Definition keeps_operations {A} (m : M tracker A) : Prop :=
  forall t r t', m t = (r, t') -> operations t' = operations t.

(** ** The join: what the claims speak of *)

(** The player count stored under key [k], if there is one. *)
Definition people_at (tb : table) (k : string * string) : option Z :=
  match tb !! k with
  | Some it => match it !! "people" with Some (AttrN n) => Some n | _ => None end
  | None => None
  end.

Definition game_key (game_id : string) : string * string :=
  ("GAME#" +:+ game_id, "#METADATA#" +:+ game_id).

Definition membership_key (game_id username : string) : string * string :=
  ("GAME#" +:+ game_id, "USER#" +:+ username).

(** One join attempt of some request: what it is called with, what the
    outside answers, and the tracker of the request at that moment. *)
Record attempt : Type := Attempt {
  a_game_data : item;
  a_username : string;
  a_reply : JoinGame.reply;
  a_tracker : tracker
}.

Definition attempt_run (py_str : exn -> string) (tb : table) (a : attempt)
  : res bool * JoinGame.world :=
  JoinGame.join_game_for_user py_str (a_game_data a) (a_username a) (a_reply a)
    (JoinGame.World (a_tracker a) tb).

(** The table after the attempts, taken in the order in which the store
    serialises their transactions. *)
Definition run_attempts (py_str : exn -> string) (tb : table) (l : list attempt) : table :=
  fold_left (fun tb a => JoinGame.db (snd (attempt_run py_str tb a))) l tb.

(** How many of the attempts enrol [username] into [game_id] and return
    [True]. *)
Fixpoint join_successes (py_str : exn -> string) (game_id username : string)
    (tb : table) (l : list attempt) : nat :=
  match l with
  | [] => 0%nat
  | a :: l' =>
      ((match fst (attempt_run py_str tb a) with
        | Ok true =>
            if bool_decide (JoinGame.extract_game_id (a_game_data a) = Some game_id)
               && String.eqb (a_username a) username
            then 1 else 0
        | _ => 0
        end)
       + join_successes py_str game_id username
           (JoinGame.db (snd (attempt_run py_str tb a))) l')%nat
  end.

(** The membership row the transaction puts. *)
Definition membership_item (game_id username : string) : item :=
  <["PK" := AttrS ("GAME#" +:+ game_id)]>
    (<["SK" := AttrS ("USER#" +:+ username)]>
       (<["game_id" := AttrS game_id]> (<["username" := AttrS username]> ∅))).

(** ** The bulk lookup: what the claims speak of *)

(** The keys [get_game_details] prepares, in the order of the ids. *)
Definition game_keys (game_ids : list string) : list (string * string) :=
  List.map (fun g => ("GAME#" +:+ g, "#METADATA#" +:+ g)) game_ids.

(** The batches the loop cuts the keys into. *)
Definition batches (keys : list (string * string)) : list (list (string * string)) :=
  List.map (QueryUserGames.slice keys) (QueryUserGames.py_range (length keys) 100).

Definition batch_name (k : nat) : string :=
  "get_game_details_batch_" +:+ pretty k.

(** The text [int] rejects under attribute [a] of [it], if it rejects
    one. *)
Definition rejected (py_int : string -> option Z) (it : QueryUserGames.response_item)
    (a : string) : option string :=
  match it !! a with
  | Some (QueryUserGames.RespN text) =>
      match py_int text with Some _ => None | None => Some text end
  | _ => None
  end.

(** The first text of [it] that [int] rejects, the numbers being read in
    the order [people], [max_people], [open_timestamp]. *)
Definition first_rejected (py_int : string -> option Z) (it : QueryUserGames.response_item)
  : option string :=
  match rejected py_int it "people" with
  | Some text => Some text
  | None =>
      match rejected py_int it "max_people" with
      | Some text => Some text
      | None => rejected py_int it "open_timestamp"
      end
  end.

(** The first text of the items, taken in order, that [int] rejects. *)
Fixpoint first_unreadable (py_int : string -> option Z)
    (items : list QueryUserGames.response_item) : option string :=
  match items with
  | [] => None
  | it :: items' =>
      match first_rejected py_int it with
      | Some text => Some text
      | None => first_unreadable py_int items'
      end
  end.

(** The number under attribute [a] of [it]. *)
Definition number (py_int : string -> option Z) (it : QueryUserGames.response_item)
    (a : string) : option Z :=
  match it !! a with
  | Some (QueryUserGames.RespN text) => py_int text
  | _ => None
  end.

(** The result for one item: its game id (the ["game_id"] string, else the
    ["PK"] string without its ["GAME#"] tag), its map, and its three
    numbers; whatever is not there is left out. *)
Definition detail_of (py_int : string -> option Z) (it : QueryUserGames.response_item)
  : QueryUserGames.game_detail :=
  QueryUserGames.GameDetail
    (match it !! "game_id" with
     | Some (QueryUserGames.RespS s) => Some s
     | _ =>
         match it !! "PK" with
         | Some (QueryUserGames.RespS pk) =>
             if String.prefix "GAME#" pk
             then Some (String.substring 5 (String.length pk - 5) pk)
             else None
         | _ => None
         end
     end)
    (match it !! "map" with Some (QueryUserGames.RespS s) => Some s | _ => None end)
    (number py_int it "people") (number py_int it "max_people")
    (number py_int it "open_timestamp").

(** The results of one batch: one per item the store returns for it, in
    the order of the items. *)
Definition batch_details (py_int : string -> option Z)
    (batch_get_item : list (string * string) -> QueryUserGames.batch_reply)
    (b : list (string * string)) : list QueryUserGames.game_detail :=
  match QueryUserGames.Responses (batch_get_item b) with
  | Some items => List.map (detail_of py_int) items
  | None => []
  end.

(** The report the store sends with the answer to the bulk read of [b], if
    it answers with one, is well-typed. *)
Definition reports_well (batch_get_item : list (string * string) -> QueryUserGames.batch_reply)
    (b : list (string * string)) : bool :=
  match QueryUserGames.fault (batch_get_item b) with
  | Some _ => true
  | None =>
      match QueryUserGames.ConsumedCapacity (batch_get_item b) with
      | Some consumed_capacity => wf_report consumed_capacity
      | None => true
      end
  end.

(** How the pass over batch [b] fails, if it does: the bulk read raises, or
    a number of one of the items is a text [int] rejects.  With the
    exception comes whether the consumption of the batch was recorded
    before it was raised. *)
Definition batch_failure (py_int : string -> option Z)
    (batch_get_item : list (string * string) -> QueryUserGames.batch_reply)
    (b : list (string * string)) : option (exn * bool) :=
  match QueryUserGames.fault (batch_get_item b) with
  | Some e => Some (e, false)
  | None =>
      match QueryUserGames.Responses (batch_get_item b) with
      | Some items =>
          match first_unreadable py_int items with
          | Some text => Some (ValueError text, true)
          | None => None
          end
      | None => None
      end
  end.

(** The pass over batch [b] goes through: the report of the store, if any,
    is well-typed, the bulk read does not raise and every number of the
    items is a text [int] reads. *)
Definition passes (py_int : string -> option Z)
    (batch_get_item : list (string * string) -> QueryUserGames.batch_reply)
    (b : list (string * string)) : Prop :=
  reports_well batch_get_item b = true /\ batch_failure py_int batch_get_item b = None.

(** ** Sample inputs *)

(** An item of a transactional report without a top-level total, whose
    index entry was both read and written. *)
Definition read_and_written : pyval :=
  PDict [("Table", PDict [("WriteCapacityUnits", PNum 2); ("CapacityUnits", PNum 2)]);
         ("GlobalSecondaryIndexes",
          PDict [("OpenGamesIndex",
                  PDict [("ReadCapacityUnits", PNum 1); ("WriteCapacityUnits", PNum 2);
                         ("CapacityUnits", PNum 3)])])].

(** An item of a transactional report without a top-level total, whose
    index entry was written only. *)
Definition written_index_only : pyval :=
  PDict [("GlobalSecondaryIndexes",
          PDict [("InvertedIndex", PDict [("CapacityUnits", PNum 2)])])].

(** An item without a top-level total whose index entry carries write
    units under a read-shaped name, and a text as its undifferentiated
    figure. *)
Definition unread_text : pyval :=
  PDict [("GlobalSecondaryIndexes",
          PDict [("OpenGamesIndex",
                  PDict [("ReadCapacityUnits", PNum 0); ("WriteCapacityUnits", PNum 5);
                         ("CapacityUnits", PStr "n/a")])])].

(** What one pass of the batch loop does to the tracker and to the trace
    of bulk reads, when the store answers. *)
Definition batch_effect (batch_get_item : list (string * string) -> QueryUserGames.batch_reply)
    (keys : list (string * string)) (w : QueryUserGames.world) (i : nat)
  : QueryUserGames.world :=
  QueryUserGames.World
    (append_operation (batch_name (i / 100))
       (match QueryUserGames.ConsumedCapacity (batch_get_item (QueryUserGames.slice keys i)) with
        | Some consumed_capacity =>
            denote (QueryUserGames.is_read (batch_name (i / 100)))
              (total_units (QueryUserGames.is_read (batch_name (i / 100))))
              consumed_capacity (QueryUserGames.resource_tracker w)
        | None => QueryUserGames.resource_tracker w
        end))
    (QueryUserGames.bulk_reads w ++ [QueryUserGames.slice keys i]).

(** What a pass of the batch loop leaves when the bulk read itself fails:
    the read is in the trace, the tracker is as it was. *)
Definition batch_sent (keys : list (string * string)) (w : QueryUserGames.world) (i : nat)
  : QueryUserGames.world :=
  QueryUserGames.World (QueryUserGames.resource_tracker w)
    (QueryUserGames.bulk_reads w ++ [QueryUserGames.slice keys i]).

(** A run of [main] whose first map query fails: the map drawn is
    "Green Grasslands", the store refuses the query on it, "Dirty Desert"
    has one open game, and the join is accepted. *)
Definition failing_first_query : JoinGame.env :=
  JoinGame.Env 0
    (fun map_name =>
       if String.eqb map_name "Green Grasslands"
       then JoinGame.QueryReply
              (JoinGame.Reply (Some (StoreError "InternalServerError" "try again")) None) []
       else if String.eqb map_name "Dirty Desert"
       then JoinGame.QueryReply
              (JoinGame.Reply None (Some (PDict [("CapacityUnits", PNum 1)])))
              [ {[ "game_id" := AttrS "G1" ]} ]
       else JoinGame.QueryReply (JoinGame.Reply None None) [])
    0 "alice"
    (JoinGame.Reply None (Some (PList [PDict [("CapacityUnits", PNum 4)]]))).

Definition one_open_game : JoinGame.world :=
  JoinGame.World reset {[ game_key "G1" := {[ "people" := AttrN 0 ]} ]}.

(** A reading of [int]: the plain decimal numerals, any other text being
    rejected. *)
Definition digit (c : Ascii.ascii) : option Z :=
  if (48 <=? Z.of_nat (Ascii.nat_of_ascii c))%Z && (Z.of_nat (Ascii.nat_of_ascii c) <=? 57)%Z
  then Some (Z.of_nat (Ascii.nat_of_ascii c) - 48)
  else None.

Fixpoint plain_digits (s : string) (acc : Z) : option Z :=
  match s with
  | EmptyString => Some acc
  | String c s' =>
      match digit c with
      | Some d => plain_digits s' (10 * acc + d)
      | None => None
      end
  end.

Definition plain_int (s : string) : option Z :=
  match s with
  | EmptyString => None
  | _ => plain_digits s 0
  end.

(** The game the store holds under a key: it is played on "Open Ocean" by
    3 of 500. *)
Definition stored_game (key : string * string) : QueryUserGames.response_item :=
  <["PK" := QueryUserGames.RespS (fst key)]>
    (<["SK" := QueryUserGames.RespS (snd key)]>
       (<["map" := QueryUserGames.RespS "Open Ocean"]>
          (<["people" := QueryUserGames.RespN "3"]>
             (<["max_people" := QueryUserGames.RespN "500"]> ∅)))).

(** A store that answers every bulk read with a report of one capacity
    unit and the game under the first key of the batch. *)
Definition game_store (b : list (string * string)) : QueryUserGames.batch_reply :=
  QueryUserGames.BatchReply None
    (Some (PList [PDict [("TableName", PStr "battle-royale"); ("CapacityUnits", PNum 1)]]))
    (Some (List.map stored_game (firstn 1 b))).

(** A store that refuses every bulk read. *)
Definition throttling_store (b : list (string * string)) : QueryUserGames.batch_reply :=
  QueryUserGames.BatchReply
    (Some (StoreError "ProvisionedThroughputExceededException" "slow down")) None None.

(** A store that answers as [game_store] does to a batch of 100 keys, and
    to any other batch with a game whose player count is the text "4.5". *)
Definition fractional_store (b : list (string * string)) : QueryUserGames.batch_reply :=
  if (length b =? 100)%nat then game_store b
  else QueryUserGames.BatchReply None
         (Some (PList [PDict [("TableName", PStr "battle-royale"); ("CapacityUnits", PNum 1)]]))
         (Some [ <["people" := QueryUserGames.RespN "4.5"]> (stored_game ("GAME#x", "#METADATA#x")) ]).

(** The ids "0", "1", ..., one per game. *)
Definition numbered_ids (n : nat) : list string :=
  List.map pretty (seq 0 n).

(** An inverted index that knows "alice" only: she has joined the games G1
    and G2, a third row of hers has no game id; for anybody else the index
    is reported missing. *)
Definition index_of_alice (user_id : string) : QueryUserGames.query_reply :=
  if String.eqb user_id "alice"
  then QueryUserGames.QueryReply None (Some (PDict [("CapacityUnits", PNum 1)]))
         [ {[ "PK" := QueryUserGames.RespS "GAME#G1" ]};
           {[ "username" := QueryUserGames.RespS "alice" ]};
           <["game_id" := QueryUserGames.RespS "G2"]> {[ "PK" := QueryUserGames.RespS "GAME#G9" ]} ]
  else QueryUserGames.QueryReply
         (Some (StoreError "ResourceNotFoundException" "no such index")) None [].

(** ** Further notions the properties of the scripts are stated with *)

(** A run that leaves the component [f] of the tracker as it found it,
    whether it returns or raises. *)
Definition keeps {X A} (f : tracker -> X) (m : M tracker A) : Prop :=
  forall t r t', m t = (r, t') -> f t' = f t.

(** The read and the write units accumulated over all the indexes. *)
Definition gsi_rcu_sum (g : gmap string usage) : Z :=
  map_fold (fun _ u acc => acc + rcu u) 0 g.

Definition gsi_wcu_sum (g : gmap string usage) : Z :=
  map_fold (fun _ u acc => acc + wcu u) 0 g.

(** The overall totals are the base-table figures plus the index figures. *)
Definition balanced (t : tracker) : Prop :=
  total_rcu t = rcu (table_consumption t) + gsi_rcu_sum (gsi_consumption t) /\
  total_wcu t = wcu (table_consumption t) + gsi_wcu_sum (gsi_consumption t).

(** A report without a top-level undifferentiated total. *)
Definition no_direct_total (consumed_capacity : pyval) : bool :=
  match consumed_capacity with
  | PDict d => negb (dict_mem "CapacityUnits" d)
  | PList l =>
      forallb (fun item => match item with
                           | PDict d => negb (dict_mem "CapacityUnits" d)
                           | _ => true
                           end) l
  | _ => true
  end.

(** The operation name of a map query. *)
Definition map_query_name (map_name : string) : string :=
  "query_open_games_map_" +:+ map_name.

(** The order in which [main] queries the maps: the map drawn, then the
    others as [MAPS] lists them. *)
Definition visit_order (selected_map : string) : list string :=
  selected_map :: List.filter (fun m => negb (String.eqb m selected_map)) JoinGame.MAPS.

(** The maps queried, and the games found, when the maps of [maps] are
    tried in turn until one has games. *)
Fixpoint search (e : JoinGame.env) (maps : list string) : list string * list item :=
  match maps with
  | [] => ([], [])
  | m :: maps' =>
      match JoinGame.Items (JoinGame.query e m) with
      | [] => let r := search e maps' in (m :: fst r, snd r)
      | _ :: _ => ([m], JoinGame.Items (JoinGame.query e m))
      end
  end.

(** A store whose every map query is answered, with a well-typed report if
    with any. *)
Definition maps_answer (e : JoinGame.env) : Prop :=
  forall m,
    JoinGame.fault (JoinGame.q_reply (JoinGame.query e m)) = None /\
    match JoinGame.ConsumedCapacity (JoinGame.q_reply (JoinGame.query e m)) with
    | Some consumed_capacity => wf_report consumed_capacity = true
    | None => True
    end.

(** No occurrence of ["USER#"] in [s]. *)
Definition tag_free (s : string) : Prop :=
  forall pre post, s <> pre +:+ "USER#" +:+ post.

(** * Properties *)

Ltac run :=
  unfold bind, lift_res, ret, modify, iadd, raise; cbn.

Lemma is_num_opt_field (e : list (string * pyval)) (k : string) :
  is_num_opt (dict_get e k) = true ->
  dict_get_default e k (PNum 0) = PNum (field e k).
Proof.
  unfold dict_get_default, field.
  destruct (dict_get e k) as [[]|]; simpl; congruence.
Qed.

Lemma py_eq0_num (z : Z) : py_eq0 (PNum z) = (z =? 0)%Z.
Proof. destruct z; reflexivity. Qed.

Lemma tracker_eta (t : tracker) :
  Tracker (total_rcu t) (total_wcu t) (table_consumption t) (gsi_consumption t)
          (operations t) (status t) (error t) = t.
Proof. destruct t; reflexivity. Qed.

(** *** The normalisation steps on well-typed reports *)

Lemma wf_table_cases (d : list (string * pyval)) :
  wf_table d = true ->
  (dict_get d "Table" = None) \/
  (exists e, dict_get d "Table" = Some (PDict e) /\
     is_num_opt (dict_get e "ReadCapacityUnits") = true /\
     is_num_opt (dict_get e "WriteCapacityUnits") = true /\
     is_num_opt (dict_get e "CapacityUnits") = true).
Proof.
  unfold wf_table. destruct (dict_get d "Table") as [v|]; [|by left].
  destruct v; simpl; try discriminate. intros H.
  apply andb_true_iff in H as [H H3]. apply andb_true_iff in H as [H1 H2].
  right. eauto.
Qed.

Local Arguments py_eq0 : simpl never.

Ltac table_part_tac tp isr :=
  intros Hwf; unfold tp, table_units;
  destruct (wf_table_cases _ Hwf) as [E|(e & E & H1 & H2 & H3)];
  unfold dict_get_default, dict_mem; rewrite E; cbn [py_get entry_of];
  [ run; by destruct isr
  | fold (dict_get_default e "ReadCapacityUnits" (PNum 0));
    fold (dict_get_default e "WriteCapacityUnits" (PNum 0));
    fold (dict_get_default e "CapacityUnits" (PNum 0));
    rewrite (is_num_opt_field _ _ H1), (is_num_opt_field _ _ H2),
      (is_num_opt_field _ _ H3);
    unfold entry_units; run; rewrite !py_eq0_num;
    destruct (field e "ReadCapacityUnits" =? 0)%Z eqn:Er,
             (field e "WriteCapacityUnits" =? 0)%Z eqn:Ew; run;
    try reflexivity;
    apply Z.eqb_eq in Er, Ew; rewrite ?Er, ?Ew;
    destruct isr; cbn; rewrite ?Er, ?Ew; reflexivity ].

Lemma join_table_part_ok (operation : string) (d : list (string * pyval)) (t : tracker) :
  wf_table d = true ->
  JoinGame.table_part operation d t =
    (Ok (table_units (JoinGame.is_read operation) d),
     upd_table (add_wcu (snd (table_units (JoinGame.is_read operation) d)))
       (upd_table (add_rcu (fst (table_units (JoinGame.is_read operation) d))) t)).
Proof. table_part_tac JoinGame.table_part (JoinGame.is_read operation). Qed.

Lemma query_table_part_ok (operation : string) (d : list (string * pyval)) (t : tracker) :
  wf_table d = true ->
  QueryUserGames.table_part operation d t =
    (Ok (table_units (QueryUserGames.is_read operation) d),
     upd_table (add_wcu (snd (table_units (QueryUserGames.is_read operation) d)))
       (upd_table (add_rcu (fst (table_units (QueryUserGames.is_read operation) d))) t)).
Proof. table_part_tac QueryUserGames.table_part (QueryUserGames.is_read operation). Qed.

Lemma wf_entry_cases (v : pyval) :
  wf_entry v = true ->
  exists e, v = PDict e /\
     is_num_opt (dict_get e "ReadCapacityUnits") = true /\
     is_num_opt (dict_get e "WriteCapacityUnits") = true /\
     is_num_opt (dict_get e "CapacityUnits") = true.
Proof.
  destruct v; simpl; try discriminate. intros H.
  apply andb_true_iff in H as [H H3]. apply andb_true_iff in H as [H1 H2].
  eauto.
Qed.

Ltac gsi_body_tac gb isr :=
  intros Hwf; destruct (wf_entry_cases _ Hwf) as (e & -> & H1 & H2 & H3);
  unfold gb, sum_step, gsi_step; cbn [py_get entry_of fst snd];
  rewrite (is_num_opt_field _ _ H1), (is_num_opt_field _ _ H2),
      (is_num_opt_field _ _ H3);
  unfold entry_units; run; rewrite !py_eq0_num;
  destruct (field e "ReadCapacityUnits" =? 0)%Z eqn:Er,
           (field e "WriteCapacityUnits" =? 0)%Z eqn:Ew; run;
  try reflexivity;
  apply Z.eqb_eq in Er, Ew; rewrite ?Er, ?Ew;
  destruct isr; cbn; rewrite ?Er, ?Ew; reflexivity.

Lemma join_gsi_body_ok (operation gsi_name : string) (gsi_data : pyval)
    (acc : Z * Z) (t : tracker) :
  wf_entry gsi_data = true ->
  JoinGame.gsi_body operation acc (gsi_name, gsi_data) t =
    (Ok (sum_step (JoinGame.is_read operation) acc (gsi_name, gsi_data)),
     upd_gsi (fun g => gsi_step (JoinGame.is_read operation) g (gsi_name, gsi_data)) t).
Proof. gsi_body_tac JoinGame.gsi_body (JoinGame.is_read operation). Qed.

Lemma query_gsi_body_ok (operation gsi_name : string) (gsi_data : pyval)
    (acc : Z * Z) (t : tracker) :
  wf_entry gsi_data = true ->
  QueryUserGames.gsi_body operation acc (gsi_name, gsi_data) t =
    (Ok (sum_step (QueryUserGames.is_read operation) acc (gsi_name, gsi_data)),
     upd_gsi (fun g => gsi_step (QueryUserGames.is_read operation) g (gsi_name, gsi_data)) t).
Proof. gsi_body_tac QueryUserGames.gsi_body (QueryUserGames.is_read operation). Qed.

(** A loop whose every pass is known runs to its end. *)
Lemma for_each_ok {S X A} (body : A -> X -> M S A) (P : X -> bool)
    (step : A -> X -> A) (eff : S -> X -> S) :
  (forall acc x s, P x = true -> body acc x s = (Ok (step acc x), eff s x)) ->
  forall (l : list X) (acc : A) (s : S),
    forallb P l = true ->
    for_each l body acc s = (Ok (fold_left step l acc), fold_left eff l s).
Proof.
  intros Hbody l. induction l as [|x l IH]; intros acc s Hl; simpl in *.
  - reflexivity.
  - apply andb_true_iff in Hl as [Hx Hl].
    unfold bind. rewrite (Hbody _ _ _ Hx). by apply IH.
Qed.

Lemma fold_left_upd_gsi (rd : bool) (l : list (string * pyval)) (t : tracker) :
  fold_left (fun s x => upd_gsi (fun g => gsi_step rd g x) s) l t =
  upd_gsi (fun g => fold_left (gsi_step rd) l g) t.
Proof.
  revert t. induction l as [|x l IH]; intros t; simpl.
  - by destruct t.
  - by rewrite IH.
Qed.

Ltac gsi_part_tac gp body_ok isr t :=
  intros Hwf; unfold gp, wf_gsi, gsi_entries, dict_get_default in *;
  destruct (dict_get _ "GlobalSecondaryIndexes") as [[]|]; try discriminate;
  [ run;
    rewrite (for_each_ok _ (fun entry => wf_entry (snd entry)) (sum_step isr)
               (fun s x => upd_gsi (fun g => gsi_step isr g x) s));
    [ by rewrite fold_left_upd_gsi
    | intros acc [n v] s Hx; by apply body_ok
    | exact Hwf ]
  | run; by destruct t ].

Lemma join_gsi_part_ok (operation : string) (d : list (string * pyval)) (t : tracker) :
  wf_gsi d = true ->
  JoinGame.gsi_part operation d t =
    (Ok (fold_left (sum_step (JoinGame.is_read operation)) (gsi_entries d) (0, 0)),
     upd_gsi (fun g => fold_left (gsi_step (JoinGame.is_read operation)) (gsi_entries d) g) t).
Proof. gsi_part_tac JoinGame.gsi_part join_gsi_body_ok (JoinGame.is_read operation) t. Qed.

Lemma query_gsi_part_ok (operation : string) (d : list (string * pyval)) (t : tracker) :
  wf_gsi d = true ->
  QueryUserGames.gsi_part operation d t =
    (Ok (fold_left (sum_step (QueryUserGames.is_read operation)) (gsi_entries d) (0, 0)),
     upd_gsi (fun g => fold_left (gsi_step (QueryUserGames.is_read operation)) (gsi_entries d) g) t).
Proof. gsi_part_tac QueryUserGames.gsi_part query_gsi_body_ok (QueryUserGames.is_read operation) t. Qed.

Lemma wf_fields_parts (d : list (string * pyval)) :
  wf_fields d = true ->
  wf_table d = true /\ wf_gsi d = true /\ is_num_opt (dict_get d "CapacityUnits") = true.
Proof.
  unfold wf_fields. intros H.
  apply andb_true_iff in H as [H H3]. apply andb_true_iff in H as [H1 H2]. done.
Qed.

Ltac fold_single_tac fs tp_ok gp_ok td isr d :=
  intros Hwf; destruct (wf_fields_parts _ Hwf) as (Ht & Hg & Hc);
  unfold fs, folded, total_units;
  unfold bind at 1; rewrite (tp_ok _ _ _ Ht);
  destruct (table_units _ d) as [tr tw] eqn:Etu;
  unfold bind at 1; rewrite (gp_ok _ _ _ Hg);
  destruct (fold_left (sum_step _) (gsi_entries d) (0, 0)) as [gr gw] eqn:Egs;
  destruct (dict_mem "CapacityUnits" d);
  [ unfold td; rewrite (is_num_opt_field _ _ Hc); destruct isr; run; unfold add_total_rcu, add_total_wcu; cbn;
    rewrite ?Z.add_0_r; reflexivity
  | run; reflexivity ].

Lemma join_fold_single_ok (operation : string) (d : list (string * pyval)) (t : tracker) :
  wf_fields d = true ->
  JoinGame.fold_single operation d t =
    (Ok tt, folded (JoinGame.is_read operation) d
              (total_units (JoinGame.is_read operation) d) t).
Proof.
  fold_single_tac JoinGame.fold_single join_table_part_ok join_gsi_part_ok
    JoinGame.total_direct (JoinGame.is_read operation) d.
Qed.

Lemma query_fold_single_ok (operation : string) (d : list (string * pyval)) (t : tracker) :
  wf_fields d = true ->
  QueryUserGames.fold_single operation d t =
    (Ok tt, folded (QueryUserGames.is_read operation) d
              (total_units (QueryUserGames.is_read operation) d) t).
Proof.
  fold_single_tac QueryUserGames.fold_single query_table_part_ok query_gsi_part_ok
    QueryUserGames.total_direct (QueryUserGames.is_read operation) d.
Qed.

(** In [query_user_games.py] an item of a list is folded as a single
    mapping is. *)
Lemma query_fold_item_single (operation : string) (d : list (string * pyval)) :
  QueryUserGames.fold_item operation (PDict d) = QueryUserGames.fold_single operation d.
Proof. reflexivity. Qed.

Lemma join_item_body_ok (operation gsi_name : string) (gsi_data : pyval)
    (acc : Z * Z) (t : tracker) :
  wf_entry gsi_data = true ->
  JoinGame.item_body operation acc (gsi_name, gsi_data) t =
    (Ok (join_item_step (JoinGame.is_read operation) acc (gsi_name, gsi_data)), t).
Proof.
  intros Hwf. destruct (wf_entry_cases _ Hwf) as (e & -> & H1 & H2 & H3).
  unfold JoinGame.item_body, join_item_step. cbn [py_get entry_of fst snd].
  rewrite (is_num_opt_field _ _ H1), (is_num_opt_field _ _ H2),
      (is_num_opt_field _ _ H3).
  destruct (JoinGame.is_read operation); run.
  - by destruct (field e "ReadCapacityUnits" =? 0)%Z.
  - by destruct (field e "WriteCapacityUnits" =? 0)%Z.
Qed.

Lemma fold_left_const {X S} (l : list X) (s : S) : fold_left (fun s _ => s) l s = s.
Proof. induction l; simpl; auto. Qed.

Lemma join_fold_item_ok (operation : string) (d : list (string * pyval)) (t : tracker) :
  wf_fields d = true ->
  JoinGame.fold_item operation (PDict d) t =
    (Ok tt, folded (JoinGame.is_read operation) d
              (join_item_total (JoinGame.is_read operation) d) t).
Proof.
  intros Hwf. destruct (wf_fields_parts _ Hwf) as (Ht & Hg & Hc).
  unfold JoinGame.fold_item, folded, join_item_total.
  unfold bind at 1. rewrite (join_table_part_ok _ _ _ Ht).
  destruct (table_units _ d) as [tr tw] eqn:Etu.
  unfold bind at 1. rewrite (join_gsi_part_ok _ _ _ Hg).
  destruct (dict_mem "CapacityUnits" d).
  - unfold JoinGame.total_direct. rewrite (is_num_opt_field _ _ Hc).
    destruct (JoinGame.is_read operation); run;
      unfold add_total_rcu, add_total_wcu; cbn; rewrite ?Z.add_0_r; reflexivity.
  - unfold wf_gsi, gsi_entries, dict_get_default in *.
    destruct (dict_get d "GlobalSecondaryIndexes") as [[]|]; try discriminate.
    + unfold bind at 1. unfold bind at 1. cbn [py_items lift_res].
      rewrite (for_each_ok _ (fun entry => wf_entry (snd entry))
                 (join_item_step (JoinGame.is_read operation)) (fun s _ => s)).
      * rewrite fold_left_const. cbn [entry_of].
        by destruct (fold_left _ _ (tr, tw)).
      * intros acc [n v] s Hx. by apply join_item_body_ok.
      * exact Hg.
    + run. reflexivity.
Qed.

Lemma join_add_consumption_ok (operation : string) (consumed_capacity : pyval) (t : tracker) :
  wf_report consumed_capacity = true ->
  JoinGame.add_consumption operation consumed_capacity t =
    (Ok tt, append_operation operation
              (denote (JoinGame.is_read operation)
                 (join_item_total (JoinGame.is_read operation)) consumed_capacity t)).
Proof.
  intros Hwf. destruct consumed_capacity as [| | |d|l]; try reflexivity; simpl in Hwf.
  - unfold JoinGame.add_consumption, bind.
    by rewrite (join_fold_single_ok _ _ _ Hwf).
  - unfold JoinGame.add_consumption. unfold bind at 1.
    rewrite (for_each_ok _ wf_item (fun _ _ => tt)
               (fun s item => match item with
                              | PDict d => folded (JoinGame.is_read operation) d
                                  (join_item_total (JoinGame.is_read operation) d) s
                              | _ => s
                              end)); [reflexivity| |exact Hwf].
    intros [] x s Hx. destruct x; try reflexivity. by apply join_fold_item_ok.
Qed.

Lemma query_add_consumption_ok (operation : string) (consumed_capacity : pyval) (t : tracker) :
  wf_report consumed_capacity = true ->
  QueryUserGames.add_consumption operation consumed_capacity t =
    (Ok tt, append_operation operation
              (denote (QueryUserGames.is_read operation)
                 (total_units (QueryUserGames.is_read operation)) consumed_capacity t)).
Proof.
  intros Hwf. destruct consumed_capacity as [| | |d|l]; try reflexivity; simpl in Hwf.
  - unfold QueryUserGames.add_consumption, bind.
    by rewrite (query_fold_single_ok _ _ _ Hwf).
  - unfold QueryUserGames.add_consumption. unfold bind at 1.
    rewrite (for_each_ok _ wf_item (fun _ _ => tt)
               (fun s item => match item with
                              | PDict d => folded (QueryUserGames.is_read operation) d
                                  (total_units (QueryUserGames.is_read operation) d) s
                              | _ => s
                              end)); [reflexivity| |exact Hwf].
    intros [] x s Hx. destruct x; try reflexivity.
    rewrite query_fold_item_single. by apply query_fold_single_ok.
Qed.

(** *** The history is touched by the final append only *)

Lemma keeps_ret {A} (a : A) : keeps_operations (ret a).
Proof. intros t r t' [= <- <-]. reflexivity. Qed.

Lemma keeps_lift_res {A} (x : res A) : keeps_operations (lift_res x).
Proof. intros t r t' [= <- <-]. reflexivity. Qed.

Lemma keeps_modify (f : tracker -> tracker) :
  (forall t, operations (f t) = operations t) -> keeps_operations (modify f).
Proof. intros Hf t r t' [= <- <-]. apply Hf. Qed.

Lemma keeps_bind {A B} (m : M tracker A) (k : A -> M tracker B) :
  keeps_operations m -> (forall a, keeps_operations (k a)) ->
  keeps_operations (bind m k).
Proof.
  intros Hm Hk t r t'. unfold bind.
  destruct (m t) as [[a|e] t1] eqn:E; intros H.
  - rewrite (Hk _ _ _ _ H). eapply Hm, E.
  - injection H as <- <-. eapply Hm, E.
Qed.

Lemma keeps_for_each {X A} (body : A -> X -> M tracker A) (l : list X) (acc : A) :
  (forall a x, keeps_operations (body a x)) ->
  keeps_operations (for_each l body acc).
Proof.
  intros Hb. revert acc. induction l as [|x l IH]; intros acc; simpl.
  - apply keeps_ret.
  - apply keeps_bind; auto.
Qed.

Lemma keeps_iadd (upd : Z -> tracker -> tracker) (v : pyval) :
  (forall z t, operations (upd z t) = operations t) -> keeps_operations (iadd upd v).
Proof.
  intros Hu. unfold iadd. apply keeps_bind; [apply keeps_lift_res|intros z].
  apply keeps_bind; [by apply keeps_modify|intros _; apply keeps_ret].
Qed.

Ltac keeps_tac :=
  repeat first
    [ apply keeps_ret
    | apply keeps_lift_res
    | apply keeps_modify; intros; reflexivity
    | apply keeps_iadd; intros; reflexivity
    | apply keeps_for_each; intros ? [? ?]
    | apply keeps_bind; [|intros]
    | match goal with
      | |- keeps_operations (if ?b then _ else _) => destruct b
      | |- keeps_operations (match ?x with _ => _ end) => destruct x
      | |- keeps_operations (let (_, _) := ?x in _) => destruct x
      end ].

Lemma join_fold_single_keeps (operation : string) (d : list (string * pyval)) :
  keeps_operations (JoinGame.fold_single operation d).
Proof.
  unfold JoinGame.fold_single, JoinGame.table_part, JoinGame.gsi_part,
    JoinGame.total_direct, JoinGame.gsi_body. keeps_tac.
Qed.

Lemma join_fold_item_keeps (operation : string) (item : pyval) :
  keeps_operations (JoinGame.fold_item operation item).
Proof.
  unfold JoinGame.fold_item, JoinGame.table_part, JoinGame.gsi_part,
    JoinGame.total_direct, JoinGame.gsi_body, JoinGame.item_body. keeps_tac.
Qed.

Lemma query_fold_single_keeps (operation : string) (d : list (string * pyval)) :
  keeps_operations (QueryUserGames.fold_single operation d).
Proof.
  unfold QueryUserGames.fold_single, QueryUserGames.table_part, QueryUserGames.gsi_part,
    QueryUserGames.total_direct, QueryUserGames.gsi_body. keeps_tac.
Qed.

Lemma query_fold_item_keeps (operation : string) (item : pyval) :
  keeps_operations (QueryUserGames.fold_item operation item).
Proof.
  destruct item; try apply keeps_ret. apply query_fold_single_keeps.
Qed.

Lemma join_returns_appended (operation : string) (consumed_capacity : pyval) (t t' : tracker) :
  JoinGame.add_consumption operation consumed_capacity t = (Ok tt, t') ->
  operations t' = (operations t ++ [operation])%list.
Proof.
  destruct consumed_capacity as [| | |d|l]; simpl;
    try (intros [= <-]; reflexivity); unfold bind.
  - destruct (JoinGame.fold_single operation d t) as [[[]|e] t1] eqn:E; [|discriminate].
    intros [= <-]. simpl. f_equal. eapply join_fold_single_keeps, E.
  - destruct (for_each l _ tt t) as [[[]|e] t1] eqn:E; [|discriminate].
    intros [= <-]. simpl. f_equal.
    eapply (keeps_for_each _ l tt), E. intros. apply join_fold_item_keeps.
Qed.

Lemma query_returns_appended (operation : string) (consumed_capacity : pyval) (t t' : tracker) :
  QueryUserGames.add_consumption operation consumed_capacity t = (Ok tt, t') ->
  operations t' = (operations t ++ [operation])%list.
Proof.
  destruct consumed_capacity as [| | |d|l]; simpl;
    try (intros [= <-]; reflexivity); unfold bind.
  - destruct (QueryUserGames.fold_single operation d t) as [[[]|e] t1] eqn:E; [|discriminate].
    intros [= <-]. simpl. f_equal. eapply query_fold_single_keeps, E.
  - destruct (for_each l _ tt t) as [[[]|e] t1] eqn:E; [|discriminate].
    intros [= <-]. simpl. f_equal.
    eapply (keeps_for_each _ l tt), E. intros. apply query_fold_item_keeps.
Qed.

(** *** Reports without figures *)

Lemma bare_entry_zero (v : pyval) (rd : bool) :
  bare_entry v = true ->
  wf_entry v = true /\ entry_units rd (entry_of v) = (0, 0).
Proof.
  destruct v as [| | |e|]; simpl; try discriminate. unfold dict_mem, entry_units, field.
  destruct (dict_get e "ReadCapacityUnits"), (dict_get e "WriteCapacityUnits"),
    (dict_get e "CapacityUnits"); simpl; try discriminate.
  by destruct rd.
Qed.

Lemma gsi_touch_units (g : gmap string usage) (n m : string) :
  default usage_zero (gsi_touch n g !! m) = default usage_zero (g !! m).
Proof.
  unfold gsi_touch. destruct (g !! n) eqn:E; [done|].
  destruct (decide (n = m)) as [->|Hne].
  - by rewrite lookup_insert_eq, E.
  - by rewrite lookup_insert_ne.
Qed.

Lemma gsi_add_zero (f : usage -> usage) (g : gmap string usage) (n : string) :
  (forall u, f u = u) -> gsi_add f n g = g.
Proof.
  intros Hf. unfold gsi_add. destruct (g !! n) eqn:E; [|done].
  rewrite Hf. by apply insert_id.
Qed.

Lemma add_rcu_0 (u : usage) : add_rcu 0 u = u.
Proof. destruct u. unfold add_rcu. simpl. by rewrite Z.add_0_r. Qed.

Lemma add_wcu_0 (u : usage) : add_wcu 0 u = u.
Proof. destruct u. unfold add_wcu. simpl. by rewrite Z.add_0_r. Qed.

Lemma bare_gsi_fold (rd : bool) (l : list (string * pyval)) :
  forallb (fun entry => bare_entry (snd entry)) l = true ->
  forallb (fun entry => wf_entry (snd entry)) l = true /\
  (forall acc, fold_left (sum_step rd) l acc = acc) /\
  (forall acc, fold_left (join_item_step rd) l acc = acc) /\
  (forall g m, default usage_zero (fold_left (gsi_step rd) l g !! m)
               = default usage_zero (g !! m)).
Proof.
  induction l as [|[n v] l IH]; simpl; [done|]. intros H.
  apply andb_true_iff in H as [Hv Hl]. destruct (IH Hl) as (IH1 & IH2 & IH3 & IH4).
  destruct (bare_entry_zero v rd Hv) as [Hwf Hz]. rewrite Hwf. repeat split; [done|..].
  - intros [a b]. rewrite IH2. unfold sum_step. simpl. rewrite Hz. simpl.
    by rewrite !Z.add_0_r.
  - intros [a b]. rewrite IH3. unfold join_item_step. simpl.
    destruct v as [| | |e|]; try discriminate. simpl in *.
    unfold dict_mem in Hv. unfold field.
    destruct (dict_get e "ReadCapacityUnits"), (dict_get e "WriteCapacityUnits"),
      (dict_get e "CapacityUnits"); simpl in Hv; try discriminate.
    destruct rd; simpl; by rewrite !Z.add_0_r.
  - intros g m. rewrite IH4. unfold gsi_step. simpl. rewrite Hz. simpl.
    rewrite (gsi_add_zero _ _ _ add_wcu_0), (gsi_add_zero _ _ _ add_rcu_0).
    apply gsi_touch_units.
Qed.

Lemma bare_fields_zero (rd : bool) (d : list (string * pyval)) (tot : Z * Z) (t : tracker) :
  bare_fields d = true ->
  wf_fields d = true /\
  total_units rd d = (0, 0) /\ join_item_total rd d = (0, 0) /\
  same_units (folded rd d (0, 0) t) t.
Proof.
  unfold same_units, gsi_units, folded, bare_fields, wf_fields, wf_table, wf_gsi,
    total_units, join_item_total, table_units, gsi_entries, dict_get_default.
  intros H. apply andb_true_iff in H as [H H3]. apply andb_true_iff in H as [H1 H2].
  apply negb_true_iff in H3. rewrite H3. unfold dict_mem in H3.
  destruct (dict_get d "CapacityUnits"); [discriminate|]. simpl.
  assert (Ht : match dict_get d "Table" with Some v => wf_entry v | None => true end = true
               /\ entry_units rd (entry_of match dict_get d "Table" with
                                            | Some v => v | None => PDict [] end) = (0, 0)).
  { destruct (dict_get d "Table") as [v|]; [by apply bare_entry_zero|].
    split; [done|]. by destruct rd. }
  destruct Ht as [Ht1 Ht2]. rewrite Ht1, Ht2. simpl.
  destruct (dict_get d "GlobalSecondaryIndexes") as [[| | |g|]|]; try discriminate.
  - destruct (bare_gsi_fold rd g H2) as (G1 & G2 & G3 & G4). rewrite G1, G2, G3.
    simpl. rewrite !Z.add_0_r. repeat split; auto. by destruct (table_consumption t).
  - simpl. rewrite !Z.add_0_r. repeat split; auto. by destruct (table_consumption t).
Qed.

Lemma same_units_refl (t : tracker) : same_units t t.
Proof. by repeat split. Qed.

Lemma same_units_trans (t1 t2 t3 : tracker) :
  same_units t1 t2 -> same_units t2 t3 -> same_units t1 t3.
Proof.
  intros (A1 & A2 & A3 & A4) (B1 & B2 & B3 & B4). repeat split; try congruence.
Qed.

Lemma bare_report_zero (rd : bool) (tot : list (string * pyval) -> Z * Z)
    (consumed_capacity : pyval) (t : tracker) :
  (tot = total_units rd \/ tot = join_item_total rd) ->
  bare_report consumed_capacity = true ->
  wf_report consumed_capacity = true /\
  same_units (denote rd tot consumed_capacity t) t.
Proof.
  intros Htot. destruct consumed_capacity as [| | |d|l]; simpl;
    try (intros _; split; [done|apply same_units_refl]).
  - intros H. destruct (bare_fields_zero rd d (0, 0) t H) as (Hwf & Ht & _ & Hs).
    by rewrite Ht.
  - revert t. induction l as [|item l IH]; intros t; simpl.
    + intros _. split; [done|apply same_units_refl].
    + intros H. apply andb_true_iff in H as [Hi Hl].
      destruct item as [| | |d|]; simpl; try by apply IH.
      destruct (bare_fields_zero rd d (0, 0) t Hi) as (Hwf & Ht & Hj & Hs).
      rewrite Hwf. simpl.
      destruct (IH (folded rd d (tot d) t) Hl) as [Hwl Hsl]. split; [done|].
      eapply same_units_trans; [exact Hsl|].
      destruct Htot as [-> | ->]; by rewrite ?Ht, ?Hj.
Qed.

(** ** The ledger claims *)

(** C3, as the scripts have it: on a report that is absent, a mapping or a
    list, whose entries that are present have the types the store gives
    them, [add_consumption] of either script returns without raising, the
    operation name is appended to the history, status and error are left
    alone, every accumulator receives the figures of the report with a
    missing field read as zero ([denote], through [field]), and a report
    none of whose entries carries a unit figure leaves every unit
    accumulator as it was. *)
Theorem C3_well_typed_report_never_raises
    (operation : string) (consumed_capacity : pyval) (t : tracker) :
  wf_report consumed_capacity = true ->
  (exists t',
      JoinGame.add_consumption operation consumed_capacity t = (Ok tt, t') /\
      t' = append_operation operation
             (denote (JoinGame.is_read operation)
                (join_item_total (JoinGame.is_read operation)) consumed_capacity t) /\
      operations t' = (operations t ++ [operation])%list /\
      status t' = status t /\ error t' = error t /\
      (bare_report consumed_capacity = true -> same_units t' t)) /\
  (exists t',
      QueryUserGames.add_consumption operation consumed_capacity t = (Ok tt, t') /\
      t' = append_operation operation
             (denote (QueryUserGames.is_read operation)
                (total_units (QueryUserGames.is_read operation)) consumed_capacity t) /\
      operations t' = (operations t ++ [operation])%list /\
      status t' = status t /\ error t' = error t /\
      (bare_report consumed_capacity = true -> same_units t' t)).
Proof.
  intros Hwf. split; eexists; (split; [by first [apply join_add_consumption_ok
                                                | apply query_add_consumption_ok]|]);
    (split; [reflexivity|]).
  - assert (Hd : forall rd tot, status (denote rd tot consumed_capacity t) = status t /\
                                error (denote rd tot consumed_capacity t) = error t).
    { intros rd tot. destruct consumed_capacity as [| | |d|l]; try done. simpl.
      clear Hwf. revert t. induction l as [|[] l IH]; intros t; simpl; try done.
      destruct (IH (folded rd d (tot d) t)) as [-> ->]. done. }
    split; [|split; [apply Hd|split; [apply Hd|]]].
    + apply (join_returns_appended _ consumed_capacity t).
      by apply join_add_consumption_ok.
    + intros Hb. eapply (bare_report_zero _ _ _ t); eauto.
  - assert (Hd : forall rd tot, status (denote rd tot consumed_capacity t) = status t /\
                                error (denote rd tot consumed_capacity t) = error t).
    { intros rd tot. destruct consumed_capacity as [| | |d|l]; try done. simpl.
      clear Hwf. revert t. induction l as [|[] l IH]; intros t; simpl; try done.
      destruct (IH (folded rd d (tot d) t)) as [-> ->]. done. }
    split; [|split; [apply Hd|split; [apply Hd|]]].
    + apply (query_returns_appended _ consumed_capacity t).
      by apply query_add_consumption_ok.
    + intros Hb. eapply (bare_report_zero _ _ _ t); eauto.
Qed.

Lemma C3_well_typed_report_never_raises_witness :
  wf_report (PList [PDict [("Table", PDict [])]; PNone]) = true /\
  (exists t',
      JoinGame.add_consumption "join_game_transaction"
        (PList [PDict [("Table", PDict [])]; PNone]) reset = (Ok tt, t') /\
      operations t' = ["join_game_transaction"] /\ same_units t' reset) /\
  (exists t',
      QueryUserGames.add_consumption "join_game_transaction"
        (PList [PDict [("Table", PDict [])]; PNone]) reset = (Ok tt, t') /\
      operations t' = ["join_game_transaction"] /\ same_units t' reset).
Proof.
  split; [reflexivity|].
  destruct (C3_well_typed_report_never_raises "join_game_transaction"
              (PList [PDict [("Table", PDict [])]; PNone]) reset eq_refl)
    as [(tj & Hj & _ & Hjo & _ & _ & Hjb) (tq & Hq & _ & Hqo & _ & _ & Hqb)].
  split; [exists tj|exists tq]; repeat split; auto; first [apply Hjb | apply Hqb];
    reflexivity.
Defined.

(** C3 as stated fails: a mapping whose ['Table'] entry is [None] makes
    [add_consumption] of either script raise [AttributeError], and the
    operation name is not recorded. *)
Lemma C3_malformed_report_raises :
  JoinGame.add_consumption "query_open_games_map_Open Ocean"
    (PDict [("Table", PNone)]) reset = (Raise (AttributeError PNone "get"), reset) /\
  QueryUserGames.add_consumption "query_user_games_alice"
    (PDict [("Table", PNone)]) reset = (Raise (AttributeError PNone "get"), reset).
Proof. split; reflexivity. Qed.

Lemma join_raises_unrecorded (operation : string) (consumed_capacity : pyval) (t t' : tracker)
    (e : exn) :
  JoinGame.add_consumption operation consumed_capacity t = (Raise e, t') ->
  operations t' = operations t.
Proof.
  destruct consumed_capacity as [| | |d|l]; simpl; try discriminate; unfold bind.
  - destruct (JoinGame.fold_single operation d t) as [[[]|e1] t1] eqn:E; [discriminate|].
    intros [= _ <-]. eapply join_fold_single_keeps, E.
  - destruct (for_each l _ tt t) as [[[]|e1] t1] eqn:E; [discriminate|].
    intros [= _ <-]. eapply (keeps_for_each _ l tt), E. intros. apply join_fold_item_keeps.
Qed.

Lemma query_raises_unrecorded (operation : string) (consumed_capacity : pyval) (t t' : tracker)
    (e : exn) :
  QueryUserGames.add_consumption operation consumed_capacity t = (Raise e, t') ->
  operations t' = operations t.
Proof.
  destruct consumed_capacity as [| | |d|l]; simpl; try discriminate; unfold bind.
  - destruct (QueryUserGames.fold_single operation d t) as [[[]|e1] t1] eqn:E; [discriminate|].
    intros [= _ <-]. eapply query_fold_single_keeps, E.
  - destruct (for_each l _ tt t) as [[[]|e1] t1] eqn:E; [discriminate|].
    intros [= _ <-]. eapply (keeps_for_each _ l tt), E. intros. apply query_fold_item_keeps.
Qed.

(** C8 as stated fails: an item of a list whose ['GlobalSecondaryIndexes']
    entry is [None] makes [add_consumption] of either script raise, and the
    call leaves the history empty: the operation name is recorded zero
    times, not once. *)
Lemma C8_raising_call_records_nothing :
  (exists t', JoinGame.add_consumption "join_game_transaction"
                (PList [PDict [("GlobalSecondaryIndexes", PNone)]]) reset
                = (Raise (AttributeError PNone "items"), t') /\
              operations t' = []) /\
  (exists t', QueryUserGames.add_consumption "get_game_details_batch_0"
                (PList [PDict [("GlobalSecondaryIndexes", PNone)]]) reset
                = (Raise (AttributeError PNone "items"), t') /\
              operations t' = []).
Proof. split; eexists; split; reflexivity. Qed.

(** C8, as the scripts have it: a call of [add_consumption] of either
    script that returns, whatever the report and whichever branch is taken,
    has appended the operation name to the history exactly once; on a
    report that is absent, a single mapping or a list of mappings of any
    length, with entries of the types of the store, the call does return;
    and a call that raises has appended nothing. *)
Theorem C8_operation_recorded_once
    (operation : string) (consumed_capacity : pyval) (t : tracker) :
  (wf_report consumed_capacity = true ->
   (exists t', JoinGame.add_consumption operation consumed_capacity t = (Ok tt, t') /\
               operations t' = (operations t ++ [operation])%list) /\
   (exists t', QueryUserGames.add_consumption operation consumed_capacity t = (Ok tt, t') /\
               operations t' = (operations t ++ [operation])%list)) /\
  (forall r t', JoinGame.add_consumption operation consumed_capacity t = (r, t') ->
                operations t' = match r with
                                | Ok _ => (operations t ++ [operation])%list
                                | Raise _ => operations t
                                end) /\
  (forall r t', QueryUserGames.add_consumption operation consumed_capacity t = (r, t') ->
                operations t' = match r with
                                | Ok _ => (operations t ++ [operation])%list
                                | Raise _ => operations t
                                end).
Proof.
  split; [|split; intros [[]|e] t'].
  - intros Hwf. split; eexists; split.
    + by apply join_add_consumption_ok.
    + eapply join_returns_appended. by apply join_add_consumption_ok.
    + by apply query_add_consumption_ok.
    + eapply query_returns_appended. by apply query_add_consumption_ok.
  - apply join_returns_appended.
  - apply join_raises_unrecorded.
  - apply query_returns_appended.
  - apply query_raises_unrecorded.
Qed.

Lemma C8_operation_recorded_once_witness :
  wf_report (PList [PDict [("CapacityUnits", PNum 4)]; PDict []]) = true /\
  (exists t', JoinGame.add_consumption "join_game_transaction"
                (PList [PDict [("CapacityUnits", PNum 4)]; PDict []]) reset = (Ok tt, t') /\
              operations t' = (operations reset ++ ["join_game_transaction"])%list) /\
  (exists t', QueryUserGames.add_consumption "join_game_transaction"
                (PList [PDict [("CapacityUnits", PNum 4)]; PDict []]) reset = (Ok tt, t') /\
              operations t' = (operations reset ++ ["join_game_transaction"])%list) /\
  operations (snd (JoinGame.add_consumption "join_game_transaction"
                     (PDict [("Table", PNone)]) reset)) = operations reset /\
  operations (snd (QueryUserGames.add_consumption "join_game_transaction"
                     (PDict [("Table", PNone)]) reset)) = operations reset.
Proof.
  split; [reflexivity|].
  destruct (proj1 (C8_operation_recorded_once "join_game_transaction"
                     (PList [PDict [("CapacityUnits", PNum 4)]; PDict []]) reset) eq_refl)
    as [Hj Hq].
  split; [exact Hj|]. split; [exact Hq|]. split.
  - exact (proj1 (proj2 (C8_operation_recorded_once "join_game_transaction"
                           (PDict [("Table", PNone)]) reset))
             (Raise (AttributeError PNone "get")) reset eq_refl).
  - exact (proj2 (proj2 (C8_operation_recorded_once "join_game_transaction"
                           (PDict [("Table", PNone)]) reset))
             (Raise (AttributeError PNone "get")) reset eq_refl).
Defined.

(** C4 on the code: in the list branch of [join_game_with_opengamesindex.py]
    the item [read_and_written], folded under a write-shaped name, puts 1
    read unit and 2 write units on the index and 2 write units on the base
    table, yet the overall totals receive 0 read units: the index figures
    are computed a second time, by another rule.  The same item as a single
    mapping, and the list branch of [query_user_games.py], give 1. *)
Theorem C4_join_list_branch_recomputes_index_figures :
  let tj := snd (JoinGame.add_consumption "join_game_transaction"
                   (PList [read_and_written]) reset) in
  let ts := snd (JoinGame.add_consumption "join_game_transaction"
                   read_and_written reset) in
  let tq := snd (QueryUserGames.add_consumption "join_game_transaction"
                   (PList [read_and_written]) reset) in
  table_consumption tj = Usage 0 2 /\
  gsi_consumption tj !! "OpenGamesIndex" = Some (Usage 1 2) /\
  (total_rcu tj, total_wcu tj) = (0, 4) /\
  (total_rcu ts, total_wcu ts) = (1, 4) /\
  (total_rcu tq, total_wcu tq) = (1, 4).
Proof. vm_compute. repeat split. Qed.

(** C6 on the code: in [join_game_with_opengamesindex.py], recording
    [[A; B]] as one list and then [[C]] does not give the total read units
    that recording [A], [B] and [C] one by one gives, for
    [A = read_and_written] and [B], [C] empty mappings. *)
Theorem C6_join_list_and_single_folding_differ :
  let op := "join_game_transaction" in
  let batched :=
    snd (JoinGame.add_consumption op (PList [PDict []])
           (snd (JoinGame.add_consumption op (PList [read_and_written; PDict []]) reset))) in
  let one_by_one :=
    snd (JoinGame.add_consumption op (PDict [])
           (snd (JoinGame.add_consumption op (PDict [])
                   (snd (JoinGame.add_consumption op read_and_written reset))))) in
  total_rcu batched = 0 /\ total_rcu one_by_one = 1 /\
  total_wcu batched = total_wcu one_by_one /\
  table_consumption batched = table_consumption one_by_one /\
  gsi_consumption batched = gsi_consumption one_by_one.
Proof. vm_compute. repeat split. Qed.

(** In [query_user_games.py] the folding of C6 does hold: on well-typed
    reports [A], [B], [C], each a mapping or absent, the list [[A; B]]
    followed by the list [[C]] leaves the unit accumulators that [A], [B]
    and [C] one by one leave. *)
Lemma query_list_and_single_folding_agree
    (operation : string) (A B C : pyval) (t : tracker) :
  wf_report (PList [A; B; C]) = true ->
  (forall l, A <> PList l) -> (forall l, B <> PList l) -> (forall l, C <> PList l) ->
  same_units
    (snd (QueryUserGames.add_consumption operation (PList [C])
            (snd (QueryUserGames.add_consumption operation (PList [A; B]) t))))
    (snd (QueryUserGames.add_consumption operation C
            (snd (QueryUserGames.add_consumption operation B
                    (snd (QueryUserGames.add_consumption operation A t)))))).
Proof.
  intros Hwf HA HB HC. cbn [wf_report forallb] in Hwf.
  apply andb_true_iff in Hwf as [WA Hwf]. apply andb_true_iff in Hwf as [WB Hwf].
  apply andb_true_iff in Hwf as [WC _].
  assert (Hs : forall X, wf_item X = true -> (forall l, X <> PList l) -> wf_report X = true).
  { intros [] ? HX; try done. by destruct (HX l). }
  assert (WAB : wf_report (PList [A; B]) = true) by (cbn; by rewrite WA, WB).
  assert (WC' : wf_report (PList [C]) = true) by (cbn; by rewrite WC).
  rewrite (query_add_consumption_ok _ _ t WAB). cbn [snd].
  rewrite (query_add_consumption_ok _ _ _ WC'). cbn [snd].
  rewrite (query_add_consumption_ok _ _ t (Hs _ WA HA)). cbn [snd].
  rewrite (query_add_consumption_ok _ _ _ (Hs _ WB HB)). cbn [snd].
  rewrite (query_add_consumption_ok _ _ _ (Hs _ WC HC)). cbn [snd].
  destruct A as [| | |a|la], B as [| | |b|lb], C as [| | |c|lc];
    try (by destruct (HA la)); try (by destruct (HB lb)); try (by destruct (HC lc));
    by repeat split.
Qed.

(** *** Classification and the two scripts *)

Lemma undifferentiated_units (rd : bool) (e : list (string * pyval)) (c : Z) :
  undifferentiated e c ->
  wf_entry (PDict e) = true /\ entry_units rd e = classify rd c.
Proof.
  intros (H1 & H2 & H3). unfold entry_units, field, classify. simpl.
  by rewrite H1, H2, H3.
Qed.

Lemma is_read_off_scan (operation : string) :
  String.prefix "scan_" operation = false ->
  JoinGame.is_read operation = QueryUserGames.is_read operation.
Proof.
  intros H. unfold JoinGame.is_read, QueryUserGames.is_read.
  rewrite H. apply orb_false_r.
Qed.

(** C5, as the scripts have it: a base-table entry, an index entry or a
    top-level report exposing one undifferentiated figure [c] has it
    counted as read units exactly when the operation name starts with
    [get_], [query_] or, in [join_game_with_opengamesindex.py] only,
    [scan_], and as write units otherwise; nothing but the name decides. *)
Theorem C5_classification_by_name_prefix (operation : string) :
  let rdJ := String.prefix "get_" operation || String.prefix "query_" operation
             || String.prefix "scan_" operation in
  let rdQ := String.prefix "get_" operation || String.prefix "query_" operation in
  (forall d e c t,
      dict_get d "Table" = Some (PDict e) -> undifferentiated e c ->
      JoinGame.table_part operation d t =
        (Ok (classify rdJ c),
         upd_table (add_wcu (snd (classify rdJ c)))
           (upd_table (add_rcu (fst (classify rdJ c))) t)) /\
      QueryUserGames.table_part operation d t =
        (Ok (classify rdQ c),
         upd_table (add_wcu (snd (classify rdQ c)))
           (upd_table (add_rcu (fst (classify rdQ c))) t))) /\
  (forall n e c acc t,
      undifferentiated e c ->
      JoinGame.gsi_body operation acc (n, PDict e) t =
        (Ok (fst acc + fst (classify rdJ c), snd acc + snd (classify rdJ c)),
         upd_gsi (fun g => gsi_add (add_wcu (snd (classify rdJ c))) n
                             (gsi_add (add_rcu (fst (classify rdJ c))) n
                                (gsi_touch n g))) t) /\
      JoinGame.item_body operation acc (n, PDict e) t =
        (Ok (fst acc + fst (classify rdJ c), snd acc + snd (classify rdJ c)), t) /\
      QueryUserGames.gsi_body operation acc (n, PDict e) t =
        (Ok (fst acc + fst (classify rdQ c), snd acc + snd (classify rdQ c)),
         upd_gsi (fun g => gsi_add (add_wcu (snd (classify rdQ c))) n
                             (gsi_add (add_rcu (fst (classify rdQ c))) n
                                (gsi_touch n g))) t)) /\
  (forall d c t,
      dict_get d "CapacityUnits" = Some (PNum c) ->
      (exists t', JoinGame.total_direct operation d t = (Ok tt, t') /\
                  total_rcu t' = total_rcu t + fst (classify rdJ c) /\
                  total_wcu t' = total_wcu t + snd (classify rdJ c)) /\
      (exists t', QueryUserGames.total_direct operation d t = (Ok tt, t') /\
                  total_rcu t' = total_rcu t + fst (classify rdQ c) /\
                  total_wcu t' = total_wcu t + snd (classify rdQ c))).
Proof.
  intros rdJ rdQ.
  change rdJ with (JoinGame.is_read operation).
  change rdQ with (QueryUserGames.is_read operation). clear rdJ rdQ.
  split; [|split].
  - intros d e c t Hd He.
    assert (Hwf : wf_table d = true).
    { unfold wf_table. rewrite Hd. apply (undifferentiated_units true e c He). }
    assert (Hu : forall rd, table_units rd d = classify rd c).
    { intros rd. unfold table_units, dict_get_default. rewrite Hd. simpl.
      apply (undifferentiated_units rd e c He). }
    rewrite (join_table_part_ok _ _ _ Hwf), (query_table_part_ok _ _ _ Hwf).
    by rewrite !Hu.
  - intros n e c acc t He.
    destruct (undifferentiated_units true e c He) as [Hwf _].
    rewrite (join_gsi_body_ok _ _ _ _ _ Hwf), (query_gsi_body_ok _ _ _ _ _ Hwf),
      (join_item_body_ok _ _ _ _ _ Hwf).
    unfold sum_step, gsi_step, join_item_step. cbn [fst snd entry_of].
    rewrite !(proj2 (undifferentiated_units _ e c He)).
    repeat split. destruct He as (H1 & H2 & H3). unfold field, classify.
    rewrite H1, H2, H3. by destruct (JoinGame.is_read operation).
  - intros d c t Hc. unfold JoinGame.total_direct, QueryUserGames.total_direct,
      dict_get_default, classify. rewrite Hc.
    split.
    + destruct (JoinGame.is_read operation); run; eexists;
        (split; [reflexivity|]); simpl; lia.
    + destruct (QueryUserGames.is_read operation); run; eexists;
        (split; [reflexivity|]); simpl; lia.
Qed.

Lemma C5_classification_by_name_prefix_witness :
  dict_get [("Table", PDict [("CapacityUnits", PNum 7)])] "Table"
    = Some (PDict [("CapacityUnits", PNum 7)]) /\
  undifferentiated [("CapacityUnits", PNum 7)] 7 /\
  JoinGame.table_part "scan_users" [("Table", PDict [("CapacityUnits", PNum 7)])] reset =
    (Ok (7, 0), upd_table (add_wcu 0) (upd_table (add_rcu 7) reset)) /\
  QueryUserGames.table_part "scan_users" [("Table", PDict [("CapacityUnits", PNum 7)])] reset =
    (Ok (0, 7), upd_table (add_wcu 7) (upd_table (add_rcu 0) reset)).
Proof.
  split; [reflexivity|]. split; [repeat split|].
  apply (proj1 (C5_classification_by_name_prefix "scan_users")
           [("Table", PDict [("CapacityUnits", PNum 7)])] [("CapacityUnits", PNum 7)] 7 reset).
  - reflexivity.
  - repeat split.
Defined.

(** C5 as stated fails in [query_user_games.py]: under the scan-family
    name [scan_users] an undifferentiated total of 5 is counted as write
    units there. *)
Lemma C5_query_script_counts_scan_as_write :
  String.prefix "scan_" "scan_users" = true /\
  let t := snd (QueryUserGames.add_consumption "scan_users"
                  (PDict [("CapacityUnits", PNum 5)]) reset) in
  total_rcu t = 0 /\ total_wcu t = 5.
Proof. vm_compute. repeat split. Qed.

(** C7 as stated fails: from equal trackers, the same name and the same
    single report, the two scripts reach different totals. *)
Lemma C7_ledgers_differ_on_scan :
  let tj := snd (JoinGame.add_consumption "scan_users"
                   (PDict [("CapacityUnits", PNum 5)]) reset) in
  let tq := snd (QueryUserGames.add_consumption "scan_users"
                   (PDict [("CapacityUnits", PNum 5)]) reset) in
  total_rcu tj = 5 /\ total_rcu tq = 0 /\ total_rcu tj <> total_rcu tq.
Proof. vm_compute. repeat split. discriminate. Qed.

Lemma denote_but_totals (rd : bool) (tot1 tot2 : list (string * pyval) -> Z * Z)
    (l : list pyval) (t1 t2 : tracker) :
  table_consumption t1 = table_consumption t2 ->
  gsi_consumption t1 = gsi_consumption t2 ->
  operations t1 = operations t2 -> status t1 = status t2 -> error t1 = error t2 ->
  let r1 := denote rd tot1 (PList l) t1 in
  let r2 := denote rd tot2 (PList l) t2 in
  table_consumption r1 = table_consumption r2 /\
  gsi_consumption r1 = gsi_consumption r2 /\
  operations r1 = operations r2 /\ status r1 = status r2 /\ error r1 = error r2.
Proof.
  simpl. revert t1 t2. induction l as [|item l IH]; intros t1 t2 H1 H2 H3 H4 H5; simpl.
  - done.
  - destruct item; try by apply IH. apply IH; simpl; congruence.
Qed.

Lemma bind_returns {S A B} (m : M S A) (k : A -> M S B) (s s' : S) (a : A) :
  m s = (Ok a, s') -> bind m k s = k a s'.
Proof. unfold bind. by intros ->. Qed.

Lemma bind_raises {S A B} (m : M S A) (k : A -> M S B) (s s' : S) (e : exn) :
  m s = (Raise e, s') -> bind m k s = (Raise e, s').
Proof. unfold bind. by intros ->. Qed.

Lemma bind_cong {S A B} (m : M S A) (k1 k2 : A -> M S B) (s : S) :
  (forall a s', m s = (Ok a, s') -> k1 a s' = k2 a s') ->
  bind m k1 s = bind m k2 s.
Proof. unfold bind. destruct (m s) as [[a|e] s']; auto. Qed.

Lemma for_each_ext {S X A} (f g : A -> X -> M S A) (l : list X) (acc : A) (s : S) :
  (forall x, In x l -> forall a s', f a x s' = g a x s') ->
  for_each l f acc s = for_each l g acc s.
Proof.
  revert acc s. induction l as [|x l IH]; intros acc s H; simpl; [done|].
  unfold bind. rewrite (H x (or_introl eq_refl)).
  destruct (g acc x s) as [[a|e] s1]; [|done].
  apply IH. intros y Hy. apply H. by right.
Qed.

Lemma table_part_off_scan (operation : string) (d : list (string * pyval)) :
  String.prefix "scan_" operation = false ->
  JoinGame.table_part operation d = QueryUserGames.table_part operation d.
Proof.
  intros H. unfold JoinGame.table_part, QueryUserGames.table_part.
  by rewrite (is_read_off_scan _ H).
Qed.

Lemma gsi_part_off_scan (operation : string) (d : list (string * pyval)) :
  String.prefix "scan_" operation = false ->
  JoinGame.gsi_part operation d = QueryUserGames.gsi_part operation d.
Proof.
  intros H. unfold JoinGame.gsi_part, QueryUserGames.gsi_part,
    JoinGame.gsi_body, QueryUserGames.gsi_body.
  by rewrite (is_read_off_scan _ H).
Qed.

Lemma total_direct_off_scan (operation : string) (d : list (string * pyval)) :
  String.prefix "scan_" operation = false ->
  JoinGame.total_direct operation d = QueryUserGames.total_direct operation d.
Proof.
  intros H. unfold JoinGame.total_direct, QueryUserGames.total_direct.
  by rewrite (is_read_off_scan _ H).
Qed.

Lemma sum_step_shift (rd : bool) (l : list (string * pyval)) (acc : Z * Z) :
  fold_left (sum_step rd) l acc =
    (fst acc + fst (fold_left (sum_step rd) l (0, 0)),
     snd acc + snd (fold_left (sum_step rd) l (0, 0))).
Proof.
  revert acc. induction l as [|x l IH]; intros [a b]; simpl.
  - f_equal; lia.
  - rewrite IH. rewrite (IH (sum_step rd (0, 0) x)). unfold sum_step. simpl. f_equal; lia.
Qed.

Lemma one_sided_step (rd : bool) (acc : Z * Z) (entry : string * pyval) :
  one_sided rd (entry_of (snd entry)) = true ->
  join_item_step rd acc entry = sum_step rd acc entry.
Proof.
  unfold one_sided, join_item_step, sum_step, entry_units.
  destruct rd; intros H%Z.eqb_eq; rewrite H; simpl.
  - rewrite andb_true_r. by destruct (_ =? 0)%Z.
  - by destruct (_ =? 0)%Z.
Qed.

Lemma one_sided_fold (rd : bool) (g : list (string * pyval)) (acc : Z * Z) :
  forallb (fun entry => wf_entry (snd entry) && one_sided rd (entry_of (snd entry))) g = true ->
  fold_left (join_item_step rd) g acc =
    (fst acc + fst (fold_left (sum_step rd) g (0, 0)),
     snd acc + snd (fold_left (sum_step rd) g (0, 0))).
Proof.
  intros H. rewrite <- sum_step_shift. revert acc.
  induction g as [|x g IH]; intros acc; [done|].
  simpl in H. apply andb_true_iff in H as [Hx Hg]. apply andb_true_iff in Hx as [_ Hx].
  simpl. rewrite (one_sided_step _ _ _ Hx). by apply IH.
Qed.

Lemma fold_item_off_scan (operation : string) (item : pyval) (t : tracker) :
  String.prefix "scan_" operation = false ->
  agreeing_item (QueryUserGames.is_read operation) item = true ->
  JoinGame.fold_item operation item t = QueryUserGames.fold_item operation item t.
Proof.
  intros Hscan Hitem. pose proof (is_read_off_scan _ Hscan) as Hrd.
  destruct item as [| | |d|]; try reflexivity.
  unfold JoinGame.fold_item, QueryUserGames.fold_item.
  rewrite (table_part_off_scan _ _ Hscan), (total_direct_off_scan _ _ Hscan).
  rewrite (gsi_part_off_scan _ _ Hscan).
  apply bind_cong. intros [tr tw] t1 _.
  destruct (dict_mem "CapacityUnits" d) eqn:Ec.
  { apply bind_cong. by intros [a b] t2 _. }
  cbn [agreeing_item] in Hitem. rewrite Ec in Hitem. cbn [orb] in Hitem.
  destruct (dict_get d "GlobalSecondaryIndexes") as [g|] eqn:Eg.
  - destruct g as [| | |g|]; try (unfold QueryUserGames.gsi_part; rewrite Eg; reflexivity).
    assert (Hall : forallb (fun entry => wf_entry (snd entry)) g = true).
    { rewrite forallb_forall in Hitem. apply forallb_forall.
      intros x Hx. by destruct (andb_prop _ _ (Hitem x Hx)). }
    assert (Hwf : wf_gsi d = true) by (unfold wf_gsi; by rewrite Eg).
    assert (Hg : gsi_entries d = g) by (unfold gsi_entries, dict_get_default; by rewrite Eg).
    rewrite !(bind_returns _ _ _ _ _ (query_gsi_part_ok _ _ _ Hwf)), Hg.
    assert (Hloop : forall s,
      (entries <- lift_res (py_items (PDict g)) ;;
       for_each entries (JoinGame.item_body operation) (tr, tw)) s =
      (Ok (fold_left (join_item_step (QueryUserGames.is_read operation)) g (tr, tw)), s)).
    { intros s. unfold bind, lift_res. cbn [py_items].
      rewrite (for_each_ok _ (fun entry => wf_entry (snd entry))
                 (join_item_step (JoinGame.is_read operation)) (fun s _ => s)).
      - by rewrite fold_left_const, Hrd.
      - intros acc [n v] s0 Hx. by apply join_item_body_ok.
      - exact Hall. }
    rewrite (bind_returns _ _ _ _ _ (Hloop _)), (one_sided_fold _ _ _ Hitem).
    by destruct (fold_left (sum_step _) g (0, 0)).
  - unfold QueryUserGames.gsi_part. rewrite Eg. unfold bind, ret, modify.
    by rewrite !Z.add_0_r.
Qed.

(** C7, as the scripts have it.  Under a name that does not start with
    [scan_] and from the same tracker: on every report that is no list,
    and on every list each of whose mapping items carries a top-level
    ['CapacityUnits'], or has no ['GlobalSecondaryIndexes'], or has index
    entries that are well-typed and one-sided, the two [add_consumption] do
    the same, ill-typed reports and raising included: same result, same
    tracker, overall totals included.  On every well-typed list they both
    return and agree on the base-table accumulator, the index accumulators,
    the history, the status and the error. *)
Theorem C7_ledgers_agree_off_scan
    (operation : string) (consumed_capacity : pyval) (t : tracker) :
  String.prefix "scan_" operation = false ->
  (agreeing (QueryUserGames.is_read operation) consumed_capacity = true ->
   JoinGame.add_consumption operation consumed_capacity t =
   QueryUserGames.add_consumption operation consumed_capacity t) /\
  (wf_report consumed_capacity = true ->
   exists tj tq,
     JoinGame.add_consumption operation consumed_capacity t = (Ok tt, tj) /\
     QueryUserGames.add_consumption operation consumed_capacity t = (Ok tt, tq) /\
     table_consumption tj = table_consumption tq /\
     gsi_consumption tj = gsi_consumption tq /\
     operations tj = operations tq /\ status tj = status tq /\ error tj = error tq).
Proof.
  intros Hscan. pose proof (is_read_off_scan _ Hscan) as Hrd. split.
  - intros Hsame. destruct consumed_capacity as [| | |d|l]; try reflexivity.
    + unfold JoinGame.add_consumption, QueryUserGames.add_consumption,
        JoinGame.fold_single, QueryUserGames.fold_single.
      by rewrite (table_part_off_scan _ _ Hscan), (gsi_part_off_scan _ _ Hscan),
        (total_direct_off_scan _ _ Hscan).
    + unfold JoinGame.add_consumption, QueryUserGames.add_consumption, bind.
      rewrite (for_each_ext _ (fun _ item => QueryUserGames.fold_item operation item)); [done|].
      intros item Hin _ s. apply fold_item_off_scan; [done|].
      simpl in Hsame. rewrite forallb_forall in Hsame. by apply Hsame.
  - intros Hwf. do 2 eexists.
    split; [by apply join_add_consumption_ok|].
    split; [by apply query_add_consumption_ok|].
    rewrite Hrd. destruct consumed_capacity as [| | |d|l]; try done.
    destruct (denote_but_totals (QueryUserGames.is_read operation)
                (join_item_total (QueryUserGames.is_read operation))
                (total_units (QueryUserGames.is_read operation)) l t t)
      as (E1 & E2 & E3 & E4 & E5); try reflexivity.
    cbn [append_operation table_consumption gsi_consumption operations status error].
    by rewrite E1, E2, E3, E4, E5.
Qed.

Lemma C7_ledgers_agree_off_scan_witness :
  String.prefix "scan_" "join_game_transaction" = false /\
  agreeing (QueryUserGames.is_read "join_game_transaction")
    (PList [PDict [("CapacityUnits", PNum 4); ("Table", PNone)]; written_index_only]) = true /\
  JoinGame.add_consumption "join_game_transaction"
    (PList [PDict [("CapacityUnits", PNum 4); ("Table", PNone)]; written_index_only]) reset =
  QueryUserGames.add_consumption "join_game_transaction"
    (PList [PDict [("CapacityUnits", PNum 4); ("Table", PNone)]; written_index_only]) reset /\
  agreeing (QueryUserGames.is_read "join_game_transaction") (PList [written_index_only]) = true /\
  (exists t',
     JoinGame.add_consumption "join_game_transaction" (PList [written_index_only]) reset
       = (Ok tt, t') /\
     QueryUserGames.add_consumption "join_game_transaction" (PList [written_index_only]) reset
       = (Ok tt, t') /\
     total_rcu t' = 0 /\ total_wcu t' = 2) /\
  wf_report (PList [read_and_written]) = true /\
  (exists tj tq,
     JoinGame.add_consumption "join_game_transaction" (PList [read_and_written]) reset
       = (Ok tt, tj) /\
     QueryUserGames.add_consumption "join_game_transaction" (PList [read_and_written]) reset
       = (Ok tt, tq) /\
     table_consumption tj = table_consumption tq /\
     gsi_consumption tj = gsi_consumption tq /\
     operations tj = operations tq /\ status tj = status tq /\ error tj = error tq).
Proof.
  split; [reflexivity|]. split; [reflexivity|]. split.
  { apply (proj1 (C7_ledgers_agree_off_scan "join_game_transaction"
                    (PList [PDict [("CapacityUnits", PNum 4); ("Table", PNone)];
                            written_index_only])
                    reset eq_refl)).
    reflexivity. }
  split; [reflexivity|]. split.
  { pose proof (proj1 (C7_ledgers_agree_off_scan "join_game_transaction"
                         (PList [written_index_only]) reset eq_refl) eq_refl) as Heq.
    eexists. split; [|split; [rewrite <- Heq|]]; [reflexivity|reflexivity|].
    split; reflexivity. }
  split; [reflexivity|].
  apply (proj2 (C7_ledgers_agree_off_scan "join_game_transaction"
                  (PList [read_and_written]) reset eq_refl)).
  reflexivity.
Defined.

(** Outside the reports of [agreeing] an ill-typed list can tell the two
    scripts apart: the second index loop of
    [join_game_with_opengamesindex.py] reads a ['CapacityUnits'] that the
    normalisation never looks at. *)
Lemma ledgers_differ_on_ill_typed_list :
  String.prefix "scan_" "query_open_games" = false /\
  (exists t', JoinGame.add_consumption "query_open_games" (PList [unread_text]) reset
              = (Raise (TypeError (PStr "n/a")), t')) /\
  (exists t', QueryUserGames.add_consumption "query_open_games" (PList [unread_text]) reset
              = (Ok tt, t')).
Proof. split; [reflexivity|]. split; eexists; reflexivity. Qed.

(** ** The join transaction *)

Lemma join_keys_distinct (game_id username : string) :
  membership_key game_id username <> game_key game_id.
Proof. unfold membership_key, game_key. intros [=]. Qed.

Lemma join_keys_nodup (game_id username : string) :
  NoDup (List.map write_key (JoinGame.join_statements game_id username)).
Proof.
  simpl. apply NoDup_cons. split.
  - intros H. apply list_elem_of_singleton in H.
    by apply (join_keys_distinct game_id username).
  - apply NoDup_singleton.
Qed.

(** When, and how, the transaction of a join applies. *)
Lemma transact_join_spec (game_id username : string) (tb : table) :
  (exists it n,
      tb !! membership_key game_id username = None /\
      tb !! game_key game_id = Some it /\ it !! "people" = Some (AttrN n) /\
      n <= JoinGame.MAX_PLAYERS - 1 /\
      transact_write_items (JoinGame.join_statements game_id username) tb =
        Ok (<[game_key game_id := <["people" := AttrN (n + 1)]> it]>
              (<[membership_key game_id username := membership_item game_id username]> tb)))
  \/
  ((is_Some (tb !! membership_key game_id username) \/
    forall n, people_at tb (game_key game_id) = Some n -> JoinGame.MAX_PLAYERS - 1 < n) /\
   transact_write_items (JoinGame.join_statements game_id username) tb =
     Raise (StoreError "TransactionCanceledException" "ConditionalCheckFailed")).
Proof.
  unfold transact_write_items.
  rewrite (bool_decide_eq_true_2 _ (join_keys_nodup game_id username)).
  cbn [negb forallb JoinGame.join_statements write_cond write_key check].
  fold (membership_key game_id username). fold (game_key game_id).
  destruct (tb !! membership_key game_id username) as [m|] eqn:Em.
  - right. split; [left; eauto|]. reflexivity.
  - cbn [check String.eqb orb andb].
    destruct (tb !! game_key game_id) as [it|] eqn:Eg.
    + destruct (it !! "people") as [[s|n]|] eqn:Ep.
      * right. split; [|reflexivity]. right. unfold people_at. by rewrite Eg, Ep.
      * destruct (n <=? JoinGame.MAX_PLAYERS - 1)%Z eqn:Hle.
        -- left. exists it, n. apply Z.leb_le in Hle. repeat split; auto.
           unfold JoinGame.join_statements. cbn [andb apply_all apply_write].
           fold (membership_key game_id username). fold (game_key game_id).
           fold (membership_item game_id username).
           rewrite lookup_insert_ne by apply join_keys_distinct.
           rewrite Eg, Ep. reflexivity.
        -- right. split; [|reflexivity]. right. unfold people_at. rewrite Eg, Ep.
           intros ? [= <-]. by apply Z.leb_gt in Hle.
      * right. split; [|reflexivity]. right. unfold people_at. by rewrite Eg, Ep.
    + right. split; [|reflexivity]. right. unfold people_at. by rewrite Eg.
Qed.

(** What a call of [join_game_for_user] comes to: either no transaction
    was applied, the call returns [False] and the tracker holds an error;
    or the transaction was applied, and the call returns [True] with the
    operation recorded unless recording the report raised. *)
Lemma join_outcome (py_str : exn -> string) (game_data : item) (username : string)
    (r : JoinGame.reply) (w : JoinGame.world) :
  let out := JoinGame.join_game_for_user py_str game_data username r w in
  let t' := JoinGame.resource_tracker (snd out) in
  (fst out = Ok false /\ JoinGame.db (snd out) = JoinGame.db w /\
   status t' = "failed" /\
   ((error t' = Some "Could not determine game ID" /\
     (JoinGame.extract_game_id game_data = None \/
      JoinGame.extract_game_id game_data = Some ""))
    \/
    (exists game_id e,
        JoinGame.extract_game_id game_data = Some game_id /\ game_id <> "" /\
        error t' = Some ("Transaction error: " +:+ py_str e) /\
        (JoinGame.fault r = Some e \/
         transact_write_items (JoinGame.join_statements game_id username) (JoinGame.db w)
           = Raise e))))
  \/
  (exists game_id,
      JoinGame.extract_game_id game_data = Some game_id /\ game_id <> "" /\
      JoinGame.fault r = None /\
      transact_write_items (JoinGame.join_statements game_id username) (JoinGame.db w)
        = Ok (JoinGame.db (snd out)) /\
      ((fst out = Ok true /\
        operations t' = (operations (JoinGame.resource_tracker w)
                         ++ ["join_game_transaction"])%list)
       \/
       (fst out = Ok false /\ status t' = "failed" /\
        exists e, error t' = Some ("Transaction error: " +:+ py_str e)))).
Proof.
  unfold JoinGame.join_game_for_user, try_except.
  destruct (JoinGame.extract_game_id game_data) as [game_id|] eqn:Ex.
  2:{ left. cbn. repeat split; auto. }
  destruct (String.eqb game_id "") eqn:Eid.
  { apply String.eqb_eq in Eid. subst. left. cbn. repeat split; auto. }
  apply String.eqb_neq in Eid.
  unfold bind, JoinGame.transact. cbv beta.
  destruct (JoinGame.fault r) as [e|] eqn:Ef.
  { left. cbn. repeat split; auto. right. exists game_id, e. auto. }
  destruct (transact_write_items _ (JoinGame.db w)) as [tb'|e] eqn:Et.
  2:{ left. cbn. repeat split; auto. right. exists game_id, e. auto. }
  right. exists game_id. repeat split; auto.
  - rewrite Et. f_equal.
    destruct (JoinGame.ConsumedCapacity r) as [cc|]; unfold JoinGame.on_tracker;
      cbn [JoinGame.resource_tracker JoinGame.db].
    + by destruct (JoinGame.add_consumption _ cc _) as [[[]|?] ?].
    + reflexivity.
  - destruct (JoinGame.ConsumedCapacity r) as [cc|]; unfold JoinGame.on_tracker;
      cbn [JoinGame.resource_tracker JoinGame.db].
    + destruct (JoinGame.add_consumption _ cc _) as [[[]|e] t1] eqn:Ea.
      * left. split; [reflexivity|]. cbn. by apply join_returns_appended in Ea.
      * right. cbn. eauto.
    + left. split; reflexivity.
Qed.

Lemma membership_not_game_key (g u g' : string) : membership_key g u <> game_key g'.
Proof. unfold membership_key, game_key. intros [=]. Qed.

Lemma membership_item_people (g u : string) : membership_item g u !! "people" = None.
Proof. unfold membership_item. by rewrite !lookup_insert_ne, lookup_empty. Qed.

(** The table after a call of [join_game_for_user]: as it was, or with
    the membership row put and the count of the game one higher. *)
Lemma join_table (py_str : exn -> string) (game_data : item) (username : string)
    (r : JoinGame.reply) (w : JoinGame.world) :
  let out := JoinGame.join_game_for_user py_str game_data username r w in
  (fst out <> Ok true /\ JoinGame.db (snd out) = JoinGame.db w) \/
  (exists game_id it n,
      JoinGame.extract_game_id game_data = Some game_id /\
      JoinGame.db w !! membership_key game_id username = None /\
      JoinGame.db w !! game_key game_id = Some it /\
      it !! "people" = Some (AttrN n) /\ n <= JoinGame.MAX_PLAYERS - 1 /\
      JoinGame.db (snd out) =
        <[game_key game_id := <["people" := AttrN (n + 1)]> it]>
          (<[membership_key game_id username := membership_item game_id username]>
             (JoinGame.db w))).
Proof.
  cbv zeta. destruct (join_outcome py_str game_data username r w)
    as [(Hf & Hdb & _)|(g & Hx & Hg & Hfault & Ht & _)].
  - left. split; [|done]. rewrite Hf. discriminate.
  - right. destruct (transact_join_spec g username (JoinGame.db w))
      as [(it & n & Hm & Hk & Hp & Hn & Hok)|[_ Hr]]; [|congruence].
    exists g, it, n. repeat split; auto. congruence.
Qed.

Lemma people_at_joined (tb : table) (g u : string) (it : item) (n : Z) (k : string * string) :
  tb !! membership_key g u = None -> tb !! game_key g = Some it ->
  it !! "people" = Some (AttrN n) ->
  people_at (<[game_key g := <["people" := AttrN (n + 1)]> it]>
               (<[membership_key g u := membership_item g u]> tb)) k =
  if decide (k = game_key g) then Some (n + 1) else people_at tb k.
Proof.
  intros Hm Hk Hp. unfold people_at. destruct (decide (k = game_key g)) as [->|Hne].
  - by rewrite lookup_insert_eq, lookup_insert_eq.
  - rewrite lookup_insert_ne by done.
    destruct (decide (k = membership_key g u)) as [->|Hne'].
    + by rewrite lookup_insert_eq, membership_item_people, Hm.
    + by rewrite lookup_insert_ne.
Qed.

Lemma join_people_step (py_str : exn -> string) (game_data : item) (username : string)
    (r : JoinGame.reply) (w : JoinGame.world) (k : string * string) :
  let w' := snd (JoinGame.join_game_for_user py_str game_data username r w) in
  people_at (JoinGame.db w') k = people_at (JoinGame.db w) k \/
  exists n, people_at (JoinGame.db w) k = Some n /\ n <= JoinGame.MAX_PLAYERS - 1 /\
            people_at (JoinGame.db w') k = Some (n + 1).
Proof.
  cbv zeta. destruct (join_table py_str game_data username r w)
    as [[_ Hdb]|(g & it & n & Hx & Hm & Hk & Hp & Hn & Hdb)].
  - left. by rewrite Hdb.
  - rewrite Hdb, (people_at_joined _ _ _ _ _ _ Hm Hk Hp).
    destruct (decide (k = game_key g)) as [->|Hne]; [right|by left].
    exists n. repeat split; auto. unfold people_at. by rewrite Hk, Hp.
Qed.

(** C1: a call of [join_game_for_user] leaves every stored player count as
    it was or raises it by exactly 1 from a count of at most 499; so from a
    table whose counts are at most 500, any sequence of join attempts, by
    any requests and in any order in which the store serialises their
    transactions, leaves every count at most 500; and a join on a game
    whose count is 500 returns [False] and leaves the count at 500. *)
Theorem C1_player_count_never_exceeds_ceiling (py_str : exn -> string) :
  (forall game_data username r w k,
      let w' := snd (JoinGame.join_game_for_user py_str game_data username r w) in
      people_at (JoinGame.db w') k = people_at (JoinGame.db w) k \/
      exists n, people_at (JoinGame.db w) k = Some n /\ n <= 499 /\
                people_at (JoinGame.db w') k = Some (n + 1)) /\
  (forall tb attempts k n,
      (forall k0 n0, people_at tb k0 = Some n0 -> n0 <= 500) ->
      people_at (run_attempts py_str tb attempts) k = Some n -> n <= 500) /\
  (forall game_data username r w game_id,
      JoinGame.extract_game_id game_data = Some game_id ->
      people_at (JoinGame.db w) (game_key game_id) = Some 500 ->
      let out := JoinGame.join_game_for_user py_str game_data username r w in
      fst out = Ok false /\
      people_at (JoinGame.db (snd out)) (game_key game_id) = Some 500).
Proof.
  split; [|split].
  - intros. apply join_people_step.
  - intros tb attempts. revert tb.
    induction attempts as [|a l IH]; intros tb k n Hcap; simpl.
    + apply Hcap.
    + apply IH. intros k0 n0 H0. unfold attempt_run in H0.
      destruct (join_people_step py_str (a_game_data a) (a_username a) (a_reply a)
                  (JoinGame.World (a_tracker a) tb) k0) as [E|(m & E1 & E2 & E3)].
      * apply (Hcap k0). cbn [JoinGame.db] in E. by rewrite <- E.
      * rewrite E3 in H0. injection H0 as <-. unfold JoinGame.MAX_PLAYERS in E2. lia.
  - intros game_data username r w game_id Hx Hp. cbv zeta.
    destruct (join_outcome py_str game_data username r w)
      as [(Hf & Hdb & _)|(g & Hx' & Hg & Hfault & Ht & _)].
    + by rewrite Hdb.
    + rewrite Hx in Hx'. injection Hx' as <-.
      destruct (transact_join_spec game_id username (JoinGame.db w))
        as [(it & n & Hm & Hk & Hpp & Hn & Hok)|[_ Hr]]; [|congruence].
      unfold people_at in Hp. rewrite Hk, Hpp in Hp. injection Hp as ->.
      unfold JoinGame.MAX_PLAYERS in Hn. lia.
Qed.

Lemma C1_player_count_never_exceeds_ceiling_witness :
  let full : table := {[ game_key "G1" := {[ "people" := AttrN 500 ]} ]} in
  let out := JoinGame.join_game_for_user (fun _ => "conflict")
               {[ "game_id" := AttrS "G1" ]} "alice" (JoinGame.Reply None None)
               (JoinGame.World reset full) in
  JoinGame.extract_game_id {[ "game_id" := AttrS "G1" ]} = Some "G1" /\
  people_at full (game_key "G1") = Some 500 /\
  fst out = Ok false /\
  people_at (JoinGame.db (snd out)) (game_key "G1") = Some 500.
Proof.
  split; [reflexivity|]. split; [reflexivity|].
  apply (proj2 (proj2 (C1_player_count_never_exceeds_ceiling (fun _ => "conflict")))
           {[ "game_id" := AttrS "G1" ]} "alice" (JoinGame.Reply None None)
           (JoinGame.World reset {[ game_key "G1" := {[ "people" := AttrN 500 ]} ]}) "G1");
    reflexivity.
Defined.

Lemma join_rows_stay (py_str : exn -> string) (game_data : item) (username : string)
    (r : JoinGame.reply) (w : JoinGame.world) (g u : string) (row : item) :
  JoinGame.db w !! membership_key g u = Some row ->
  JoinGame.db (snd (JoinGame.join_game_for_user py_str game_data username r w))
    !! membership_key g u = Some row.
Proof.
  intros Hrow. destruct (join_table py_str game_data username r w)
    as [[_ Hdb]|(g0 & it & n & Hx & Hm & Hk & Hp & Hn & Hdb)]; rewrite Hdb; [done|].
  rewrite lookup_insert_ne by (intros E; symmetry in E; by apply membership_not_game_key in E).
  rewrite lookup_insert_ne; [done|]. intros E. rewrite E in Hm. congruence.
Qed.

Lemma join_success_row (py_str : exn -> string) (game_data : item) (username : string)
    (r : JoinGame.reply) (w : JoinGame.world) :
  let out := JoinGame.join_game_for_user py_str game_data username r w in
  fst out = Ok true ->
  exists game_id,
    JoinGame.extract_game_id game_data = Some game_id /\
    JoinGame.db w !! membership_key game_id username = None /\
    JoinGame.db (snd out) !! membership_key game_id username
      = Some (membership_item game_id username).
Proof.
  cbv zeta. intros Hok. destruct (join_table py_str game_data username r w)
    as [[Hne _]|(g0 & it & n & Hx & Hm & Hk & Hp & Hn & Hdb)]; [done|].
  exists g0. repeat split; auto. rewrite Hdb.
  rewrite lookup_insert_ne by (intros E; symmetry in E; by apply membership_not_game_key in E).
  by rewrite lookup_insert_eq.
Qed.

Lemma join_successes_enrolled (py_str : exn -> string) (g u : string)
    (l : list attempt) (tb : table) :
  is_Some (tb !! membership_key g u) -> join_successes py_str g u tb l = 0%nat.
Proof.
  revert tb. induction l as [|a l IH]; intros tb [row Hrow]; simpl; [done|].
  rewrite IH.
  2:{ exists row. by apply (join_rows_stay py_str _ _ _ (JoinGame.World (a_tracker a) tb)). }
  destruct (fst (attempt_run py_str tb a)) as [[]|] eqn:Ef; try done.
  destruct (bool_decide _) eqn:Eg; [|done]. simpl.
  destruct (String.eqb (a_username a) u) eqn:Eu; [|done].
  apply bool_decide_eq_true in Eg. apply String.eqb_eq in Eu.
  destruct (join_success_row py_str _ _ _ _ Ef) as (g0 & Hx & Hnone & _).
  cbn [JoinGame.db] in Hnone. rewrite Eg in Hx. injection Hx as <-. rewrite Eu in Hnone.
  congruence.
Qed.

(** C2: a join for a username whose membership row is already stored
    returns [False], leaves the table, and so the player count, untouched,
    and sets the tracker to failed with an error, which is the conflict
    the transaction reported when the game id is not empty and the call
    had no fault of its own; a join that returns [True] found no such row
    and put it; no join touches a membership row that is stored; and in
    any sequence of join attempts at most one enrols a given username into
    a given game. *)
Theorem C2_second_join_rejected (py_str : exn -> string) :
  (forall game_data username r w game_id,
      JoinGame.extract_game_id game_data = Some game_id ->
      is_Some (JoinGame.db w !! membership_key game_id username) ->
      let out := JoinGame.join_game_for_user py_str game_data username r w in
      fst out = Ok false /\ JoinGame.db (snd out) = JoinGame.db w /\
      status (JoinGame.resource_tracker (snd out)) = "failed" /\
      is_Some (error (JoinGame.resource_tracker (snd out))) /\
      (game_id <> "" -> JoinGame.fault r = None ->
       error (JoinGame.resource_tracker (snd out)) =
         Some ("Transaction error: " +:+
               py_str (StoreError "TransactionCanceledException" "ConditionalCheckFailed")))) /\
  (forall game_data username r w,
      let out := JoinGame.join_game_for_user py_str game_data username r w in
      fst out = Ok true ->
      exists game_id,
        JoinGame.extract_game_id game_data = Some game_id /\
        JoinGame.db w !! membership_key game_id username = None /\
        JoinGame.db (snd out) !! membership_key game_id username
          = Some (membership_item game_id username)) /\
  (forall game_data username r w g u row,
      JoinGame.db w !! membership_key g u = Some row ->
      JoinGame.db (snd (JoinGame.join_game_for_user py_str game_data username r w))
        !! membership_key g u = Some row) /\
  (forall g u tb attempts, (join_successes py_str g u tb attempts <= 1)%nat).
Proof.
  split; [|split; [|split]].
  - intros game_data username r w game_id Hx Hrow. cbv zeta.
    assert (Hcancel : transact_write_items (JoinGame.join_statements game_id username)
                        (JoinGame.db w)
                      = Raise (StoreError "TransactionCanceledException" "ConditionalCheckFailed")).
    { destruct (transact_join_spec game_id username (JoinGame.db w))
        as [(it & n & Hm & _)|[_ Hr]]; [|done].
      rewrite Hm in Hrow. by destruct Hrow. }
    destruct (join_outcome py_str game_data username r w)
      as [(Hf & Hdb & Hst & Herr)|(g & Hx' & Hg & Hfault & Ht & _)].
    + split; [done|]. split; [done|]. split; [done|]. split.
      * destruct Herr as [[-> _]|(g & e & _ & _ & -> & _)]; eauto.
      * intros Hg Hfault.
        destruct Herr as [[_ [He|He]]|(g & e & Hx' & _ & -> & [He|He])]; congruence.
    + rewrite Hx in Hx'. injection Hx' as <-. congruence.
  - intros. by apply join_success_row.
  - intros. by apply join_rows_stay.
  - intros g u tb attempts. revert tb.
    induction attempts as [|a l IH]; intros tb; simpl; [lia|].
    destruct (fst (attempt_run py_str tb a)) as [[]|] eqn:Ef; try apply IH.
    destruct (bool_decide _) eqn:Eg; [|apply IH]. simpl.
    destruct (String.eqb (a_username a) u) eqn:Eu; [|apply IH].
    apply bool_decide_eq_true in Eg. apply String.eqb_eq in Eu.
    destruct (join_success_row py_str _ _ _ _ Ef) as (g0 & Hx & _ & Hsome).
    rewrite Eg in Hx. injection Hx as <-. subst u.
    rewrite join_successes_enrolled; [lia|]. unfold attempt_run.
    exists (membership_item g (a_username a)). exact Hsome.
Qed.

Lemma C2_second_join_rejected_witness :
  let enrolled : table :=
    {[ game_key "G1" := {[ "people" := AttrN 1 ]};
       membership_key "G1" "alice" := membership_item "G1" "alice" ]} in
  let out := JoinGame.join_game_for_user (fun _ => "conflict")
               {[ "game_id" := AttrS "G1" ]} "alice" (JoinGame.Reply None None)
               (JoinGame.World reset enrolled) in
  fst out = Ok false /\ JoinGame.db (snd out) = enrolled /\
  status (JoinGame.resource_tracker (snd out)) = "failed" /\
  is_Some (error (JoinGame.resource_tracker (snd out))) /\
  ("G1" <> "" -> JoinGame.fault (JoinGame.Reply None None) = None ->
   error (JoinGame.resource_tracker (snd out)) = Some ("Transaction error: " +:+ "conflict")).
Proof.
  intros enrolled out.
  assert (Hrow : is_Some (enrolled !! membership_key "G1" "alice")).
  { exists (membership_item "G1" "alice"). vm_compute. reflexivity. }
  exact (proj1 (C2_second_join_rejected (fun _ => "conflict"))
           {[ "game_id" := AttrS "G1" ]} "alice" (JoinGame.Reply None None)
           (JoinGame.World reset enrolled) "G1" eq_refl Hrow).
Defined.

(** ** [main] of the join script *)

(** C10: when [join_game_for_user] returns [True], [main] sets the status
    to success and clears the error whatever the map queries left in the
    tracker, errors recorded by [set_error] included; the one record it
    emits has status success and no error, and carries the history of the
    map queries followed by the join and the totals accumulated so far. *)
Theorem C10_success_overwrites_earlier_errors
    (py_str : exn -> string) (e : JoinGame.env) (w : JoinGame.world)
    (games : list item) (w1 w2 : JoinGame.world) :
  JoinGame.find_open_games py_str e (JoinGame.World reset (JoinGame.db w)) = (Ok games, w1) ->
  games <> [] ->
  JoinGame.join_game_for_user py_str (choice (JoinGame.game_draw e) games ∅)
    (JoinGame.user_id e) (JoinGame.join_reply e) w1 = (Ok true, w2) ->
  exists entry w3,
    JoinGame.main py_str e w = (Ok entry, w3) /\
    JoinGame.log_status entry = "success" /\
    JoinGame.log_error entry = None /\
    JoinGame.log_operations entry =
      (operations (JoinGame.resource_tracker w1) ++ ["join_game_transaction"])%list /\
    JoinGame.log_rcu entry = total_rcu (JoinGame.resource_tracker w2) /\
    JoinGame.log_wcu entry = total_wcu (JoinGame.resource_tracker w2) /\
    JoinGame.log_table_usage entry = table_consumption (JoinGame.resource_tracker w2) /\
    JoinGame.log_user_id entry = JoinGame.user_id e /\
    status (JoinGame.resource_tracker w3) = "success" /\
    error (JoinGame.resource_tracker w3) = None.
Proof.
  intros Hfind Hgames Hjoin.
  pose proof (join_outcome py_str (choice (JoinGame.game_draw e) games ∅)
                (JoinGame.user_id e) (JoinGame.join_reply e) w1) as Hout.
  rewrite Hjoin in Hout. cbn [fst snd] in Hout.
  destruct Hout as [[Hf _]|(g & _ & _ & _ & _ & [[_ Hops]|[Hf _]])]; try discriminate.
  unfold JoinGame.main, bind, try_except, modify. rewrite Hfind.
  destruct games as [|g0 games']; [done|]. rewrite Hjoin.
  do 2 eexists. split; [reflexivity|]. cbn. rewrite Hops. repeat split.
Qed.

Lemma C10_success_overwrites_earlier_errors_witness :
  status (JoinGame.resource_tracker
            (snd (JoinGame.find_open_games (fun _ => "boom") failing_first_query
                    one_open_game))) = "failed" /\
  exists entry w3,
    JoinGame.main (fun _ => "boom") failing_first_query one_open_game = (Ok entry, w3) /\
    JoinGame.log_status entry = "success" /\
    JoinGame.log_error entry = None /\
    JoinGame.log_operations entry =
      ["query_open_games_map_Dirty Desert"; "join_game_transaction"] /\
    JoinGame.log_rcu entry = 1 /\ JoinGame.log_wcu entry = 4.
Proof.
  split; [vm_compute; reflexivity|].
  edestruct (C10_success_overwrites_earlier_errors (fun _ => "boom") failing_first_query
               one_open_game)
    as (entry & w3 & Hmain & Hst & Herr & Hops & Hr & Hw & _).
  - vm_compute. reflexivity.
  - discriminate.
  - vm_compute. reflexivity.
  - exists entry, w3. vm_compute in Hops, Hr, Hw. repeat split; auto.
Defined.

(** ** The bulk lookup *)

Lemma py_range_100 (n : nat) :
  QueryUserGames.py_range n 100 = List.map (fun k => (k * 100)%nat) (seq 0 ((n + 99) / 100)).
Proof.
  unfold QueryUserGames.py_range.
  by replace (n + 100 - 1)%nat with (n + 99)%nat by lia.
Qed.

Lemma slices_concat (c : nat) (keys : list (string * string)) :
  (length keys <= c * 100)%nat ->
  concat (List.map (fun k => QueryUserGames.slice keys (k * 100)) (seq 0 c)) = keys.
Proof.
  revert keys. induction c as [|c IH]; intros keys Hlen; simpl.
  - destruct keys; [done|simpl in Hlen; lia].
  - rewrite <- seq_shift, List.map_map.
    rewrite (List.map_ext _ (fun k => QueryUserGames.slice (drop 100 keys) (k * 100))).
    + rewrite IH by (rewrite length_drop; lia).
      unfold QueryUserGames.slice. rewrite drop_0. apply take_drop.
    + intros k. unfold QueryUserGames.slice. by rewrite drop_drop.
Qed.

Lemma batches_concat (keys : list (string * string)) : concat (batches keys) = keys.
Proof.
  unfold batches. rewrite py_range_100, List.map_map. apply slices_concat.
  pose proof (Nat.div_mod_eq (length keys + 99) 100).
  pose proof (Nat.mod_upper_bound (length keys + 99) 100). lia.
Qed.

Lemma batches_length (keys : list (string * string)) :
  length (batches keys) = ((length keys + 99) / 100)%nat.
Proof. unfold batches. by rewrite py_range_100, !length_map, length_seq. Qed.

Lemma batches_sizes (keys : list (string * string)) :
  Forall (fun b => (0 < length b <= 100)%nat) (batches keys).
Proof.
  unfold batches. rewrite py_range_100, List.map_map. apply Forall_forall.
  intros b Hb. apply list_elem_of_In, in_map_iff in Hb as (k & <- & Hk).
  apply in_seq in Hk. unfold QueryUserGames.slice. rewrite length_take, length_drop.
  pose proof (Nat.div_mod_eq (length keys + 99) 100).
  pose proof (Nat.mod_upper_bound (length keys + 99) 100). lia.
Qed.

Lemma batch_name_inj : Inj (=) (=) batch_name.
Proof.
  intros a b H. unfold batch_name in H. simpl in H.
  injection H as H. by apply (inj pretty).
Qed.

Lemma batch_names_nodup (c : nat) : NoDup (List.map batch_name (seq 0 c)).
Proof. apply (NoDup_fmap_2 batch_name), NoDup_seq. Qed.

Lemma denote_operations (rd : bool) (tot : list (string * pyval) -> Z * Z)
    (consumed_capacity : pyval) (t : tracker) :
  operations (denote rd tot consumed_capacity t) = operations t.
Proof.
  destruct consumed_capacity as [| | |d|l]; try done. simpl.
  revert t. induction l as [|[] l IH]; intros t; simpl; try done. by rewrite IH.
Qed.

Lemma for_each_ok_in {S X A} (body : A -> X -> M S A) (step : A -> X -> A)
    (effect : S -> X -> S) (l : list X) (acc : A) (s : S) :
  (forall x, In x l -> forall a s0, body a x s0 = (Ok (step a x), effect s0 x)) ->
  for_each l body acc s = (Ok (fold_left step l acc), fold_left effect l s).
Proof.
  revert acc s. induction l as [|x l IH]; intros acc s H; simpl; [done|].
  unfold bind. rewrite (H x (or_introl eq_refl)). apply IH.
  intros y Hy. apply H. by right.
Qed.

Lemma for_each_raises {S X A} (body : A -> X -> M S A) (step : A -> X -> A)
    (effect : S -> X -> S) (pre : list X) (x : X) (post : list X) (acc : A) (s s' : S)
    (e : exn) :
  (forall y, In y pre -> forall a s0, body a y s0 = (Ok (step a y), effect s0 y)) ->
  body (fold_left step pre acc) x (fold_left effect pre s) = (Raise e, s') ->
  for_each (pre ++ x :: post) body acc s = (Raise e, s').
Proof.
  revert acc s. induction pre as [|y pre IH]; intros acc s H Hx; simpl in *.
  - unfold bind. by rewrite Hx.
  - unfold bind. rewrite (H y (or_introl eq_refl)). apply IH; [|done].
    intros z Hz. apply H. by right.
Qed.

Lemma int_attr_number (py_int : string -> option Z) (it : QueryUserGames.response_item)
    (a : string) :
  rejected py_int it a = None ->
  QueryUserGames.int_attr py_int it a = Ok (number py_int it a).
Proof.
  unfold rejected, QueryUserGames.int_attr, number.
  destruct (it !! a) as [[s|text|]|]; try done. by destruct (py_int text).
Qed.

Lemma int_attr_rejected (py_int : string -> option Z) (it : QueryUserGames.response_item)
    (a text : string) :
  rejected py_int it a = Some text ->
  QueryUserGames.int_attr py_int it a = Raise (ValueError text).
Proof.
  unfold rejected, QueryUserGames.int_attr.
  destruct (it !! a) as [[s|text'|]|]; try done.
  destruct (py_int text'); [done|]. by intros [= ->].
Qed.

Lemma extract_detail_ok {S} (py_int : string -> option Z) (it : QueryUserGames.response_item)
    (s : S) :
  first_rejected py_int it = None ->
  QueryUserGames.extract_detail py_int it s = (Ok (detail_of py_int it), s).
Proof.
  unfold first_rejected, QueryUserGames.extract_detail.
  destruct (rejected py_int it "people") eqn:E1; [done|].
  destruct (rejected py_int it "max_people") eqn:E2; [done|]. intros E3.
  rewrite (int_attr_number _ _ _ E1), (int_attr_number _ _ _ E2), (int_attr_number _ _ _ E3).
  unfold bind, lift_res, ret, detail_of, QueryUserGames.attr_S.
  by destruct (it !! "game_id") as [[]|], (it !! "PK") as [[]|], (it !! "map") as [[]|].
Qed.

Lemma extract_detail_raises {S} (py_int : string -> option Z)
    (it : QueryUserGames.response_item) (text : string) (s : S) :
  first_rejected py_int it = Some text ->
  QueryUserGames.extract_detail py_int it s = (Raise (ValueError text), s).
Proof.
  unfold first_rejected, QueryUserGames.extract_detail.
  destruct (rejected py_int it "people") eqn:E1.
  { intros [= ->]. by rewrite (int_attr_rejected _ _ _ _ E1). }
  rewrite (int_attr_number _ _ _ E1).
  destruct (rejected py_int it "max_people") eqn:E2.
  { intros [= ->]. by rewrite (int_attr_rejected _ _ _ _ E2). }
  rewrite (int_attr_number _ _ _ E2). intros E3.
  by rewrite (int_attr_rejected _ _ _ _ E3).
Qed.

Lemma items_read {S} (py_int : string -> option Z) (items : list QueryUserGames.response_item)
    (acc : list QueryUserGames.game_detail) (s : S) :
  first_unreadable py_int items = None ->
  for_each items
    (fun all_game_details item =>
       game_detail <- QueryUserGames.extract_detail py_int item ;;
       ret (all_game_details ++ [game_detail])%list) acc s =
  (Ok (acc ++ List.map (detail_of py_int) items)%list, s).
Proof.
  revert acc. induction items as [|it items IH]; intros acc; simpl.
  - by rewrite app_nil_r.
  - destruct (first_rejected py_int it) eqn:E; [done|]. intros H.
    unfold bind at 1 2. rewrite (extract_detail_ok _ _ _ E). unfold ret at 1.
    rewrite (IH _ H). by rewrite <- app_assoc.
Qed.

Lemma items_unreadable {S} (py_int : string -> option Z)
    (items : list QueryUserGames.response_item) (text : string)
    (acc : list QueryUserGames.game_detail) (s : S) :
  first_unreadable py_int items = Some text ->
  for_each items
    (fun all_game_details item =>
       game_detail <- QueryUserGames.extract_detail py_int item ;;
       ret (all_game_details ++ [game_detail])%list) acc s =
  (Raise (ValueError text), s).
Proof.
  revert acc. induction items as [|it items IH]; intros acc; simpl; [done|].
  destruct (first_rejected py_int it) eqn:E.
  - intros [= ->]. unfold bind. by rewrite (extract_detail_raises _ _ _ _ E).
  - intros H. unfold bind at 1 2. rewrite (extract_detail_ok _ _ _ E). unfold ret at 1.
    by apply IH.
Qed.

Lemma batch_body_ok (py_int : string -> option Z)
    (batch_get_item : list (string * string) -> QueryUserGames.batch_reply)
    (keys : list (string * string)) (acc : list QueryUserGames.game_detail) (i : nat)
    (w : QueryUserGames.world) :
  reports_well batch_get_item (QueryUserGames.slice keys i) = true ->
  batch_failure py_int batch_get_item (QueryUserGames.slice keys i) = None ->
  QueryUserGames.batch_body py_int batch_get_item keys acc i w =
    (Ok (acc ++ batch_details py_int batch_get_item (QueryUserGames.slice keys i))%list,
     batch_effect batch_get_item keys w i).
Proof.
  unfold reports_well, batch_failure, QueryUserGames.batch_body, batch_details.
  destruct (QueryUserGames.fault _); [done|]. intros Hc Hf.
  rewrite (bind_returns _ _ w (batch_sent keys w i) tt eq_refl). fold (batch_name (i / 100)).
  assert (Hrec :
    match QueryUserGames.ConsumedCapacity
            (batch_get_item (QueryUserGames.slice keys i)) with
    | Some consumed_capacity =>
        QueryUserGames.on_tracker
          (QueryUserGames.add_consumption (batch_name (i / 100)) consumed_capacity)
    | None =>
        QueryUserGames.on_tracker (modify (append_operation (batch_name (i / 100))))
    end (batch_sent keys w i) = (Ok tt, batch_effect batch_get_item keys w i)).
  { unfold batch_effect, batch_sent, QueryUserGames.on_tracker.
    destruct (QueryUserGames.ConsumedCapacity _) as [cc|];
      cbn [QueryUserGames.resource_tracker QueryUserGames.bulk_reads].
    - by rewrite (query_add_consumption_ok _ _ _ Hc).
    - reflexivity. }
  rewrite (bind_returns _ _ _ _ _ Hrec).
  destruct (QueryUserGames.Responses _) as [items|].
  - destruct (first_unreadable py_int items) eqn:E; [done|]. by rewrite (items_read _ _ _ _ E).
  - unfold ret. by rewrite app_nil_r.
Qed.

Lemma batch_body_fails (py_int : string -> option Z)
    (batch_get_item : list (string * string) -> QueryUserGames.batch_reply)
    (keys : list (string * string)) (acc : list QueryUserGames.game_detail) (i : nat)
    (w : QueryUserGames.world) (e : exn) (recorded : bool) :
  reports_well batch_get_item (QueryUserGames.slice keys i) = true ->
  batch_failure py_int batch_get_item (QueryUserGames.slice keys i) = Some (e, recorded) ->
  QueryUserGames.batch_body py_int batch_get_item keys acc i w =
    (Raise e, if recorded then batch_effect batch_get_item keys w i
              else batch_sent keys w i).
Proof.
  unfold reports_well, batch_failure, QueryUserGames.batch_body.
  rewrite (bind_returns _ _ w (batch_sent keys w i) tt eq_refl).
  destruct (QueryUserGames.fault _) as [e'|]; [by intros _ [= -> <-]|]. intros Hc Hf.
  fold (batch_name (i / 100)).
  assert (Hrec :
    match QueryUserGames.ConsumedCapacity
            (batch_get_item (QueryUserGames.slice keys i)) with
    | Some consumed_capacity =>
        QueryUserGames.on_tracker
          (QueryUserGames.add_consumption (batch_name (i / 100)) consumed_capacity)
    | None =>
        QueryUserGames.on_tracker (modify (append_operation (batch_name (i / 100))))
    end (batch_sent keys w i) = (Ok tt, batch_effect batch_get_item keys w i)).
  { unfold batch_effect, batch_sent, QueryUserGames.on_tracker.
    destruct (QueryUserGames.ConsumedCapacity _) as [cc|];
      cbn [QueryUserGames.resource_tracker QueryUserGames.bulk_reads].
    - by rewrite (query_add_consumption_ok _ _ _ Hc).
    - reflexivity. }
  rewrite (bind_returns _ _ _ _ _ Hrec).
  destruct (QueryUserGames.Responses _) as [items|]; [|done].
  destruct (first_unreadable py_int items) eqn:E; [|done].
  injection Hf as <- <-. by rewrite (items_unreadable _ _ _ _ _ E).
Qed.

Lemma batch_effect_fold (batch_get_item : list (string * string) -> QueryUserGames.batch_reply)
    (keys : list (string * string)) (l : list nat) (w : QueryUserGames.world) :
  let w' := fold_left (batch_effect batch_get_item keys) l w in
  QueryUserGames.bulk_reads w' =
    (QueryUserGames.bulk_reads w ++ List.map (QueryUserGames.slice keys) l)%list /\
  operations (QueryUserGames.resource_tracker w') =
    (operations (QueryUserGames.resource_tracker w)
     ++ List.map (fun i => batch_name (i / 100)) l)%list.
Proof.
  revert w. induction l as [|i l IH]; intros w; simpl.
  - by rewrite !app_nil_r.
  - destruct (IH (batch_effect batch_get_item keys w i)) as [-> ->]. simpl.
    rewrite <- !app_assoc. split; [done|]. f_equal.
    destruct (QueryUserGames.ConsumedCapacity _); [|done]. apply denote_operations.
Qed.

Lemma details_fold (py_int : string -> option Z)
    (batch_get_item : list (string * string) -> QueryUserGames.batch_reply)
    (keys : list (string * string)) (l : list nat) (acc : list QueryUserGames.game_detail) :
  fold_left (fun acc i => acc ++ batch_details py_int batch_get_item
                                   (QueryUserGames.slice keys i))%list l acc =
  (acc ++ concat (List.map (batch_details py_int batch_get_item)
                    (List.map (QueryUserGames.slice keys) l)))%list.
Proof.
  revert acc. induction l as [|i l IH]; intros acc; simpl.
  - by rewrite app_nil_r.
  - by rewrite IH, app_assoc.
Qed.

Lemma batches_split (keys : list (string * string))
    (pre : list (list (string * string))) (b : list (string * string))
    (post : list (list (string * string))) :
  batches keys = (pre ++ b :: post)%list ->
  QueryUserGames.py_range (length keys) 100 =
    (List.map (fun k => (k * 100)%nat) (seq 0 (length pre))
     ++ (length pre * 100)%nat
     :: List.map (fun k => (k * 100)%nat) (seq (S (length pre)) (length post)))%list /\
  pre = List.map (QueryUserGames.slice keys)
          (List.map (fun k => (k * 100)%nat) (seq 0 (length pre))) /\
  b = QueryUserGames.slice keys (length pre * 100).
Proof.
  unfold batches. rewrite py_range_100. intros H.
  assert (Hc : ((length keys + 99) / 100 = length pre + S (length post))%nat).
  { apply (f_equal (@length _)) in H.
    rewrite !length_map, length_seq, length_app in H. simpl in H. exact H. }
  rewrite Hc in *. rewrite seq_app, !map_app in H. simpl in H.
  assert (Hl : length (List.map (QueryUserGames.slice keys)
                         (List.map (fun k => (k * 100)%nat) (seq 0 (length pre))))
               = length pre) by (by rewrite !length_map, length_seq).
  apply app_inj_1 in H as [Hpre Hrest]; [|exact Hl].
  injection Hrest as Hb Hpost.
  split; [|split].
  - by rewrite seq_app, map_app.
  - by rewrite Hpre.
  - by rewrite <- Hb.
Qed.

Lemma batches_facts (game_ids : list string) :
  length (batches (game_keys game_ids)) = ((length game_ids + 99) / 100)%nat /\
  concat (batches (game_keys game_ids)) = game_keys game_ids /\
  Forall (fun b => (0 < length b <= 100)%nat) (batches (game_keys game_ids)) /\
  NoDup (List.map batch_name (seq 0 (length (batches (game_keys game_ids))))) /\
  (length game_ids = 150%nat ->
   List.map length (batches (game_keys game_ids)) = [100; 50]%nat).
Proof.
  split; [|split; [|split; [|split]]].
  - rewrite batches_length. unfold game_keys. by rewrite length_map.
  - apply batches_concat.
  - apply batches_sizes.
  - apply batch_names_nodup.
  - intros H150. unfold batches.
    assert (Hk : length (game_keys game_ids) = 150%nat)
      by (unfold game_keys; by rewrite length_map).
    rewrite Hk. change (QueryUserGames.py_range 150 100) with [0; 100]%nat.
    cbn [List.map]. unfold QueryUserGames.slice.
    rewrite !length_take, !length_drop, Hk. reflexivity.
Qed.

Lemma names_of_offsets (c : nat) :
  List.map (fun i => batch_name (i / 100)) (List.map (fun k => (k * 100)%nat) (seq 0 c))
  = List.map batch_name (seq 0 c).
Proof. rewrite List.map_map. apply List.map_ext. intros k. by rewrite Nat.div_mul. Qed.

Lemma lookup_all_pass (py_str : exn -> string) (py_int : string -> option Z)
    (batch_get_item : list (string * string) -> QueryUserGames.batch_reply)
    (game_ids : list string) (w : QueryUserGames.world) :
  Forall (passes py_int batch_get_item) (batches (game_keys game_ids)) ->
  QueryUserGames.get_game_details py_str py_int batch_get_item game_ids w =
    (Ok (concat (List.map (batch_details py_int batch_get_item)
                   (batches (game_keys game_ids)))),
     fold_left (batch_effect batch_get_item (game_keys game_ids))
       (QueryUserGames.py_range (length (game_keys game_ids)) 100) w).
Proof.
  intros Hall. destruct game_ids as [|g0 ids]; [reflexivity|].
  remember (g0 :: ids) as game_ids eqn:Hids.
  unfold QueryUserGames.get_game_details. rewrite Hids. rewrite <- Hids.
  fold (game_keys game_ids). unfold try_except.
  rewrite (for_each_ok_in _
             (fun acc i => acc ++ batch_details py_int batch_get_item
                                    (QueryUserGames.slice (game_keys game_ids) i))%list
             (batch_effect batch_get_item (game_keys game_ids))).
  - by rewrite details_fold.
  - intros i Hi acc s.
    assert (Hp : passes py_int batch_get_item (QueryUserGames.slice (game_keys game_ids) i)).
    { rewrite Forall_forall in Hall. apply Hall, list_elem_of_In.
      unfold batches. by apply in_map. }
    destruct Hp as [Hw Hf]. by apply batch_body_ok.
Qed.

Lemma lookup_fails (py_str : exn -> string) (py_int : string -> option Z)
    (batch_get_item : list (string * string) -> QueryUserGames.batch_reply)
    (game_ids : list string) (w : QueryUserGames.world)
    (pre : list (list (string * string))) (b : list (string * string))
    (post : list (list (string * string))) (e : exn) (recorded : bool) :
  batches (game_keys game_ids) = (pre ++ b :: post)%list ->
  Forall (passes py_int batch_get_item) pre ->
  reports_well batch_get_item b = true ->
  batch_failure py_int batch_get_item b = Some (e, recorded) ->
  exists w',
    QueryUserGames.get_game_details py_str py_int batch_get_item game_ids w = (Ok [], w') /\
    QueryUserGames.bulk_reads w' = (QueryUserGames.bulk_reads w ++ pre ++ [b])%list /\
    operations (QueryUserGames.resource_tracker w') =
      (operations (QueryUserGames.resource_tracker w)
       ++ List.map batch_name (seq 0 (length pre + (if recorded then 1 else 0))))%list /\
    status (QueryUserGames.resource_tracker w') = "failed" /\
    error (QueryUserGames.resource_tracker w') = Some (py_str e).
Proof.
  intros Hsplit Hpre Hw Hf.
  destruct (batches_split _ _ _ _ Hsplit) as (Hoffs & Hpre_eq & Hb).
  destruct game_ids as [|g0 ids]; [by destruct pre|].
  remember (g0 :: ids) as game_ids eqn:Hids.
  set (keys := game_keys game_ids) in *.
  set (opre := List.map (fun k => (k * 100)%nat) (seq 0 (length pre))) in *.
  set (wpre := fold_left (batch_effect batch_get_item keys) opre w).
  destruct (batch_effect_fold batch_get_item keys opre w) as [Hreads Hops].
  fold wpre in Hreads, Hops.
  assert (Hrun :
    for_each (QueryUserGames.py_range (length keys) 100)
      (QueryUserGames.batch_body py_int batch_get_item keys) [] w =
    (Raise e, if recorded then batch_effect batch_get_item keys wpre (length pre * 100)
              else batch_sent keys wpre (length pre * 100))).
  { rewrite Hoffs. fold opre.
    apply (for_each_raises _
             (fun acc i => acc ++ batch_details py_int batch_get_item
                                    (QueryUserGames.slice keys i))%list
             (batch_effect batch_get_item keys)).
    - intros i Hi acc s.
      assert (Hp : passes py_int batch_get_item (QueryUserGames.slice keys i)).
      { rewrite Forall_forall in Hpre. apply Hpre, list_elem_of_In.
        rewrite Hpre_eq. by apply in_map. }
      destruct Hp. by apply batch_body_ok.
    - fold wpre. apply batch_body_fails; by rewrite <- Hb. }
  unfold QueryUserGames.get_game_details. rewrite Hids. rewrite <- Hids.
  fold (game_keys game_ids). fold keys. unfold try_except. rewrite Hrun.
  unfold bind, QueryUserGames.on_tracker, modify, ret.
  eexists. split; [reflexivity|].
  cbn [QueryUserGames.resource_tracker QueryUserGames.bulk_reads set_error operations
       status error].
  rewrite <- (names_of_offsets (length pre + _)).
  destruct recorded; unfold batch_effect, batch_sent;
    cbn [QueryUserGames.resource_tracker QueryUserGames.bulk_reads append_operation operations];
    rewrite Hreads, <- Hb, <- Hpre_eq, <- app_assoc; (split; [reflexivity|]);
    (split; [|done]).
  - replace (length pre + 1)%nat with (S (length pre)) by lia.
    rewrite seq_S, !map_app. cbn [List.map Nat.add]. fold opre.
    rewrite app_assoc. f_equal.
    destruct (QueryUserGames.ConsumedCapacity _);
      [rewrite denote_operations|]; exact Hops.
  - rewrite Nat.add_0_r. exact Hops.
Qed.

(** C9 as stated fails: when the store refuses the bulk read,
    [get_game_details] on 150 ids sends the first batch only, records no
    operation name and returns the empty list. *)
Lemma C9_refused_bulk_read_ends_lookup :
  length (numbered_ids 150) = 150%nat /\
  exists w',
    QueryUserGames.get_game_details (fun _ => "slow down") plain_int throttling_store
      (numbered_ids 150) (QueryUserGames.World reset []) = (Ok [], w') /\
    List.map length (QueryUserGames.bulk_reads w') = [100]%nat /\
    operations (QueryUserGames.resource_tracker w') = [] /\
    status (QueryUserGames.resource_tracker w') = "failed".
Proof. split; [reflexivity|]. eexists. split; [vm_compute; reflexivity|]. by vm_compute. Qed.

(** C9, as the script has it.  [get_game_details] on N ids cuts the keys,
    in the order of the ids, into ceil(N/100) batches of 1 to 100 keys that
    put end to end are the keys, 100 and 50 keys for 150 ids, and the
    names [get_game_details_batch_0], [get_game_details_batch_1], ... of
    the batches are distinct.  When the pass over every batch goes through,
    it sends one bulk read per batch, in order, records one name per batch
    and returns the results of the batches, one per item the store
    returned, in batch order.  When the pass over a batch fails, the
    passes before it having gone through, it stops there: the batches
    after it are not sent, the names of the batches before it are recorded,
    and the name of the failing batch as well if the failure came after its
    consumption was recorded; it returns the empty list and the tracker is
    failed with the text of the exception. *)
Theorem C9_bulk_lookup_batches
    (py_str : exn -> string) (py_int : string -> option Z)
    (batch_get_item : list (string * string) -> QueryUserGames.batch_reply)
    (game_ids : list string) (w : QueryUserGames.world) :
  (length (batches (game_keys game_ids)) = ((length game_ids + 99) / 100)%nat /\
   concat (batches (game_keys game_ids)) = game_keys game_ids /\
   Forall (fun b => (0 < length b <= 100)%nat) (batches (game_keys game_ids)) /\
   NoDup (List.map batch_name (seq 0 (length (batches (game_keys game_ids))))) /\
   (length game_ids = 150%nat ->
    List.map length (batches (game_keys game_ids)) = [100; 50]%nat)) /\
  (Forall (passes py_int batch_get_item) (batches (game_keys game_ids)) ->
   exists w',
     QueryUserGames.get_game_details py_str py_int batch_get_item game_ids w =
       (Ok (concat (List.map (batch_details py_int batch_get_item)
                      (batches (game_keys game_ids)))), w') /\
     QueryUserGames.bulk_reads w' =
       (QueryUserGames.bulk_reads w ++ batches (game_keys game_ids))%list /\
     operations (QueryUserGames.resource_tracker w') =
       (operations (QueryUserGames.resource_tracker w)
        ++ List.map batch_name (seq 0 (length (batches (game_keys game_ids)))))%list) /\
  (forall pre b post e recorded,
     batches (game_keys game_ids) = (pre ++ b :: post)%list ->
     Forall (passes py_int batch_get_item) pre ->
     reports_well batch_get_item b = true ->
     batch_failure py_int batch_get_item b = Some (e, recorded) ->
     exists w',
       QueryUserGames.get_game_details py_str py_int batch_get_item game_ids w = (Ok [], w') /\
       QueryUserGames.bulk_reads w' = (QueryUserGames.bulk_reads w ++ pre ++ [b])%list /\
       operations (QueryUserGames.resource_tracker w') =
         (operations (QueryUserGames.resource_tracker w)
          ++ List.map batch_name (seq 0 (length pre + (if recorded then 1 else 0))))%list /\
       status (QueryUserGames.resource_tracker w') = "failed" /\
       error (QueryUserGames.resource_tracker w') = Some (py_str e)).
Proof.
  split; [apply batches_facts|]. split.
  - intros Hall. eexists. split; [by apply lookup_all_pass|].
    destruct (batch_effect_fold batch_get_item (game_keys game_ids)
                (QueryUserGames.py_range (length (game_keys game_ids)) 100) w) as [-> ->].
    split; [reflexivity|]. f_equal.
    unfold batches. rewrite py_range_100, !length_map, length_seq. apply names_of_offsets.
  - intros pre b post e recorded. apply lookup_fails.
Qed.

Lemma C9_bulk_lookup_batches_witness :
  Forall (passes plain_int game_store) (batches (game_keys (numbered_ids 150))) /\
  (exists w',
     QueryUserGames.get_game_details (fun _ => "boom") plain_int game_store
       (numbered_ids 150) (QueryUserGames.World reset []) =
       (Ok [QueryUserGames.GameDetail (Some "0") (Some "Open Ocean") (Some 3) (Some 500) None;
            QueryUserGames.GameDetail (Some "100") (Some "Open Ocean") (Some 3) (Some 500) None],
        w') /\
     operations (QueryUserGames.resource_tracker w') =
       ["get_game_details_batch_0"; "get_game_details_batch_1"] /\
     List.map length (QueryUserGames.bulk_reads w') = [100; 50]%nat) /\
  batch_failure plain_int fractional_store
    (QueryUserGames.slice (game_keys (numbered_ids 150)) 100) = Some (ValueError "4.5", true) /\
  (exists w',
     QueryUserGames.get_game_details (fun _ => "boom") plain_int fractional_store
       (numbered_ids 150) (QueryUserGames.World reset []) = (Ok [], w') /\
     operations (QueryUserGames.resource_tracker w') =
       ["get_game_details_batch_0"; "get_game_details_batch_1"] /\
     List.map length (QueryUserGames.bulk_reads w') = [100; 50]%nat /\
     status (QueryUserGames.resource_tracker w') = "failed" /\
     error (QueryUserGames.resource_tracker w') = Some "boom").
Proof.
  assert (Hall : Forall (passes plain_int game_store) (batches (game_keys (numbered_ids 150)))).
  { apply Forall_forall. intros b _. split; [reflexivity|].
    destruct b as [|key b]; reflexivity. }
  assert (Hpre : Forall (passes plain_int fractional_store)
                   [QueryUserGames.slice (game_keys (numbered_ids 150)) 0]).
  { repeat constructor; vm_compute; reflexivity. }
  assert (Hfail : batch_failure plain_int fractional_store
                    (QueryUserGames.slice (game_keys (numbered_ids 150)) 100)
                  = Some (ValueError "4.5", true)) by (vm_compute; reflexivity).
  split; [exact Hall|]. split; [|split; [exact Hfail|]].
  - destruct (proj1 (proj2 (C9_bulk_lookup_batches (fun _ => "boom") plain_int game_store
                              (numbered_ids 150) (QueryUserGames.World reset []))) Hall)
      as (w' & Hrun & Hreads & Hops).
    exists w'. split; [|split].
    + rewrite Hrun. vm_compute. reflexivity.
    + rewrite Hops. vm_compute. reflexivity.
    + rewrite Hreads. vm_compute. reflexivity.
  - destruct (proj2 (proj2 (C9_bulk_lookup_batches (fun _ => "boom") plain_int fractional_store
                              (numbered_ids 150) (QueryUserGames.World reset [])))
                [QueryUserGames.slice (game_keys (numbered_ids 150)) 0]
                (QueryUserGames.slice (game_keys (numbered_ids 150)) 100) []
                (ValueError "4.5") true)
      as (w' & Hrun & Hreads & Hops & Hst & Herr).
    + vm_compute. reflexivity.
    + exact Hpre.
    + vm_compute. reflexivity.
    + exact Hfail.
    + exists w'. split; [exact Hrun|]. split; [rewrite Hops; vm_compute; reflexivity|].
      split; [rewrite Hreads; vm_compute; reflexivity|]. split; [exact Hst|exact Herr].
Defined.

(** * Further properties of the two scripts *)

(** ** The ledger *)

Lemma keeps_ret' {X A} (f : tracker -> X) (a : A) : keeps f (ret a).
Proof. intros t r t' [= <- <-]. reflexivity. Qed.

Lemma keeps_lift_res' {X A} (f : tracker -> X) (x : res A) : keeps f (lift_res x).
Proof. intros t r t' [= <- <-]. reflexivity. Qed.

Lemma keeps_modify' {X} (f : tracker -> X) (g : tracker -> tracker) :
  (forall t, f (g t) = f t) -> keeps f (modify g).
Proof. intros Hg t r t' [= <- <-]. apply Hg. Qed.

Lemma keeps_bind' {X A B} (f : tracker -> X) (m : M tracker A) (k : A -> M tracker B) :
  keeps f m -> (forall a, keeps f (k a)) -> keeps f (bind m k).
Proof.
  intros Hm Hk t r t'. unfold bind.
  destruct (m t) as [[a|e] t1] eqn:E; intros H.
  - rewrite (Hk _ _ _ _ H). eapply Hm, E.
  - injection H as <- <-. eapply Hm, E.
Qed.

Lemma keeps_for_each' {X Y A} (f : tracker -> X) (body : A -> Y -> M tracker A)
    (l : list Y) (acc : A) :
  (forall a x, keeps f (body a x)) -> keeps f (for_each l body acc).
Proof.
  intros Hb. revert acc. induction l as [|x l IH]; intros acc; simpl.
  - apply keeps_ret'.
  - apply keeps_bind'; auto.
Qed.

Lemma keeps_iadd' {X} (f : tracker -> X) (upd : Z -> tracker -> tracker) (v : pyval) :
  (forall z t, f (upd z t) = f t) -> keeps f (iadd upd v).
Proof.
  intros Hu. unfold iadd. apply keeps_bind'; [apply keeps_lift_res'|intros z].
  apply keeps_bind'; [by apply keeps_modify'|intros _; apply keeps_ret'].
Qed.

Lemma join_add_consumption_keeps {X} (f : tracker -> X) (operation : string)
    (consumed_capacity : pyval) :
  (forall t z, f (add_total_rcu z t) = f t) -> (forall t z, f (add_total_wcu z t) = f t) ->
  (forall t g, f (upd_table g t) = f t) -> (forall t g, f (upd_gsi g t) = f t) ->
  (forall t, f (append_operation operation t) = f t) ->
  keeps f (JoinGame.add_consumption operation consumed_capacity).
Proof.
  intros H1 H2 H3 H4 H5.
  assert (Hitem : forall item, keeps f (JoinGame.fold_item operation item)).
  { intros item. unfold JoinGame.fold_item, JoinGame.table_part, JoinGame.gsi_part,
      JoinGame.total_direct, JoinGame.gsi_body, JoinGame.item_body.
    repeat first
      [ apply keeps_ret' | apply keeps_lift_res'
      | apply keeps_modify'; intros; rewrite ?H2, ?H1, ?H3, ?H4; reflexivity
      | apply keeps_iadd'; intros; rewrite ?H2, ?H1, ?H3, ?H4; reflexivity
      | apply keeps_for_each'; intros ? [? ?]
      | apply keeps_bind'; [|intros]
      | match goal with
        | |- keeps _ (if ?b then _ else _) => destruct b
        | |- keeps _ (match ?x with _ => _ end) => destruct x
        | |- keeps _ (let (_, _) := ?x in _) => destruct x
        end ]. }
  destruct consumed_capacity as [| | |d|l]; simpl; try by apply keeps_modify'.
  - apply keeps_bind'; [|intros; by apply keeps_modify'].
    unfold JoinGame.fold_single, JoinGame.table_part, JoinGame.gsi_part,
      JoinGame.total_direct, JoinGame.gsi_body.
    repeat first
      [ apply keeps_ret' | apply keeps_lift_res'
      | apply keeps_modify'; intros; rewrite ?H2, ?H1, ?H3, ?H4; reflexivity
      | apply keeps_iadd'; intros; rewrite ?H2, ?H1, ?H3, ?H4; reflexivity
      | apply keeps_for_each'; intros ? [? ?]
      | apply keeps_bind'; [|intros]
      | match goal with
        | |- keeps _ (if ?b then _ else _) => destruct b
        | |- keeps _ (match ?x with _ => _ end) => destruct x
        | |- keeps _ (let (_, _) := ?x in _) => destruct x
        end ].
  - apply keeps_bind'; [|intros; by apply keeps_modify'].
    apply keeps_for_each'. intros. apply Hitem.
Qed.

Lemma query_add_consumption_keeps {X} (f : tracker -> X) (operation : string)
    (consumed_capacity : pyval) :
  (forall t z, f (add_total_rcu z t) = f t) -> (forall t z, f (add_total_wcu z t) = f t) ->
  (forall t g, f (upd_table g t) = f t) -> (forall t g, f (upd_gsi g t) = f t) ->
  (forall t, f (append_operation operation t) = f t) ->
  keeps f (QueryUserGames.add_consumption operation consumed_capacity).
Proof.
  intros H1 H2 H3 H4 H5.
  assert (Hsingle : forall d, keeps f (QueryUserGames.fold_single operation d)).
  { intros d. unfold QueryUserGames.fold_single, QueryUserGames.table_part,
      QueryUserGames.gsi_part, QueryUserGames.total_direct, QueryUserGames.gsi_body.
    repeat first
      [ apply keeps_ret' | apply keeps_lift_res'
      | apply keeps_modify'; intros; rewrite ?H2, ?H1, ?H3, ?H4; reflexivity
      | apply keeps_iadd'; intros; rewrite ?H2, ?H1, ?H3, ?H4; reflexivity
      | apply keeps_for_each'; intros ? [? ?]
      | apply keeps_bind'; [|intros]
      | match goal with
        | |- keeps _ (if ?b then _ else _) => destruct b
        | |- keeps _ (match ?x with _ => _ end) => destruct x
        | |- keeps _ (let (_, _) := ?x in _) => destruct x
        end ]. }
  destruct consumed_capacity as [| | |d|l]; simpl; try by apply keeps_modify'.
  - apply keeps_bind'; [apply Hsingle|intros; by apply keeps_modify'].
  - apply keeps_bind'; [|intros; by apply keeps_modify'].
    apply keeps_for_each'. intros a [| | |d|]; try apply keeps_ret'. apply Hsingle.
Qed.

(** X1: whatever the report, ill-typed ones included, and whether the call
    returns or raises, [add_consumption] of either script leaves the status
    and the error message of the tracker as they were. *)
Theorem add_consumption_keeps_status_and_error
    (operation : string) (consumed_capacity : pyval) (t : tracker) :
  let tj := snd (JoinGame.add_consumption operation consumed_capacity t) in
  let tq := snd (QueryUserGames.add_consumption operation consumed_capacity t) in
  status tj = status t /\ error tj = error t /\
  status tq = status t /\ error tq = error t.
Proof.
  cbv zeta.
  destruct (JoinGame.add_consumption operation consumed_capacity t) as [rj tj] eqn:Ej.
  destruct (QueryUserGames.add_consumption operation consumed_capacity t) as [rq tq] eqn:Eq.
  cbn [snd]. repeat split.
  - by apply (join_add_consumption_keeps status _ _) in Ej.
  - by apply (join_add_consumption_keeps error _ _) in Ej.
  - by apply (query_add_consumption_keeps status _ _) in Eq.
  - by apply (query_add_consumption_keeps error _ _) in Eq.
Qed.

(** *** The ledger balances *)

Lemma gsi_sum_insert (p : usage -> Z) (g : gmap string usage) (n : string) (v : usage) :
  p usage_zero = 0 ->
  map_fold (fun _ u acc => acc + p u) 0 (<[n := v]> g) =
  map_fold (fun _ u acc => acc + p u) 0 g - p (default usage_zero (g !! n)) + p v.
Proof.
  intros Hz.
  assert (Hc : forall (m : gmap string usage) (j1 j2 : string) (z1 z2 : usage) (y : Z),
             j1 <> j2 -> m !! j1 = Some z1 -> m !! j2 = Some z2 ->
             y + p z2 + p z1 = y + p z1 + p z2) by (intros; lia).
  destruct (g !! n) as [u|] eqn:E; simpl.
  - rewrite <- insert_delete_eq.
    rewrite (map_fold_insert_L _ _ _ _ _ (Hc _)) by apply lookup_delete_eq.
    rewrite (map_fold_delete_L _ _ _ _ _ (Hc _) E). lia.
  - rewrite (map_fold_insert_L _ _ _ _ _ (Hc _) E). lia.
Qed.

Lemma gsi_step_sums (rd : bool) (g : gmap string usage) (entry : string * pyval) :
  gsi_rcu_sum (gsi_step rd g entry) =
    gsi_rcu_sum g + fst (entry_units rd (entry_of (snd entry))) /\
  gsi_wcu_sum (gsi_step rd g entry) =
    gsi_wcu_sum g + snd (entry_units rd (entry_of (snd entry))).
Proof.
  unfold gsi_step, gsi_rcu_sum, gsi_wcu_sum.
  destruct (entry_units rd (entry_of (snd entry))) as [r w]. cbn [fst snd].
  set (n := fst entry).
  assert (Ht : exists u, gsi_touch n g !! n = Some u /\
                         default usage_zero (g !! n) = u /\
                         gsi_rcu_sum (gsi_touch n g) = gsi_rcu_sum g /\
                         gsi_wcu_sum (gsi_touch n g) = gsi_wcu_sum g).
  { unfold gsi_touch, gsi_rcu_sum, gsi_wcu_sum. destruct (g !! n) as [u|] eqn:E.
    - exists u. by rewrite E.
    - exists usage_zero. rewrite lookup_insert_eq.
      rewrite !gsi_sum_insert by reflexivity. rewrite E. simpl. repeat split; lia. }
  destruct Ht as (u & Hu & _ & Hr & Hw). unfold gsi_rcu_sum, gsi_wcu_sum in Hr, Hw.
  unfold gsi_add at 2 4. rewrite Hu. unfold gsi_add. rewrite !lookup_insert_eq.
  rewrite !gsi_sum_insert by reflexivity. rewrite !lookup_insert_eq, Hu. simpl.
  rewrite Hr, Hw. destruct u. simpl. lia.
Qed.

Lemma gsi_fold_sums (rd : bool) (l : list (string * pyval)) (g : gmap string usage)
    (acc : Z * Z) :
  gsi_rcu_sum (fold_left (gsi_step rd) l g) - gsi_rcu_sum g =
    fst (fold_left (sum_step rd) l acc) - fst acc /\
  gsi_wcu_sum (fold_left (gsi_step rd) l g) - gsi_wcu_sum g =
    snd (fold_left (sum_step rd) l acc) - snd acc.
Proof.
  revert g acc. induction l as [|entry l IH]; intros g acc; simpl; [lia|].
  destruct (IH (gsi_step rd g entry) (sum_step rd acc entry)) as [IHr IHw].
  destruct (gsi_step_sums rd g entry) as [Hr Hw]. unfold sum_step in *. simpl in *. lia.
Qed.

Lemma folded_balanced (rd : bool) (d : list (string * pyval)) (t : tracker) :
  dict_mem "CapacityUnits" d = false ->
  balanced t -> balanced (folded rd d (total_units rd d) t).
Proof.
  intros Hd [Hr Hw]. unfold balanced, folded, total_units. rewrite Hd. simpl.
  destruct (gsi_fold_sums rd (gsi_entries d) (gsi_consumption t) (0, 0)) as [Gr Gw].
  simpl in *. lia.
Qed.

Lemma denote_balanced (rd : bool) (consumed_capacity : pyval) (t : tracker) :
  no_direct_total consumed_capacity = true ->
  balanced t -> balanced (denote rd (total_units rd) consumed_capacity t).
Proof.
  destruct consumed_capacity as [| | |d|l]; simpl; try done.
  - intros Hd. apply folded_balanced. by apply negb_true_iff.
  - revert t. induction l as [|item l IH]; intros t Hl Hb; simpl in *; [done|].
    apply andb_true_iff in Hl as [Hi Hl]. apply IH; [done|].
    destruct item; try done. apply folded_balanced; [|done]. by apply negb_true_iff.
Qed.

Lemma append_operation_balanced (operation : string) (t : tracker) :
  balanced t -> balanced (append_operation operation t).
Proof. done. Qed.

(** X2: when no report carries a top-level total, the ledger balances: if
    the overall totals equal the base-table figures plus the figures summed
    over all indexes before a well-typed report is recorded, they do so
    after, in [query_user_games.py] for every report and in
    [join_game_with_opengamesindex.py] for every report that is not a list;
    so in [query_user_games.py] they do after any sequence of such reports
    recorded on a fresh tracker. *)
Theorem ledger_balances_without_direct_totals :
  (forall operation consumed_capacity t,
      wf_report consumed_capacity = true -> no_direct_total consumed_capacity = true ->
      balanced t ->
      balanced (snd (QueryUserGames.add_consumption operation consumed_capacity t))) /\
  (forall operation consumed_capacity t,
      wf_report consumed_capacity = true -> no_direct_total consumed_capacity = true ->
      (forall l, consumed_capacity <> PList l) ->
      balanced t ->
      balanced (snd (JoinGame.add_consumption operation consumed_capacity t))) /\
  (forall calls : list (string * pyval),
      Forall (fun call => wf_report (snd call) = true /\
                          no_direct_total (snd call) = true) calls ->
      balanced (fold_left (fun t call =>
                  snd (QueryUserGames.add_consumption (fst call) (snd call) t))
                  calls reset)).
Proof.
  assert (Hq : forall operation consumed_capacity t,
      wf_report consumed_capacity = true -> no_direct_total consumed_capacity = true ->
      balanced t ->
      balanced (snd (QueryUserGames.add_consumption operation consumed_capacity t))).
  { intros operation cc t Hwf Hnd Hb. rewrite (query_add_consumption_ok _ _ _ Hwf).
    by apply append_operation_balanced, denote_balanced. }
  split; [exact Hq|split].
  - intros operation cc t Hwf Hnd Hl Hb. rewrite (join_add_consumption_ok _ _ _ Hwf).
    apply append_operation_balanced.
    destruct cc as [| | |d|l]; try done.
    + by apply (denote_balanced _ (PDict d)).
    + by destruct (Hl l).
  - intros calls Hcalls.
    assert (Hgen : forall t, balanced t ->
              balanced (fold_left (fun t call =>
                 snd (QueryUserGames.add_consumption (fst call) (snd call) t)) calls t)).
    { induction Hcalls as [|call calls [Hwf Hnd] _ IH]; intros t Hb; simpl; [done|].
      apply IH. by apply Hq. }
    apply Hgen. split; reflexivity.
Qed.

Lemma ledger_balances_without_direct_totals_witness :
  balanced (snd (QueryUserGames.add_consumption "join_game_transaction"
                   (PList [read_and_written]) reset)).
Proof.
  apply (proj1 ledger_balances_without_direct_totals "join_game_transaction"
           (PList [read_and_written]) reset); try reflexivity.
  split; reflexivity.
Defined.

(** ** The join *)

Lemma substring_all (s : string) : String.substring 0 (String.length s) s = s.
Proof. induction s as [|c s IH]; simpl; [done|]. by rewrite IH. Qed.

Lemma drop_game_tag (g : string) :
  String.prefix "GAME#" ("GAME#" +:+ g) = true /\
  String.substring 5 (String.length ("GAME#" +:+ g) - 5) ("GAME#" +:+ g) = g.
Proof.
  split.
  - simpl. by destruct g.
  - simpl. rewrite Nat.sub_0_r. apply substring_all.
Qed.

(** X3: the game id is read from the [game_id] attribute when it is a
    string, whatever [PK] holds; otherwise from a string [PK] that starts
    with [GAME#], the tag being cut off, so that the [PK] the scripts build
    for game [g] gives [g] back; otherwise there is none. *)
Theorem extract_game_id_rule (game_data : item) (g : string) :
  (game_data !! "game_id" = Some (AttrS g) ->
   JoinGame.extract_game_id game_data = Some g) /\
  ((forall s, game_data !! "game_id" <> Some (AttrS s)) ->
   game_data !! "PK" = Some (AttrS ("GAME#" +:+ g)) ->
   JoinGame.extract_game_id game_data = Some g) /\
  ((forall s, game_data !! "game_id" <> Some (AttrS s)) ->
   (forall pk, game_data !! "PK" = Some (AttrS pk) -> String.prefix "GAME#" pk = false) ->
   JoinGame.extract_game_id game_data = None).
Proof.
  unfold JoinGame.extract_game_id. split; [|split].
  - by intros ->.
  - intros Hno Hpk. destruct (drop_game_tag g) as [Hp Hs].
    destruct (game_data !! "game_id") as [[s|n]|] eqn:E.
    + by destruct (Hno s).
    + by rewrite Hpk, Hp, Hs.
    + by rewrite Hpk, Hp, Hs.
  - intros Hno Hpk.
    destruct (game_data !! "game_id") as [[s|n]|] eqn:E; [by destruct (Hno s)| |];
      destruct (game_data !! "PK") as [[pk|?]|] eqn:E'; try done;
      by rewrite (Hpk pk eq_refl).
Qed.

Lemma extract_game_id_rule_witness :
  JoinGame.extract_game_id
    {[ "PK" := AttrS ("GAME#" +:+ "G1"); "game_id" := AttrN 7 ]} = Some "G1".
Proof.
  apply (proj1 (proj2 (extract_game_id_rule
           {[ "PK" := AttrS ("GAME#" +:+ "G1"); "game_id" := AttrN 7 ]} "G1"))).
  - intros s. vm_compute. discriminate.
  - reflexivity.
Defined.

(** What [join_game_for_user] does, case by case. *)
Lemma join_run_no_id (py_str : exn -> string) (game_data : item) (username : string)
    (r : JoinGame.reply) (w : JoinGame.world) :
  JoinGame.extract_game_id game_data = None \/
  JoinGame.extract_game_id game_data = Some "" ->
  JoinGame.join_game_for_user py_str game_data username r w =
    (Ok false,
     JoinGame.World (set_error "Could not determine game ID" (JoinGame.resource_tracker w))
       (JoinGame.db w)).
Proof.
  unfold JoinGame.join_game_for_user, try_except. by intros [-> | ->].
Qed.

Lemma join_run_rejected (py_str : exn -> string) (game_data : item) (username : string)
    (r : JoinGame.reply) (w : JoinGame.world) (game_id : string) (e : exn) :
  JoinGame.extract_game_id game_data = Some game_id -> game_id <> "" ->
  JoinGame.fault r = Some e \/
  (JoinGame.fault r = None /\
   transact_write_items (JoinGame.join_statements game_id username) (JoinGame.db w)
     = Raise e) ->
  JoinGame.join_game_for_user py_str game_data username r w =
    (Ok false,
     JoinGame.World
       (set_error ("Transaction error: " +:+ py_str e) (JoinGame.resource_tracker w))
       (JoinGame.db w)).
Proof.
  intros Hx Hg Hr. apply String.eqb_neq in Hg.
  unfold JoinGame.join_game_for_user, try_except, bind, JoinGame.transact.
  rewrite Hx, Hg. destruct Hr as [-> | [-> ->]]; reflexivity.
Qed.

Lemma join_run_applied (py_str : exn -> string) (game_data : item) (username : string)
    (r : JoinGame.reply) (w : JoinGame.world) (game_id : string) (tb' : table) :
  JoinGame.extract_game_id game_data = Some game_id -> game_id <> "" ->
  JoinGame.fault r = None ->
  transact_write_items (JoinGame.join_statements game_id username) (JoinGame.db w)
    = Ok tb' ->
  JoinGame.join_game_for_user py_str game_data username r w =
    match JoinGame.ConsumedCapacity r with
    | Some consumed_capacity =>
        match JoinGame.add_consumption "join_game_transaction" consumed_capacity
                (JoinGame.resource_tracker w) with
        | (Ok _, t') => (Ok true, JoinGame.World t' tb')
        | (Raise e, t') =>
            (Ok false,
             JoinGame.World (set_error ("Transaction error: " +:+ py_str e) t') tb')
        end
    | None =>
        (Ok true,
         JoinGame.World (append_operation "join_game_transaction"
                           (JoinGame.resource_tracker w)) tb')
    end.
Proof.
  intros Hx Hg Hf Ht. apply String.eqb_neq in Hg.
  unfold JoinGame.join_game_for_user, try_except, bind, JoinGame.transact.
  rewrite Hx, Hg, Hf, Ht.
  destruct (JoinGame.ConsumedCapacity r) as [cc|]; [|reflexivity].
  unfold JoinGame.on_tracker. cbn [JoinGame.resource_tracker JoinGame.db].
  by destruct (JoinGame.add_consumption _ cc _) as [[[]|e] t'].
Qed.

Lemma transact_join_applies (game_id username : string) (tb : table) (it : item) (n : Z) :
  tb !! membership_key game_id username = None ->
  tb !! game_key game_id = Some it -> it !! "people" = Some (AttrN n) -> n <= 499 ->
  transact_write_items (JoinGame.join_statements game_id username) tb =
    Ok (<[game_key game_id := <["people" := AttrN (n + 1)]> it]>
          (<[membership_key game_id username := membership_item game_id username]> tb)).
Proof.
  intros Hm Hk Hp Hn.
  destruct (transact_join_spec game_id username tb)
    as [(it' & n' & _ & Hk' & Hp' & _ & Hok)|[[[row Hrow]|Hfull] _]].
  - rewrite Hk in Hk'. injection Hk' as <-. rewrite Hp in Hp'. by injection Hp' as <-.
  - congruence.
  - specialize (Hfull n). unfold people_at in Hfull. rewrite Hk, Hp in Hfull.
    specialize (Hfull eq_refl). unfold JoinGame.MAX_PLAYERS in Hfull. lia.
Qed.

(** X4: [join_game_for_user] returns [True] exactly when a non-empty game
    id can be read from the candidate, the call has no fault of its own,
    no membership row is stored for the pair, the game has a stored count
    of at most 499, and recording the report does not raise; then the row
    of the pair is stored, the count is one higher, every other item of the
    table is as it was, the operation is in the history, and status and
    error are as they were. *)
Theorem join_succeeds_exactly_when (py_str : exn -> string) (game_data : item)
    (username : string) (r : JoinGame.reply) (w : JoinGame.world) :
  let out := JoinGame.join_game_for_user py_str game_data username r w in
  let admitted game_id it n :=
    JoinGame.extract_game_id game_data = Some game_id /\ game_id <> "" /\
    JoinGame.fault r = None /\
    JoinGame.db w !! membership_key game_id username = None /\
    JoinGame.db w !! game_key game_id = Some it /\
    it !! "people" = Some (AttrN n) /\ n <= 499 /\
    match JoinGame.ConsumedCapacity r with
    | Some consumed_capacity =>
        fst (JoinGame.add_consumption "join_game_transaction" consumed_capacity
               (JoinGame.resource_tracker w)) = Ok tt
    | None => True
    end in
  (fst out = Ok true <-> exists game_id it n, admitted game_id it n) /\
  (forall game_id it n,
      admitted game_id it n ->
      JoinGame.db (snd out) =
        <[game_key game_id := <["people" := AttrN (n + 1)]> it]>
          (<[membership_key game_id username := membership_item game_id username]>
             (JoinGame.db w)) /\
      people_at (JoinGame.db (snd out)) (game_key game_id) = Some (n + 1) /\
      operations (JoinGame.resource_tracker (snd out)) =
        (operations (JoinGame.resource_tracker w) ++ ["join_game_transaction"])%list /\
      status (JoinGame.resource_tracker (snd out)) = status (JoinGame.resource_tracker w) /\
      error (JoinGame.resource_tracker (snd out)) = error (JoinGame.resource_tracker w)).
Proof.
  cbv zeta.
  assert (Hrun : forall game_id it n,
    JoinGame.extract_game_id game_data = Some game_id -> game_id <> "" ->
    JoinGame.fault r = None ->
    JoinGame.db w !! membership_key game_id username = None ->
    JoinGame.db w !! game_key game_id = Some it ->
    it !! "people" = Some (AttrN n) -> n <= 499 ->
    JoinGame.join_game_for_user py_str game_data username r w =
      match JoinGame.ConsumedCapacity r with
      | Some consumed_capacity =>
          match JoinGame.add_consumption "join_game_transaction" consumed_capacity
                  (JoinGame.resource_tracker w) with
          | (Ok _, t') => (Ok true, JoinGame.World t'
              (<[game_key game_id := <["people" := AttrN (n + 1)]> it]>
                 (<[membership_key game_id username := membership_item game_id username]>
                    (JoinGame.db w))))
          | (Raise e, t') =>
              (Ok false,
               JoinGame.World (set_error ("Transaction error: " +:+ py_str e) t')
                 (<[game_key game_id := <["people" := AttrN (n + 1)]> it]>
                    (<[membership_key game_id username := membership_item game_id username]>
                       (JoinGame.db w))))
          end
      | None =>
          (Ok true,
           JoinGame.World (append_operation "join_game_transaction"
                             (JoinGame.resource_tracker w))
             (<[game_key game_id := <["people" := AttrN (n + 1)]> it]>
                (<[membership_key game_id username := membership_item game_id username]>
                   (JoinGame.db w))))
      end).
  { intros g it n Hx Hg Hf Hm Hk Hp Hn.
    apply (join_run_applied py_str _ _ _ _ g); auto.
    by apply transact_join_applies. }
  split; [split|].
  - intros Hok.
    destruct (join_table py_str game_data username r w)
      as [[Hne _]|(g & it & n & Hx & Hm & Hk & Hp & Hn & _)]; [done|].
    destruct (join_outcome py_str game_data username r w)
      as [(Hf & _)|(g' & Hx' & Hg & Hfault & _)]; [congruence|].
    rewrite Hx in Hx'. injection Hx' as <-.
    unfold JoinGame.MAX_PLAYERS in Hn.
    exists g, it, n. do 6 (split; [done|]). split; [lia|].
    rewrite (Hrun g it n) in Hok by (auto; lia).
    destruct (JoinGame.ConsumedCapacity r) as [cc|]; [|done].
    by destruct (JoinGame.add_consumption _ cc _) as [[[]|e] t'].
  - intros (g & it & n & Hx & Hg & Hf & Hm & Hk & Hp & Hn & Hrec).
    rewrite (Hrun g it n) by auto.
    destruct (JoinGame.ConsumedCapacity r) as [cc|]; [|done].
    by destruct (JoinGame.add_consumption _ cc _) as [[[]|e] t'].
  - intros g it n (Hx & Hg & Hf & Hm & Hk & Hp & Hn & Hrec).
    rewrite (Hrun g it n) by auto.
    assert (Hpeople : people_at
              (<[game_key g := <["people" := AttrN (n + 1)]> it]>
                 (<[membership_key g username := membership_item g username]>
                    (JoinGame.db w))) (game_key g) = Some (n + 1)).
    { rewrite (people_at_joined _ _ _ _ _ _ Hm Hk Hp). by rewrite decide_True. }
    destruct (JoinGame.ConsumedCapacity r) as [cc|]; [|done].
    pose proof (add_consumption_keeps_status_and_error "join_game_transaction" cc
                  (JoinGame.resource_tracker w)) as (Hs & He & _).
    destruct (JoinGame.add_consumption _ cc _) as [[[]|e] t'] eqn:Ea; [|done].
    cbn [fst snd JoinGame.db JoinGame.resource_tracker] in *.
    repeat split; auto. by apply join_returns_appended in Ea.
Qed.

Lemma join_succeeds_exactly_when_witness :
  let w := JoinGame.World reset {[ game_key "G1" := {[ "people" := AttrN 0 ]} ]} in
  let out := JoinGame.join_game_for_user (fun _ => "boom") {[ "game_id" := AttrS "G1" ]}
               "alice" (JoinGame.Reply None None) w in
  fst out = Ok true /\
  people_at (JoinGame.db (snd out)) (game_key "G1") = Some 1 /\
  JoinGame.db (snd out) !! membership_key "G1" "alice" = Some (membership_item "G1" "alice").
Proof.
  intros w out.
  assert (Hadm : JoinGame.extract_game_id {[ "game_id" := AttrS "G1" ]} = Some "G1" /\
                 "G1" <> "" /\ JoinGame.fault (JoinGame.Reply None None) = None /\
                 JoinGame.db w !! membership_key "G1" "alice" = None /\
                 JoinGame.db w !! game_key "G1" = Some {[ "people" := AttrN 0 ]} /\
                 ({[ "people" := AttrN 0 ]} : item) !! "people" = Some (AttrN 0) /\
                 0 <= 499 /\ True).
  { repeat split; try reflexivity; try discriminate. }
  pose proof (join_succeeds_exactly_when (fun _ => "boom") {[ "game_id" := AttrS "G1" ]}
                "alice" (JoinGame.Reply None None) w) as [Hiff Heff].
  split; [apply Hiff; eauto 10|].
  destruct (Heff "G1" {[ "people" := AttrN 0 ]} 0 Hadm) as (Hdb & Hp & _).
  split; [exact Hp|]. subst out. rewrite Hdb.
  rewrite lookup_insert_ne by (intros E; symmetry in E; by apply membership_not_game_key in E).
  apply lookup_insert_eq.
Defined.

(** X5: when the game id cannot be read, the call has a fault of its own,
    the membership row is already stored, or the game has no stored count
    of at most 499, [join_game_for_user] returns [False], leaves the table
    as it was and records nothing: the tracker differs from what it was by
    its status, set to failed, and its error message only; no operation
    name is appended and no unit is added. *)
Theorem rejected_join_records_nothing (py_str : exn -> string) (game_data : item)
    (username : string) (r : JoinGame.reply) (w : JoinGame.world) :
  (JoinGame.extract_game_id game_data = None \/
   JoinGame.extract_game_id game_data = Some "" \/
   is_Some (JoinGame.fault r) \/
   exists game_id,
     JoinGame.extract_game_id game_data = Some game_id /\
     (is_Some (JoinGame.db w !! membership_key game_id username) \/
      forall n, people_at (JoinGame.db w) (game_key game_id) = Some n -> 499 < n)) ->
  exists msg,
    JoinGame.join_game_for_user py_str game_data username r w =
      (Ok false, JoinGame.World (set_error msg (JoinGame.resource_tracker w)) (JoinGame.db w)).
Proof.
  intros Hcase.
  destruct (JoinGame.extract_game_id game_data) as [g|] eqn:Hx.
  2:{ eexists. apply join_run_no_id. by left. }
  destruct (decide (g = "")) as [->|Hg].
  { eexists. apply join_run_no_id. by right. }
  destruct (JoinGame.fault r) as [e|] eqn:Hf.
  { eexists. apply (join_run_rejected py_str _ _ _ _ g e); [done|done|]. by left. }
  destruct Hcase as [H|[H|[[e H]|(g' & Hx' & Hcond)]]]; try congruence.
  injection Hx' as <-.
  destruct (transact_join_spec g username (JoinGame.db w))
    as [(it & n & Hm & Hk & Hp & Hn & _)|[_ Hr]].
  - destruct Hcond as [[row Hrow]|Hfull]; [congruence|].
    specialize (Hfull n). unfold people_at in Hfull. rewrite Hk, Hp in Hfull.
    specialize (Hfull eq_refl). unfold JoinGame.MAX_PLAYERS in Hn. lia.
  - eexists. apply (join_run_rejected py_str _ _ _ _ g); [done|done|]. right. eauto.
Qed.

Lemma rejected_join_records_nothing_witness :
  exists msg,
    JoinGame.join_game_for_user (fun _ => "boom") {[ "game_id" := AttrS "G1" ]} "alice"
      (JoinGame.Reply None (Some (PDict [("CapacityUnits", PNum 4)])))
      (JoinGame.World reset ∅) =
    (Ok false, JoinGame.World (set_error msg reset) ∅).
Proof.
  apply (rejected_join_records_nothing (fun _ => "boom") {[ "game_id" := AttrS "G1" ]}
           "alice" (JoinGame.Reply None (Some (PDict [("CapacityUnits", PNum 4)])))
           (JoinGame.World reset ∅)).
  right. right. right. exists "G1". split; [reflexivity|]. right.
  intros n. vm_compute. discriminate.
Defined.

(** X6: when the transaction applies and recording its report raises,
    [join_game_for_user] returns [False] and sets the tracker to failed,
    although the membership row is stored and the count is one higher. *)
Theorem applied_join_reported_failed (py_str : exn -> string) (game_data : item)
    (username : string) (r : JoinGame.reply) (w : JoinGame.world)
    (game_id : string) (it : item) (n : Z) (consumed_capacity : pyval)
    (e : exn) (t' : tracker) :
  JoinGame.extract_game_id game_data = Some game_id -> game_id <> "" ->
  JoinGame.fault r = None ->
  JoinGame.db w !! membership_key game_id username = None ->
  JoinGame.db w !! game_key game_id = Some it ->
  it !! "people" = Some (AttrN n) -> n <= 499 ->
  JoinGame.ConsumedCapacity r = Some consumed_capacity ->
  JoinGame.add_consumption "join_game_transaction" consumed_capacity
    (JoinGame.resource_tracker w) = (Raise e, t') ->
  let out := JoinGame.join_game_for_user py_str game_data username r w in
  fst out = Ok false /\
  status (JoinGame.resource_tracker (snd out)) = "failed" /\
  error (JoinGame.resource_tracker (snd out)) = Some ("Transaction error: " +:+ py_str e) /\
  JoinGame.db (snd out) !! membership_key game_id username
    = Some (membership_item game_id username) /\
  people_at (JoinGame.db (snd out)) (game_key game_id) = Some (n + 1).
Proof.
  intros Hx Hg Hf Hm Hk Hp Hn Hcc Hadd. cbv zeta.
  rewrite (join_run_applied py_str _ _ _ _ game_id _ Hx Hg Hf
             (transact_join_applies _ _ _ _ _ Hm Hk Hp Hn)).
  rewrite Hcc, Hadd. cbn [fst snd JoinGame.db JoinGame.resource_tracker].
  repeat split.
  - rewrite lookup_insert_ne
      by (intros E; symmetry in E; by apply membership_not_game_key in E).
    apply lookup_insert_eq.
  - rewrite (people_at_joined _ _ _ _ _ _ Hm Hk Hp). by rewrite decide_True.
Qed.

Lemma applied_join_reported_failed_witness :
  let out := JoinGame.join_game_for_user (fun _ => "boom") {[ "game_id" := AttrS "G1" ]}
               "alice" (JoinGame.Reply None (Some (PDict [("Table", PNone)])))
               (JoinGame.World reset {[ game_key "G1" := {[ "people" := AttrN 0 ]} ]}) in
  fst out = Ok false /\
  status (JoinGame.resource_tracker (snd out)) = "failed" /\
  error (JoinGame.resource_tracker (snd out)) = Some ("Transaction error: " +:+ "boom") /\
  JoinGame.db (snd out) !! membership_key "G1" "alice"
    = Some (membership_item "G1" "alice") /\
  people_at (JoinGame.db (snd out)) (game_key "G1") = Some (0 + 1).
Proof.
  apply (applied_join_reported_failed (fun _ => "boom") {[ "game_id" := AttrS "G1" ]}
           "alice" (JoinGame.Reply None (Some (PDict [("Table", PNone)])))
           (JoinGame.World reset {[ game_key "G1" := {[ "people" := AttrN 0 ]} ]})
           "G1" {[ "people" := AttrN 0 ]} 0 (PDict [("Table", PNone)])
           (AttributeError PNone "get") reset);
    try reflexivity; try discriminate.
Defined.

(** ** The map queries and [main] of the join script *)

Lemma open_games_run (py_str : exn -> string) (e : JoinGame.env) (m : string)
    (w : JoinGame.world) :
  JoinGame.get_open_games_by_map py_str e m w =
    match JoinGame.fault (JoinGame.q_reply (JoinGame.query e m)) with
    | Some err =>
        (Ok [], JoinGame.World (set_error (py_str err) (JoinGame.resource_tracker w))
                  (JoinGame.db w))
    | None =>
        match JoinGame.ConsumedCapacity (JoinGame.q_reply (JoinGame.query e m)) with
        | Some consumed_capacity =>
            match JoinGame.add_consumption (map_query_name m) consumed_capacity
                    (JoinGame.resource_tracker w) with
            | (Ok _, t') => (Ok (JoinGame.Items (JoinGame.query e m)),
                             JoinGame.World t' (JoinGame.db w))
            | (Raise err, t') =>
                (Ok [], JoinGame.World (set_error (py_str err) t') (JoinGame.db w))
            end
        | None =>
            (Ok (JoinGame.Items (JoinGame.query e m)),
             JoinGame.World (append_operation (map_query_name m)
                               (JoinGame.resource_tracker w)) (JoinGame.db w))
        end
    end.
Proof.
  unfold JoinGame.get_open_games_by_map, try_except, bind, raise, map_query_name.
  destruct (JoinGame.fault _) as [err|]; [reflexivity|].
  destruct (JoinGame.ConsumedCapacity _) as [cc|]; [|reflexivity].
  unfold JoinGame.on_tracker.
  by destruct (JoinGame.add_consumption _ cc _) as [[[]|err] t'].
Qed.

(** X7: [get_open_games_by_map] never raises and never touches the table;
    it returns the items of the answer or the empty list.  When the store
    answers, with no report or a well-typed one, it returns the items, be
    they none, appends the name of the query to the history and leaves
    status and error alone: an empty answer is no error.  When the query
    fails it returns the empty list and records nothing but the error.
    When recording the report raises, the items of the answer are dropped:
    the empty list is returned and the tracker is set to failed. *)
Theorem open_games_query_outcomes (py_str : exn -> string) (e : JoinGame.env)
    (m : string) (w : JoinGame.world) :
  let out := JoinGame.get_open_games_by_map py_str e m w in
  let rep := JoinGame.q_reply (JoinGame.query e m) in
  (exists games, fst out = Ok games /\
     (games = JoinGame.Items (JoinGame.query e m) \/ games = [])) /\
  JoinGame.db (snd out) = JoinGame.db w /\
  (JoinGame.fault rep = None ->
   match JoinGame.ConsumedCapacity rep with
   | Some consumed_capacity => wf_report consumed_capacity = true
   | None => True
   end ->
   fst out = Ok (JoinGame.Items (JoinGame.query e m)) /\
   operations (JoinGame.resource_tracker (snd out)) =
     (operations (JoinGame.resource_tracker w) ++ [map_query_name m])%list /\
   status (JoinGame.resource_tracker (snd out)) = status (JoinGame.resource_tracker w) /\
   error (JoinGame.resource_tracker (snd out)) = error (JoinGame.resource_tracker w)) /\
  (forall err, JoinGame.fault rep = Some err ->
   out = (Ok [], JoinGame.World (set_error (py_str err) (JoinGame.resource_tracker w))
                   (JoinGame.db w))) /\
  (forall consumed_capacity err t',
   JoinGame.fault rep = None ->
   JoinGame.ConsumedCapacity rep = Some consumed_capacity ->
   JoinGame.add_consumption (map_query_name m) consumed_capacity
     (JoinGame.resource_tracker w) = (Raise err, t') ->
   fst out = Ok [] /\ status (JoinGame.resource_tracker (snd out)) = "failed" /\
   error (JoinGame.resource_tracker (snd out)) = Some (py_str err)).
Proof.
  cbv zeta. rewrite open_games_run.
  split; [|split; [|split; [|split]]].
  - destruct (JoinGame.fault _); [eauto|].
    destruct (JoinGame.ConsumedCapacity _) as [cc|]; [|eauto].
    destruct (JoinGame.add_consumption _ cc _) as [[[]|err] t']; eauto.
  - destruct (JoinGame.fault _); [done|].
    destruct (JoinGame.ConsumedCapacity _) as [cc|]; [|done].
    by destruct (JoinGame.add_consumption _ cc _) as [[[]|err] t'].
  - intros -> Hwf. destruct (JoinGame.ConsumedCapacity _) as [cc|]; [|done].
    rewrite (join_add_consumption_ok _ _ _ Hwf). cbn [fst snd JoinGame.resource_tracker].
    split; [done|]. split.
    + simpl. by rewrite denote_operations.
    + pose proof (add_consumption_keeps_status_and_error (map_query_name m) cc
                    (JoinGame.resource_tracker w)) as (Hs & He & _).
      rewrite (join_add_consumption_ok _ _ _ Hwf) in Hs, He. done.
  - by intros err ->.
  - intros cc err t' -> -> ->. done.
Qed.

Lemma open_games_query_outcomes_witness :
  let out := JoinGame.get_open_games_by_map (fun _ => "boom") failing_first_query
               "Open Ocean" one_open_game in
  fst out = Ok [] /\
  operations (JoinGame.resource_tracker (snd out)) = ["query_open_games_map_Open Ocean"] /\
  status (JoinGame.resource_tracker (snd out)) = "success" /\
  error (JoinGame.resource_tracker (snd out)) = None.
Proof.
  apply (proj1 (proj2 (proj2 (open_games_query_outcomes (fun _ => "boom")
           failing_first_query "Open Ocean" one_open_game)))).
  - reflexivity.
  - exact I.
Defined.

Lemma open_games_answered (py_str : exn -> string) (e : JoinGame.env) (m : string)
    (w : JoinGame.world) :
  maps_answer e ->
  exists t',
    JoinGame.get_open_games_by_map py_str e m w =
      (Ok (JoinGame.Items (JoinGame.query e m)), JoinGame.World t' (JoinGame.db w)) /\
    operations t' = (operations (JoinGame.resource_tracker w) ++ [map_query_name m])%list.
Proof.
  intros Hans. destruct (Hans m) as [Hf Hc]. rewrite open_games_run, Hf.
  destruct (JoinGame.ConsumedCapacity _) as [cc|].
  - rewrite (join_add_consumption_ok _ _ _ Hc). eexists. split; [reflexivity|].
    simpl. by rewrite denote_operations.
  - eexists. split; reflexivity.
Qed.

Lemma try_other_maps_search (py_str : exn -> string) (e : JoinGame.env)
    (selected_map : string) (maps : list string) (w : JoinGame.world) :
  maps_answer e ->
  let others := List.filter (fun m => negb (String.eqb m selected_map)) maps in
  exists w',
    JoinGame.try_other_maps py_str e selected_map maps [] w =
      (Ok (snd (search e others)), w') /\
    JoinGame.db w' = JoinGame.db w /\
    operations (JoinGame.resource_tracker w') =
      (operations (JoinGame.resource_tracker w)
       ++ List.map map_query_name (fst (search e others)))%list.
Proof.
  intros Hans. cbv zeta. revert w. induction maps as [|m maps IH]; intros w; simpl.
  - exists w. by rewrite app_nil_r.
  - destruct (String.eqb m selected_map); simpl; [apply IH|].
    destruct (open_games_answered py_str e m w Hans) as (t' & Hrun & Hops).
    unfold bind. rewrite Hrun.
    destruct (JoinGame.Items (JoinGame.query e m)) as [|g gs] eqn:Ei.
    + destruct (IH (JoinGame.World t' (JoinGame.db w))) as (w' & Hrec & Hdb & Hops').
      exists w'. split; [exact Hrec|]. split; [exact Hdb|].
      rewrite Hops'. cbn [JoinGame.resource_tracker fst List.map].
      by rewrite Hops, <- app_assoc.
    + eexists. split; [reflexivity|]. split; [reflexivity|]. exact Hops.
Qed.

Lemma search_facts (e : JoinGame.env) (maps : list string) :
  (exists rest, maps = (fst (search e maps) ++ rest)%list) /\
  (snd (search e maps) = [] ->
   fst (search e maps) = maps /\
   Forall (fun m => JoinGame.Items (JoinGame.query e m) = []) maps) /\
  (snd (search e maps) <> [] ->
   exists before m,
     fst (search e maps) = (before ++ [m])%list /\
     snd (search e maps) = JoinGame.Items (JoinGame.query e m) /\
     Forall (fun m' => JoinGame.Items (JoinGame.query e m') = []) before).
Proof.
  induction maps as [|m maps (IH1 & IH2 & IH3)]; simpl.
  - split; [by exists []|]. split; [done|]. by intros [].
  - destruct (JoinGame.Items (JoinGame.query e m)) as [|g gs] eqn:Ei; simpl.
    + split; [|split].
      * destruct IH1 as [rest Hrest]. exists rest. by rewrite <- Hrest.
      * intros Hn. destruct (IH2 Hn) as [-> Hall]. split; [done|]. by constructor.
      * intros Hn. destruct (IH3 Hn) as (before & m' & -> & Hit & Hall).
        exists (m :: before), m'. repeat split; auto.
    + split; [by exists maps|]. split; [done|]. intros _.
      exists [], m. repeat split; auto.
Qed.

Lemma maps_nodup : NoDup JoinGame.MAPS.
Proof. apply (bool_decide_unpack _). vm_compute. reflexivity. Qed.

Lemma visit_order_permutation (x : string) (l : list string) :
  NoDup l -> In x l ->
  Permutation (x :: List.filter (fun m => negb (String.eqb m x)) l) l.
Proof.
  induction l as [|y l IH]; intros Hnd Hin; [by destruct Hin|].
  apply NoDup_cons in Hnd as [Hy Hnd]. simpl.
  destruct (String.eqb y x) eqn:E; simpl.
  - apply String.eqb_eq in E. subst y. constructor.
    clear IH Hin. induction l as [|z l IH]; simpl; [done|].
    destruct (String.eqb z x) eqn:Ez; simpl.
    + apply String.eqb_eq in Ez. subst z. exfalso. apply Hy. by left.
    + constructor. apply IH.
      * intros H. apply Hy. by right.
      * by apply NoDup_cons in Hnd as [_ ?].
  - destruct Hin as [->|Hin]; [by rewrite String.eqb_refl in E|].
    etransitivity; [apply perm_swap|]. constructor. by apply IH.
Qed.

(** The search of [main], over any list of maps and any first map. *)
Lemma search_from (py_str : exn -> string) (e : JoinGame.env) (sel : string)
    (maps : list string) (w : JoinGame.world) :
  maps_answer e ->
  exists w',
    bind (JoinGame.get_open_games_by_map py_str e sel)
      (fun open_games =>
         match open_games with
         | [] => JoinGame.try_other_maps py_str e sel maps open_games
         | _ :: _ => ret open_games
         end) w =
      (Ok (snd (search e (sel :: List.filter (fun m => negb (String.eqb m sel)) maps))), w') /\
    JoinGame.db w' = JoinGame.db w /\
    operations (JoinGame.resource_tracker w') =
      (operations (JoinGame.resource_tracker w)
       ++ List.map map_query_name
            (fst (search e (sel :: List.filter (fun m => negb (String.eqb m sel)) maps))))%list.
Proof.
  intros Hans. unfold bind.
  destruct (open_games_answered py_str e sel w Hans) as (t' & Hrun & Hops).
  rewrite Hrun. cbn [search].
  destruct (JoinGame.Items (JoinGame.query e sel)) as [|g gs] eqn:Ei; cbn [fst snd].
  - destruct (try_other_maps_search py_str e sel maps
                (JoinGame.World t' (JoinGame.db w)) Hans) as (w' & Hrec & Hdb & Hops').
    cbv zeta in Hrec, Hops'.
    exists w'. split; [exact Hrec|]. split; [exact Hdb|].
    rewrite Hops'. cbn [JoinGame.resource_tracker List.map].
    by rewrite Hops, <- app_assoc.
  - eexists. split; [reflexivity|]. split; [reflexivity|]. exact Hops.
Qed.

Lemma choice_in_maps (n : nat) : In (choice n JoinGame.MAPS "") JoinGame.MAPS.
Proof.
  unfold choice. apply nth_In. apply Nat.mod_upper_bound.
  change (length JoinGame.MAPS) with 50%nat. discriminate.
Qed.

(** X8: when the store answers every map query, [main] looks for games on
    the map drawn and then on the other maps in the order of [MAPS], each
    map once, and stops at the first map that has games: the games found
    are those of that map, the maps before it had none, the history gains
    the names of exactly the queries made, in that order, and the table is
    not touched.  When no map has games all the maps have been queried and
    the result is empty. *)
Theorem map_search_order (py_str : exn -> string) (e : JoinGame.env) (w : JoinGame.world) :
  maps_answer e ->
  let order := visit_order (choice (JoinGame.map_draw e) JoinGame.MAPS "") in
  let visited := fst (search e order) in
  let found := snd (search e order) in
  Permutation order JoinGame.MAPS /\
  (exists w',
      JoinGame.find_open_games py_str e w = (Ok found, w') /\
      JoinGame.db w' = JoinGame.db w /\
      operations (JoinGame.resource_tracker w') =
        (operations (JoinGame.resource_tracker w) ++ List.map map_query_name visited)%list) /\
  (exists rest, order = (visited ++ rest)%list) /\
  (found = [] ->
   visited = order /\ Forall (fun m => JoinGame.Items (JoinGame.query e m) = []) order) /\
  (found <> [] ->
   exists before m,
     visited = (before ++ [m])%list /\ found = JoinGame.Items (JoinGame.query e m) /\
     Forall (fun m' => JoinGame.Items (JoinGame.query e m') = []) before).
Proof.
  intros Hans. cbv zeta.
  pose proof (choice_in_maps (JoinGame.map_draw e)) as Hin.
  pose proof maps_nodup as Hnd.
  unfold JoinGame.find_open_games, visit_order.
  revert Hin. generalize (choice (JoinGame.map_draw e) JoinGame.MAPS "").
  revert Hnd. generalize JoinGame.MAPS. intros maps Hnd sel Hin.
  split; [|split; [|apply search_facts]].
  - by apply visit_order_permutation.
  - by apply search_from.
Qed.

Lemma quiet_maps_answer :
  maps_answer (JoinGame.Env 8 (fun _ => JoinGame.QueryReply (JoinGame.Reply None None) [])
                 0 "alice" (JoinGame.Reply None None)).
Proof. intros m. split; [reflexivity|exact I]. Qed.

Lemma map_search_order_witness :
  exists w',
    JoinGame.find_open_games (fun _ => "boom")
      (JoinGame.Env 8 (fun _ => JoinGame.QueryReply (JoinGame.Reply None None) [])
         0 "alice" (JoinGame.Reply None None)) one_open_game = (Ok [], w') /\
    length (operations (JoinGame.resource_tracker w')) = 50%nat /\
    head (operations (JoinGame.resource_tracker w')) = Some "query_open_games_map_Haunted Hills".
Proof.
  destruct (map_search_order (fun _ => "boom")
              (JoinGame.Env 8 (fun _ => JoinGame.QueryReply (JoinGame.Reply None None) [])
                 0 "alice" (JoinGame.Reply None None)) one_open_game quiet_maps_answer)
    as (_ & (w' & Hrun & _ & Hops) & _).
  exists w'. split; [exact Hrun|]. rewrite Hops. split; vm_compute; reflexivity.
Defined.

Lemma open_games_total (py_str : exn -> string) (e : JoinGame.env) (m : string)
    (w : JoinGame.world) :
  exists games w',
    JoinGame.get_open_games_by_map py_str e m w = (Ok games, w') /\
    JoinGame.db w' = JoinGame.db w /\
    (games = JoinGame.Items (JoinGame.query e m) \/ games = []).
Proof.
  destruct (open_games_query_outcomes py_str e m w) as ((games & Hg & Hor) & Hdb & _).
  destruct (JoinGame.get_open_games_by_map py_str e m w) as [r w'] eqn:E.
  simpl in *. subst r. by exists games, w'.
Qed.

Lemma try_other_maps_total (py_str : exn -> string) (e : JoinGame.env)
    (selected_map : string) (maps : list string) (open_games : list item)
    (w : JoinGame.world) :
  exists games w',
    JoinGame.try_other_maps py_str e selected_map maps open_games w = (Ok games, w') /\
    JoinGame.db w' = JoinGame.db w /\
    (games = open_games \/ games = [] \/
     exists m, In m maps /\ games = JoinGame.Items (JoinGame.query e m)).
Proof.
  revert open_games w. induction maps as [|m maps IH]; intros og w; simpl.
  - exists og, w. auto.
  - destruct (String.eqb m selected_map).
    + destruct (IH og w) as (games & w' & Hrun & Hdb & Hor).
      exists games, w'. split; [done|]. split; [done|].
      destruct Hor as [?|[?|(m' & ? & ?)]]; eauto 6.
    + destruct (open_games_total py_str e m w) as (g1 & w1 & Hrun & Hdb & Hor).
      unfold bind. rewrite Hrun. destruct g1 as [|g gs].
      * destruct (IH [] w1) as (games & w' & Hrec & Hdb' & Hor').
        exists games, w'. split; [done|]. split; [congruence|].
        destruct Hor' as [?|[?|(m' & ? & ?)]]; eauto 6.
      * exists (g :: gs), w1. split; [done|]. split; [done|].
        destruct Hor as [Hi|Hi]; [|discriminate]. right. right. exists m. auto.
Qed.

Lemma find_open_games_total (py_str : exn -> string) (e : JoinGame.env)
    (w : JoinGame.world) :
  exists games w',
    JoinGame.find_open_games py_str e w = (Ok games, w') /\
    JoinGame.db w' = JoinGame.db w /\
    (games = [] \/ exists m, In m JoinGame.MAPS /\ games = JoinGame.Items (JoinGame.query e m)).
Proof.
  unfold JoinGame.find_open_games, bind.
  pose proof (choice_in_maps (JoinGame.map_draw e)) as Hsel. revert Hsel.
  generalize (choice (JoinGame.map_draw e) JoinGame.MAPS ""). intros sel Hsel.
  destruct (open_games_total py_str e sel w) as (g1 & w1 & Hrun & Hdb & Hor).
  rewrite Hrun. destruct g1 as [|g gs].
  - destruct (try_other_maps_total py_str e sel JoinGame.MAPS [] w1)
      as (games & w' & Hrec & Hdb' & Hor').
    exists games, w'. split; [done|]. split; [congruence|].
    destruct Hor' as [?|[?|?]]; auto.
  - exists (g :: gs), w1. split; [done|]. split; [done|].
    destruct Hor as [Hi|Hi]; [|discriminate]. right. exists sel. auto.
Qed.

(** X9: when no map has an open game, whatever else the store answers,
    [main] emits one record with status failed, the error "No open games
    available", which replaces any error a failed query recorded, and
    "N/A" for the user; the table is as it was. *)
Theorem main_without_open_games (py_str : exn -> string) (e : JoinGame.env)
    (w : JoinGame.world) :
  (forall m, JoinGame.Items (JoinGame.query e m) = []) ->
  exists entry w',
    JoinGame.main py_str e w = (Ok entry, w') /\
    JoinGame.log_status entry = "failed" /\
    JoinGame.log_error entry = Some "No open games available" /\
    JoinGame.log_user_id entry = "N/A" /\
    JoinGame.db w' = JoinGame.db w.
Proof.
  intros Hnone.
  destruct (find_open_games_total py_str e (JoinGame.World reset (JoinGame.db w)))
    as (games & w1 & Hfind & Hdb & Hor).
  assert (Hg : games = []) by (destruct Hor as [?|(m & _ & ->)]; [done|apply Hnone]).
  subst games. unfold JoinGame.main, bind, try_except, modify. rewrite Hfind.
  do 2 eexists. split; [reflexivity|]. cbn. auto.
Qed.

Lemma main_without_open_games_witness :
  exists entry w',
    JoinGame.main (fun _ => "boom")
      (JoinGame.Env 8
         (fun _ => JoinGame.QueryReply
                     (JoinGame.Reply (Some (StoreError "InternalServerError" "try again")) None)
                     [])
         0 "alice" (JoinGame.Reply None None)) one_open_game = (Ok entry, w') /\
    JoinGame.log_status entry = "failed" /\
    JoinGame.log_error entry = Some "No open games available" /\
    JoinGame.log_user_id entry = "N/A" /\
    JoinGame.db w' = JoinGame.db one_open_game.
Proof.
  apply (main_without_open_games (fun _ => "boom")
           (JoinGame.Env 8
              (fun _ => JoinGame.QueryReply
                 (JoinGame.Reply (Some (StoreError "InternalServerError" "try again")) None) [])
              0 "alice" (JoinGame.Reply None None)) one_open_game).
  reflexivity.
Defined.

(** X10: [main] never raises: whatever the store answers it emits one
    record, whose status is success or failed.  A record with status
    success has no error, names the user of the join, and tells of a
    membership row of that user that was not stored before the run and is
    stored after it. *)
Theorem main_emits_one_record (py_str : exn -> string) (e : JoinGame.env)
    (w : JoinGame.world) :
  exists entry w',
    JoinGame.main py_str e w = (Ok entry, w') /\
    (JoinGame.log_status entry = "success" \/ JoinGame.log_status entry = "failed") /\
    (JoinGame.log_status entry = "success" ->
     JoinGame.log_error entry = None /\
     JoinGame.log_user_id entry = JoinGame.user_id e /\
     exists game_id,
       JoinGame.db w !! membership_key game_id (JoinGame.user_id e) = None /\
       JoinGame.db w' !! membership_key game_id (JoinGame.user_id e)
         = Some (membership_item game_id (JoinGame.user_id e))).
Proof.
  destruct (find_open_games_total py_str e (JoinGame.World reset (JoinGame.db w)))
    as (games & w1 & Hfind & Hdb & _).
  unfold JoinGame.main, bind, try_except, modify. rewrite Hfind.
  destruct games as [|g gs].
  { do 2 eexists. split; [reflexivity|]. cbn. split; [by right|]. discriminate. }
  pose proof (join_outcome py_str (choice (JoinGame.game_draw e) (g :: gs) ∅)
                (JoinGame.user_id e) (JoinGame.join_reply e) w1) as Hout.
  pose proof (join_success_row py_str (choice (JoinGame.game_draw e) (g :: gs) ∅)
                (JoinGame.user_id e) (JoinGame.join_reply e) w1) as Hrow.
  destruct (JoinGame.join_game_for_user py_str _ (JoinGame.user_id e) _ w1)
    as [[[]|err] w2] eqn:Ej; cbn [fst snd] in *.
  - do 2 eexists. split; [reflexivity|]. cbn. split; [by left|]. intros _.
    repeat split. destruct (Hrow eq_refl) as (gid & _ & Hnone & Hsome).
    cbn [JoinGame.db] in Hdb. exists gid. split; [by rewrite <- Hdb|exact Hsome].
  - assert (Hst : status (JoinGame.resource_tracker w2) = "failed").
    { destruct Hout as [(_ & _ & Hst & _)|(gid & _ & _ & _ & _ & [[Hf _]|(_ & Hst & _)])];
        try done. }
    do 2 eexists. split; [reflexivity|]. cbn. rewrite Hst. split; [by right|]. discriminate.
  - destruct Hout as [(Hf & _)|(gid & _ & _ & _ & _ & [[Hf _]|(Hf & _)])]; discriminate.
Qed.

Lemma main_emits_one_record_witness :
  exists entry w',
    JoinGame.main (fun _ => "boom") failing_first_query one_open_game = (Ok entry, w') /\
    JoinGame.log_status entry = "success" /\
    exists game_id,
      JoinGame.db w' !! membership_key game_id "alice"
        = Some (membership_item game_id "alice").
Proof.
  destruct (main_emits_one_record (fun _ => "boom") failing_first_query one_open_game)
    as (entry & w' & Hrun & _ & Hs).
  exists entry, w'. split; [exact Hrun|].
  assert (Hst : JoinGame.log_status entry = "success").
  { vm_compute in Hrun. injection Hrun as <- _. reflexivity. }
  split; [exact Hst|]. destruct (Hs Hst) as (_ & _ & g & _ & Hsome). by exists g.
Defined.

(** ** The index query, [main] and the random user of [query_user_games.py] *)

Lemma references_facts (user_id : string) (games : list QueryUserGames.response_item) :
  Forall (fun r => QueryUserGames.ref_game_id r <> "" /\ QueryUserGames.ref_username r = user_id)
    (QueryUserGames.references user_id games) /\
  (length (QueryUserGames.references user_id games) <= length games)%nat.
Proof.
  induction games as [|game games [IH1 IH2]]; simpl; [split; [constructor|lia]|].
  destruct (QueryUserGames.row_game_id game) as [g|]; [|split; [done|lia]].
  destruct (String.eqb g "") eqn:E; [split; [done|lia]|].
  split; [|simpl; lia]. constructor; [|done]. simpl. split; [|done].
  intros ->. by rewrite String.eqb_refl in E.
Qed.

Lemma query_user_games_run (py_str : exn -> string)
    (query : string -> QueryUserGames.query_reply) (user_id : string)
    (w : QueryUserGames.world) :
  exists games w',
    QueryUserGames.query_user_games py_str query user_id w = (Ok games, w') /\
    QueryUserGames.bulk_reads w' = QueryUserGames.bulk_reads w /\
    Forall (fun r => QueryUserGames.ref_game_id r <> "" /\
                     QueryUserGames.ref_username r = user_id) games /\
    (QueryUserGames.q_fault (query user_id) = None ->
     match QueryUserGames.q_ConsumedCapacity (query user_id) with
     | Some consumed_capacity => wf_report consumed_capacity = true
     | None => True
     end ->
     games = QueryUserGames.references user_id (QueryUserGames.Items (query user_id)) /\
     operations (QueryUserGames.resource_tracker w') =
       (operations (QueryUserGames.resource_tracker w) ++ ["query_user_games_" +:+ user_id])%list /\
     status (QueryUserGames.resource_tracker w') = status (QueryUserGames.resource_tracker w) /\
     error (QueryUserGames.resource_tracker w') = error (QueryUserGames.resource_tracker w)) /\
    (forall e, QueryUserGames.q_fault (query user_id) = Some e ->
       games = [] /\
       operations (QueryUserGames.resource_tracker w') =
         operations (QueryUserGames.resource_tracker w) /\
       status (QueryUserGames.resource_tracker w') = "failed" /\
       error (QueryUserGames.resource_tracker w') =
         Some (match e with
               | StoreError error_code error_message =>
                   if String.eqb error_code "ResourceNotFoundException"
                   then "GSI not found: " +:+ error_message
                   else "DynamoDB error: " +:+ error_message
               | _ => py_str e
               end)).
Proof.
  unfold QueryUserGames.query_user_games, try_except.
  destruct (QueryUserGames.q_fault (query user_id)) as [e|] eqn:Ef.
  - unfold raise.
    assert (Hrun : exists w',
      (match e with
       | StoreError error_code error_message =>
           (if String.eqb error_code "ResourceNotFoundException"
            then QueryUserGames.on_tracker (modify (set_error ("GSI not found: " +:+ error_message)))
            else QueryUserGames.on_tracker (modify (set_error ("DynamoDB error: " +:+ error_message)))) ;;;
           ret []
       | _ => QueryUserGames.on_tracker (modify (set_error (py_str e))) ;;; ret []
       end) w = (Ok ([] : list QueryUserGames.game_reference), w') /\
      w' = QueryUserGames.World
             (set_error (match e with
                         | StoreError error_code error_message =>
                             if String.eqb error_code "ResourceNotFoundException"
                             then "GSI not found: " +:+ error_message
                             else "DynamoDB error: " +:+ error_message
                         | _ => py_str e
                         end) (QueryUserGames.resource_tracker w))
             (QueryUserGames.bulk_reads w)).
    { destruct e as [v a|v|text|code msg]; try (eexists; split; reflexivity).
      destruct (String.eqb code "ResourceNotFoundException"); eexists; split; reflexivity. }
    destruct Hrun as (w' & Hrun & Hw'). exists [], w'. split; [exact Hrun|]. subst w'.
    split; [reflexivity|]. split; [constructor|]. split; [done|].
    intros e' [= <-]. repeat split.
  - assert (Hrec : forall r w1,
      match QueryUserGames.q_ConsumedCapacity (query user_id) with
      | Some consumed_capacity =>
          QueryUserGames.on_tracker
            (QueryUserGames.add_consumption ("query_user_games_" +:+ user_id) consumed_capacity)
      | None =>
          QueryUserGames.on_tracker
            (modify (append_operation ("query_user_games_" +:+ user_id)))
      end w = (r, w1) ->
      QueryUserGames.bulk_reads w1 = QueryUserGames.bulk_reads w /\
      (match QueryUserGames.q_ConsumedCapacity (query user_id) with
       | Some consumed_capacity => wf_report consumed_capacity = true
       | None => True
       end ->
       r = Ok tt /\
       operations (QueryUserGames.resource_tracker w1) =
         (operations (QueryUserGames.resource_tracker w)
          ++ ["query_user_games_" +:+ user_id])%list /\
       status (QueryUserGames.resource_tracker w1) = status (QueryUserGames.resource_tracker w) /\
       error (QueryUserGames.resource_tracker w1) = error (QueryUserGames.resource_tracker w))).
    { intros r w1. unfold QueryUserGames.on_tracker.
      destruct (QueryUserGames.q_ConsumedCapacity (query user_id)) as [cc|].
      - destruct (QueryUserGames.add_consumption _ cc _) as [r0 t0] eqn:E.
        intros [= <- <-]. split; [reflexivity|]. intros Hwf.
        assert (Hs : status t0 = status (QueryUserGames.resource_tracker w)).
        { by apply (query_add_consumption_keeps status _ _) in E. }
        assert (He : error t0 = error (QueryUserGames.resource_tracker w)).
        { by apply (query_add_consumption_keeps error _ _) in E. }
        rewrite (query_add_consumption_ok _ _ _ Hwf) in E. injection E as <- <-.
        cbn [QueryUserGames.resource_tracker] in *.
        split; [done|]. split; [|done]. cbn [append_operation operations].
        by rewrite denote_operations.
      - intros [= <- <-]. split; [reflexivity|]. intros _. repeat split. }
    match goal with
    | |- context [bind ?m ?k w] =>
        destruct (m w) as [[[]|e] w1] eqn:E;
          [rewrite (bind_returns _ _ _ _ _ E)|rewrite (bind_raises _ _ _ _ _ E)]
    end; destruct (Hrec _ _ eq_refl) as [Hreads Hwf].
    + exists (QueryUserGames.references user_id (QueryUserGames.Items (query user_id))), w1.
      split; [reflexivity|]. split; [exact Hreads|].
      split; [apply references_facts|]. split; [|done].
      intros _ Hc. destruct (Hwf Hc) as (_ & Ho & Hs & He). done.
    + assert (Hrun : exists w',
        (match e with
         | StoreError error_code error_message =>
             (if String.eqb error_code "ResourceNotFoundException"
              then QueryUserGames.on_tracker (modify (set_error ("GSI not found: " +:+ error_message)))
              else QueryUserGames.on_tracker (modify (set_error ("DynamoDB error: " +:+ error_message)))) ;;;
             ret []
         | _ => QueryUserGames.on_tracker (modify (set_error (py_str e))) ;;; ret []
         end) w1 = (Ok ([] : list QueryUserGames.game_reference), w') /\
        QueryUserGames.bulk_reads w' = QueryUserGames.bulk_reads w1).
      { destruct e as [v a|v|text|code msg]; try (eexists; split; reflexivity).
        destruct (String.eqb code "ResourceNotFoundException"); eexists; split; reflexivity. }
      destruct Hrun as (w' & -> & Hr). exists [], w'. split; [reflexivity|].
      split; [by rewrite Hr|]. split; [constructor|]. split; [|done].
      intros _ Hc. by destruct (Hwf Hc).
Qed.

(** X11: [query_user_games] never raises.  When the store answers the
    index query, with a well-typed report if with any, it records the
    operation [query_user_games_<user>] once, leaves status and error
    alone and returns one reference per row that has a game id, in the
    order of the rows, each with a non-empty game id and the user asked
    for.  When the store refuses with a [ClientError], it returns the empty
    list, records no operation and marks the tracker failed with
    "GSI not found: <message>" for the code [ResourceNotFoundException]
    and "DynamoDB error: <message>" for any other code; any other
    exception marks it failed with the text of the exception.  No bulk
    read is sent in any case. *)
Theorem query_user_games_outcomes (py_str : exn -> string)
    (query : string -> QueryUserGames.query_reply) (user_id : string)
    (w : QueryUserGames.world) :
  exists games w',
    QueryUserGames.query_user_games py_str query user_id w = (Ok games, w') /\
    QueryUserGames.bulk_reads w' = QueryUserGames.bulk_reads w /\
    Forall (fun r => QueryUserGames.ref_game_id r <> "" /\
                     QueryUserGames.ref_username r = user_id) games /\
    (QueryUserGames.q_fault (query user_id) = None ->
     match QueryUserGames.q_ConsumedCapacity (query user_id) with
     | Some consumed_capacity => wf_report consumed_capacity = true
     | None => True
     end ->
     games = QueryUserGames.references user_id (QueryUserGames.Items (query user_id)) /\
     operations (QueryUserGames.resource_tracker w') =
       (operations (QueryUserGames.resource_tracker w) ++ ["query_user_games_" +:+ user_id])%list /\
     status (QueryUserGames.resource_tracker w') = status (QueryUserGames.resource_tracker w) /\
     error (QueryUserGames.resource_tracker w') = error (QueryUserGames.resource_tracker w)) /\
    (forall e, QueryUserGames.q_fault (query user_id) = Some e ->
       games = [] /\
       operations (QueryUserGames.resource_tracker w') =
         operations (QueryUserGames.resource_tracker w) /\
       status (QueryUserGames.resource_tracker w') = "failed" /\
       error (QueryUserGames.resource_tracker w') =
         Some (match e with
               | StoreError error_code error_message =>
                   if String.eqb error_code "ResourceNotFoundException"
                   then "GSI not found: " +:+ error_message
                   else "DynamoDB error: " +:+ error_message
               | _ => py_str e
               end)).
Proof. apply query_user_games_run. Qed.

Lemma query_user_games_outcomes_witness :
  (exists w',
     QueryUserGames.query_user_games (fun _ => "boom") index_of_alice "alice"
       (QueryUserGames.World reset []) =
       (Ok [QueryUserGames.GameReference "G1" "alice"; QueryUserGames.GameReference "G2" "alice"],
        w') /\
     operations (QueryUserGames.resource_tracker w') = ["query_user_games_alice"] /\
     status (QueryUserGames.resource_tracker w') = "success") /\
  (exists w',
     QueryUserGames.query_user_games (fun _ => "boom") index_of_alice "bob"
       (QueryUserGames.World reset []) = (Ok [], w') /\
     operations (QueryUserGames.resource_tracker w') = [] /\
     status (QueryUserGames.resource_tracker w') = "failed" /\
     error (QueryUserGames.resource_tracker w') = Some "GSI not found: no such index").
Proof.
  split.
  - destruct (query_user_games_outcomes (fun _ => "boom") index_of_alice "alice"
                (QueryUserGames.World reset []))
      as (games & w' & Hrun & _ & _ & Hans & _).
    destruct (Hans eq_refl eq_refl) as (-> & Hops & Hst & _).
    exists w'. split; [exact Hrun|]. split; [exact Hops|exact Hst].
  - destruct (query_user_games_outcomes (fun _ => "boom") index_of_alice "bob"
                (QueryUserGames.World reset []))
      as (games & w' & Hrun & _ & _ & _ & Hfault).
    destruct (Hfault _ eq_refl) as (-> & Hops & Hst & Herr).
    exists w'. split; [exact Hrun|]. split; [exact Hops|]. split; [exact Hst|exact Herr].
Defined.

Lemma denote_status_error (rd : bool) (tot : list (string * pyval) -> Z * Z)
    (consumed_capacity : pyval) (t : tracker) :
  status (denote rd tot consumed_capacity t) = status t /\
  error (denote rd tot consumed_capacity t) = error t.
Proof.
  destruct consumed_capacity as [| | |d|l]; try done. simpl.
  revert t. induction l as [|[] l IH]; intros t; simpl; try done.
  destruct (IH (folded rd d (tot d) t)) as [-> ->]. done.
Qed.

Lemma batch_effect_fold_status
    (batch_get_item : list (string * string) -> QueryUserGames.batch_reply)
    (keys : list (string * string)) (l : list nat) (w : QueryUserGames.world) :
  let w' := fold_left (batch_effect batch_get_item keys) l w in
  status (QueryUserGames.resource_tracker w') = status (QueryUserGames.resource_tracker w) /\
  error (QueryUserGames.resource_tracker w') = error (QueryUserGames.resource_tracker w).
Proof.
  revert w. induction l as [|i l IH]; intros w; simpl; [done|].
  destruct (IH (batch_effect batch_get_item keys w i)) as [-> ->]. simpl.
  destruct (QueryUserGames.ConsumedCapacity _); [|done]. apply denote_status_error.
Qed.

Lemma get_game_details_total (py_str : exn -> string) (py_int : string -> option Z)
    (batch_get_item : list (string * string) -> QueryUserGames.batch_reply)
    (game_ids : list string) (w : QueryUserGames.world) :
  exists details w',
    QueryUserGames.get_game_details py_str py_int batch_get_item game_ids w = (Ok details, w').
Proof.
  unfold QueryUserGames.get_game_details. destruct game_ids as [|g ids]; [by do 2 eexists|].
  unfold try_except.
  destruct (for_each _ _ _ w) as [[details|e] w1]; by do 2 eexists.
Qed.

Lemma query_main_run (py_str : exn -> string) (py_int : string -> option Z)
    (batch_get_item : list (string * string) -> QueryUserGames.batch_reply)
    (query : string -> QueryUserGames.query_reply)
    (argv1 : option string) (random_user : string) (w : QueryUserGames.world) :
  exists games w1 w',
    QueryUserGames.query_user_games py_str query (default random_user argv1)
      (QueryUserGames.World reset (QueryUserGames.bulk_reads w)) = (Ok games, w1) /\
    snd (match games with
         | [] => (Ok [], w1)
         | _ :: _ =>
             QueryUserGames.get_game_details py_str py_int batch_get_item
               (List.map QueryUserGames.ref_game_id games) w1
         end) = w' /\
    QueryUserGames.main py_str py_int batch_get_item query argv1 random_user w =
      (Ok (JoinGame.LogEntry "query-user-games"
             (operations (QueryUserGames.resource_tracker w'))
             (default random_user argv1)
             (total_rcu (QueryUserGames.resource_tracker w'))
             (total_wcu (QueryUserGames.resource_tracker w'))
             "battle-royale"
             (status (QueryUserGames.resource_tracker w'))
             (table_consumption (QueryUserGames.resource_tracker w'))
             (if bool_decide (gsi_consumption (QueryUserGames.resource_tracker w') = ∅)
              then None else Some (gsi_consumption (QueryUserGames.resource_tracker w')))
             (match error (QueryUserGames.resource_tracker w') with
              | Some msg => if String.eqb msg "" then None else Some msg
              | None => None
              end)), w').
Proof.
  destruct (query_user_games_run py_str query (default random_user argv1)
              (QueryUserGames.World reset (QueryUserGames.bulk_reads w)))
    as (games & w1 & Hq & _).
  exists games, w1. unfold QueryUserGames.main.
  rewrite (bind_returns _ _ w (QueryUserGames.World reset (QueryUserGames.bulk_reads w)) tt
             eq_refl).
  unfold try_except. rewrite (bind_returns _ _ _ _ _ Hq).
  destruct games as [|g games].
  - exists w1. split; [done|]. split; reflexivity.
  - destruct (get_game_details_total py_str py_int batch_get_item
                (List.map QueryUserGames.ref_game_id (g :: games)) w1)
      as (details & w2 & Hd).
    exists w2. split; [done|]. split; [by rewrite Hd|].
    rewrite (bind_returns _ _ _ _ _ Hd). reflexivity.
Qed.

(** X12: [main] of [query_user_games.py] never raises and emits one usage
    record, for module "query-user-games", table "battle-royale" and the
    user given on the command line, or else the random one; the tracker is
    reset first, so the record reports this run only.  When the index
    query fails, the record is failed, lists no operation and no bulk read
    is sent.  When the index query is answered and the pass over every
    batch of the games found goes through, the record lists the query and
    then one operation per batch, with status success and no error, and
    the bulk reads sent are the batches. *)
Theorem query_main_emits_one_record (py_str : exn -> string) (py_int : string -> option Z)
    (batch_get_item : list (string * string) -> QueryUserGames.batch_reply)
    (query : string -> QueryUserGames.query_reply)
    (argv1 : option string) (random_user : string) (w : QueryUserGames.world) :
  exists entry w',
    QueryUserGames.main py_str py_int batch_get_item query argv1 random_user w = (Ok entry, w') /\
    JoinGame.log_module entry = "query-user-games" /\
    JoinGame.log_table entry = "battle-royale" /\
    JoinGame.log_user_id entry = default random_user argv1 /\
    (forall e, QueryUserGames.q_fault (query (default random_user argv1)) = Some e ->
       JoinGame.log_status entry = "failed" /\
       JoinGame.log_operations entry = [] /\
       QueryUserGames.bulk_reads w' = QueryUserGames.bulk_reads w) /\
    (QueryUserGames.q_fault (query (default random_user argv1)) = None ->
     match QueryUserGames.q_ConsumedCapacity (query (default random_user argv1)) with
     | Some consumed_capacity => wf_report consumed_capacity = true
     | None => True
     end ->
     Forall (passes py_int batch_get_item)
       (batches (game_keys (List.map QueryUserGames.ref_game_id
                              (QueryUserGames.references (default random_user argv1)
                                 (QueryUserGames.Items (query (default random_user argv1))))))) ->
     JoinGame.log_operations entry =
       ("query_user_games_" +:+ default random_user argv1)
       :: List.map batch_name
            (seq 0 (length (batches (game_keys (List.map QueryUserGames.ref_game_id
                              (QueryUserGames.references (default random_user argv1)
                                 (QueryUserGames.Items (query (default random_user argv1))))))))) /\
     JoinGame.log_status entry = "success" /\
     JoinGame.log_error entry = None /\
     QueryUserGames.bulk_reads w' =
       (QueryUserGames.bulk_reads w
        ++ batches (game_keys (List.map QueryUserGames.ref_game_id
                              (QueryUserGames.references (default random_user argv1)
                                 (QueryUserGames.Items (query (default random_user argv1)))))))%list).
Proof.
  destruct (query_main_run py_str py_int batch_get_item query argv1 random_user w)
    as (games & w1 & w' & Hq & Hw' & Hmain).
  set (user := default random_user argv1) in *.
  destruct (query_user_games_run py_str query user
              (QueryUserGames.World reset (QueryUserGames.bulk_reads w)))
    as (games' & w1' & Hq' & Hreads & _ & Hans & Hfault).
  rewrite Hq in Hq'. injection Hq' as <- <-.
  cbn [QueryUserGames.resource_tracker QueryUserGames.bulk_reads] in *.
  eexists _, w'. split; [exact Hmain|]. cbn [JoinGame.log_module JoinGame.log_table
    JoinGame.log_user_id JoinGame.log_status JoinGame.log_operations JoinGame.log_error].
  split; [done|]. split; [done|]. split; [done|]. split.
  - intros e He. destruct (Hfault e He) as (-> & Hops & Hst & _).
    cbn [snd] in Hw'. subst w'. by rewrite Hops, Hst.
  - intros Hnone Hwf Hpass. destruct (Hans Hnone Hwf) as (Hg & Hops & Hst & Herr).
    rewrite <- Hg in *. clear Hg.
    assert (Hlook : QueryUserGames.get_game_details py_str py_int batch_get_item
                      (List.map QueryUserGames.ref_game_id games) w1 =
                    (Ok (concat (List.map (batch_details py_int batch_get_item)
                                   (batches (game_keys (List.map QueryUserGames.ref_game_id games))))),
                     fold_left (batch_effect batch_get_item
                                  (game_keys (List.map QueryUserGames.ref_game_id games)))
                       (QueryUserGames.py_range
                          (length (game_keys (List.map QueryUserGames.ref_game_id games))) 100) w1))
      by (by apply lookup_all_pass).
    assert (Hw2 : w' = fold_left (batch_effect batch_get_item
                                    (game_keys (List.map QueryUserGames.ref_game_id games)))
                         (QueryUserGames.py_range
                            (length (game_keys (List.map QueryUserGames.ref_game_id games))) 100) w1).
    { destruct games as [|g games]; [by subst w'|]. rewrite Hlook in Hw'. by subst w'. }
    clear Hw' Hmain. subst w'.
    destruct (batch_effect_fold batch_get_item
                (game_keys (List.map QueryUserGames.ref_game_id games))
                (QueryUserGames.py_range
                   (length (game_keys (List.map QueryUserGames.ref_game_id games))) 100) w1)
      as [-> ->].
    destruct (batch_effect_fold_status batch_get_item
                (game_keys (List.map QueryUserGames.ref_game_id games))
                (QueryUserGames.py_range
                   (length (game_keys (List.map QueryUserGames.ref_game_id games))) 100) w1)
      as [-> ->].
    rewrite Hops, Hst, Herr, Hreads. cbn [operations status error reset app].
    split; [|done]. f_equal. unfold batches.
    rewrite py_range_100, !length_map, length_seq. apply names_of_offsets.
Qed.

Lemma query_main_emits_one_record_witness :
  (exists entry w',
     QueryUserGames.main (fun _ => "boom") plain_int game_store index_of_alice
       (Some "alice") "bob" (QueryUserGames.World (set_error "stale" reset) []) = (Ok entry, w') /\
     JoinGame.log_user_id entry = "alice" /\
     JoinGame.log_operations entry = ["query_user_games_alice"; "get_game_details_batch_0"] /\
     JoinGame.log_status entry = "success" /\ JoinGame.log_error entry = None /\
     List.map length (QueryUserGames.bulk_reads w') = [2]%nat) /\
  (exists entry w',
     QueryUserGames.main (fun _ => "boom") plain_int game_store index_of_alice
       None "bob" (QueryUserGames.World reset []) = (Ok entry, w') /\
     JoinGame.log_user_id entry = "bob" /\
     JoinGame.log_status entry = "failed" /\ JoinGame.log_operations entry = [] /\
     QueryUserGames.bulk_reads w' = []).
Proof.
  split.
  - destruct (query_main_emits_one_record (fun _ => "boom") plain_int game_store index_of_alice
                (Some "alice") "bob" (QueryUserGames.World (set_error "stale" reset) []))
      as (entry & w' & Hrun & _ & _ & Hu & _ & Hans).
    destruct (Hans eq_refl eq_refl) as (Hops & Hst & Herr & Hreads).
    { apply Forall_forall. intros b _. split; [reflexivity|].
      destruct b as [|key b]; reflexivity. }
    exists entry, w'. split; [exact Hrun|]. split; [exact Hu|]. split; [exact Hops|].
    split; [exact Hst|]. split; [exact Herr|]. rewrite Hreads. reflexivity.
  - destruct (query_main_emits_one_record (fun _ => "boom") plain_int game_store index_of_alice
                None "bob" (QueryUserGames.World reset []))
      as (entry & w' & Hrun & _ & _ & Hu & Hfault & _).
    destruct (Hfault _ eq_refl) as (Hst & Hops & Hreads).
    exists entry, w'. split; [exact Hrun|]. split; [exact Hu|]. split; [exact Hst|].
    split; [exact Hops|exact Hreads].
Defined.

Lemma tag_free_tail (c : Ascii.ascii) (s : string) : tag_free (String c s) -> tag_free s.
Proof. intros H pre post ->. by apply (H (String c pre) post). Qed.

Lemma prefix_append (p s : string) :
  String.prefix p s = true -> exists post, s = p +:+ post.
Proof.
  revert s. induction p as [|c p IH]; intros s H.
  - by exists s.
  - destruct s as [|c' s]; [done|]. simpl in H.
    destruct (Ascii.ascii_dec c c') as [->|]; [|done].
    destruct (IH _ H) as [post ->]. by exists post.
Qed.

Lemma tag_free_no_prefix (s : string) : tag_free s -> String.prefix "USER#" s = false.
Proof.
  intros H. destruct (String.prefix "USER#" s) eqn:E; [|done].
  destruct (prefix_append _ _ E) as [post ->]. by destruct (H "" post).
Qed.

Lemma remove_user_tag_free (s : string) :
  tag_free s -> QueryUserGames.remove_user_tag 0 s = s.
Proof.
  induction s as [|c s IH]; intros H; [done|].
  cbn [QueryUserGames.remove_user_tag]. rewrite (tag_free_no_prefix _ H).
  by rewrite (IH (tag_free_tail _ _ H)).
Qed.

Lemma remove_user_tag_tagged (u : string) :
  tag_free u -> QueryUserGames.remove_user_tag 0 ("USER#" +:+ u) = u.
Proof.
  intros H. rewrite <- (remove_user_tag_free u H) at 2. by destruct u.
Qed.

(** X13: [get_random_user_from_table] returns the user of the row drawn,
    that is the string under its ["PK"] with every "USER#" taken out, so
    the name [u] itself for a row keyed ["USER#" + u] when [u] holds no
    "USER#"; when the scan fails or returns no row it returns "user_"
    followed by the first eight characters of a fresh uuid. *)
Theorem random_user_rule (scan : QueryUserGames.scan_reply) (draw : nat) (uuid_hex : string) :
  (QueryUserGames.s_fault scan <> None \/ QueryUserGames.s_Items scan = [] ->
   QueryUserGames.get_random_user_from_table scan draw uuid_hex =
     "user_" +:+ String.substring 0 8 uuid_hex) /\
  (forall pk,
     QueryUserGames.s_fault scan = None -> QueryUserGames.s_Items scan <> [] ->
     choice draw (QueryUserGames.s_Items scan) ∅ !! "PK" = Some (QueryUserGames.RespS pk) ->
     In (choice draw (QueryUserGames.s_Items scan) ∅) (QueryUserGames.s_Items scan) /\
     QueryUserGames.get_random_user_from_table scan draw uuid_hex =
       QueryUserGames.remove_user_tag 0 pk /\
     (forall u, pk = "USER#" +:+ u -> tag_free u ->
        QueryUserGames.get_random_user_from_table scan draw uuid_hex = u)).
Proof.
  unfold QueryUserGames.get_random_user_from_table. split.
  - intros [H|H].
    + by destruct (QueryUserGames.s_fault scan).
    + rewrite H. by destruct (QueryUserGames.s_fault scan).
  - intros pk Hf Hi Hpk. rewrite Hf.
    destruct (QueryUserGames.s_Items scan) as [|x l] eqn:E; [done|].
    rewrite Hpk. split; [|split; [done|]].
    + unfold choice. apply nth_In. apply Nat.mod_upper_bound. done.
    + intros u -> Hu. by apply remove_user_tag_tagged.
Qed.

Lemma random_user_rule_witness :
  QueryUserGames.get_random_user_from_table
    (QueryUserGames.ScanReply None
       [ {[ "PK" := QueryUserGames.RespS "USER#alice" ]};
         {[ "PK" := QueryUserGames.RespS "USER#bob" ]} ]) 3 "0123456789abcdef" = "bob" /\
  QueryUserGames.get_random_user_from_table
    (QueryUserGames.ScanReply (Some (StoreError "AccessDeniedException" "no")) [])
    3 "0123456789abcdef" = "user_01234567".
Proof.
  split.
  - apply (proj2 (random_user_rule
                    (QueryUserGames.ScanReply None
                       [ {[ "PK" := QueryUserGames.RespS "USER#alice" ]};
                         {[ "PK" := QueryUserGames.RespS "USER#bob" ]} ]) 3 "0123456789abcdef")
             "USER#bob"); try done.
    intros pre post H. destruct pre as [|c1 [|c2 [|c3 pre]]]; simpl in H; try done.
    all: injection H; intros; try done.
    all: destruct pre; simpl in *; done.
  - apply (proj1 (random_user_rule
                    (QueryUserGames.ScanReply (Some (StoreError "AccessDeniedException" "no")) [])
                    3 "0123456789abcdef")).
    by left.
Defined.
